(** * The issue reporter window (vs/code/electron-browser/issue/issueReporterMain.ts)

    A shallow embedding of the [IssueReporter] class: the data it keeps in
    its [IssueReporterModel], the page elements it reads and writes, and the
    handlers it installs.

    Conventions.
    - A JavaScript string is a [string]; a character stands for the code
      unit of the same number (U+0000 to U+00FF).
    - A JavaScript object used as a bag of optional fields is a
      [gmap string JsValue]; reading a missing key gives [JUndefined].
    - A method of the class is a function in the monad [M]: it threads the
      state of the window and fails ([None]) where the script would throw
      a [TypeError] on [null] or [undefined]. *)

From Stdlib Require Import DecimalString DecimalFacts DecimalNat.
From stdpp Require Import gmap strings list fin_maps.

(** ** Text *)

Definition nl : string := String (Ascii.ascii_of_nat 10) "".
Definition tab : string := String (Ascii.ascii_of_nat 9) "".

Fixpoint tabs (n : nat) : string :=
  match n with
  | O => ""
  | S k => tab +:+ tabs k
  end.

(** A line of a template literal: a line break, [n] tabs, the text. *)
Definition line (n : nat) (s : string) : string := nl +:+ tabs n +:+ s.

(** [`${n}`] for an array length. *)
Definition numberToString (n : nat) : string :=
  NilZero.string_of_uint (Nat.to_uint n).

(** [s.substr(0, n)]. *)
Definition substr0 (n : nat) (s : string) : string := String.substring 0 n s.

(** ** Extensions (vs/platform/extensionManagement) *)

(** The manifest fields the window reads. [activationEvents] and
    [contributes] are optional; [contributes] is kept as the list of the
    object's own entries, in enumeration order. *)
Record IExtensionManifest := {
  name : string;
  publisher : string;
  version : string;
  activationEvents : option (list string);
  contributes : option (list (string * string))
}.

Record ILocalExtension := { manifest : IExtensionManifest }.

(** [Object.keys(o)]. *)
Definition Object_keys (o : list (string * string)) : list string := o.*1.

(** ** Values held by the model *)

Inductive JsValue :=
  | JUndefined
  | JBool (b : bool)
  | JNumber (n : Z)
  | JNaN
  | JString (s : string)
  | JVersionInfo (vscodeVersion os : string)
  | JExtensions (l : list ILocalExtension)
  | JData (payload : string).

(** Truthiness, as [if (v)], [!v], [v || w] and [v && w] see it. *)
Definition truthy (v : JsValue) : bool :=
  match v with
  | JUndefined | JNaN => false
  | JBool b => b
  | JNumber n => negb (n =? 0)%Z
  | JString s => negb (String.eqb s "")
  | JVersionInfo _ _ | JExtensions _ | JData _ => true
  end.

(** [v === n] for a number literal [n]. *)
Definition strictEqNumber (v : JsValue) (n : Z) : bool :=
  match v with
  | JNumber m => (m =? n)%Z
  | _ => false
  end.

(** [s || fallback] for an optional string. *)
Definition orString (s : option string) (fallback : string) : string :=
  match s with
  | Some t => if String.eqb t "" then fallback else t
  | None => fallback
  end.

(** ** IssueType and IssueReporterModel (vs/code/electron-browser/issue/issueReporterModel) *)

(** Modelled from the spec: the enum [IssueType] is declared in
    issueReporterModel.ts, which is not among the sources at hand. The
    spec gives its three members, Bug, PerformanceIssue and FeatureRequest;
    as a TypeScript numeric enum they are numbered from zero in that
    order. *)
Inductive IssueType := Bug | PerformanceIssue | FeatureRequest.

Definition IssueType_number (t : IssueType) : Z :=
  match t with
  | Bug => 0
  | PerformanceIssue => 1
  | FeatureRequest => 2
  end.

Definition JIssueType (t : IssueType) : JsValue := JNumber (IssueType_number t).

Module IssueReporterModel.

(** Modelled from the spec: the class [IssueReporterModel] is not among
    the sources at hand. The spec describes it as one aggregate of
    optional fields, created from the initial data, read by [getData]
    and changed by [update], a shallow merge: any key present in the
    partial replaces the prior value entirely, missing keys are
    untouched. *)
Definition create (initialData : gmap string JsValue) : gmap string JsValue :=
  initialData.

Definition update (newData data : gmap string JsValue) : gmap string JsValue :=
  newData ∪ data.

(** [getData()[key]] *)
Definition get (data : gmap string JsValue) (key : string) : JsValue :=
  default JUndefined (data !! key).

End IssueReporterModel.

(** ** collections.groupBy (vs/base/common/collections) *)

(** Modelled from the spec: [groupBy] is not among the sources at hand. It
    sorts the elements of [data] into the groups named by [groupFn],
    keeping the order of receipt inside each group; a group that no
    element falls into is absent from the result (reading it gives
    [undefined]), it is never an empty array. *)
Definition groupBy {T} (data : list T) (groupFn : T → string) : gmap string (list T) :=
  foldl (λ (result : gmap string (list T)) element,
           let key := groupFn element in
           let target := default [] (result !! key) in
           <[key := (target ++ [element])%list]> result)
        ∅ data.

(** ** handleExtensionData: the grouping step *)

(** Truthiness of an optional array or object: any value but [undefined]. *)
Definition defined {A} (o : option A) : bool :=
  match o with
  | Some _ => true
  | None => false
  end.

Definition onlyTheme (ext : ILocalExtension) : bool :=
  let manifestKeys :=
    match contributes (manifest ext) with
    | Some c => Object_keys c
    | None => []
    end in
  negb (defined (activationEvents (manifest ext)))
  && (length manifestKeys =? 1)
  && match manifestKeys !! 0 with
     | Some key => String.eqb key "themes"
     | None => false
     end.

Definition extensionGroup (ext : ILocalExtension) : string :=
  if onlyTheme ext then "themes" else "nonThemes".

(** ** updateExtensionTable: the markup *)

Definition themeExclusionStr (numThemeExtensions : option nat) : string :=
  match numThemeExtensions with
  | Some (S n) => nl +:+ "(" +:+ numberToString (S n) +:+ " theme extensions excluded)"
  | Some O | None => ""
  end.

Definition extensionTableHeader : string :=
  line 3 "<tr>"
  +:+ line 4 "<th>Extension</th>"
  +:+ line 4 "<th>Author (truncated)</th>"
  +:+ line 4 "<th>Version</th>"
  +:+ line 3 "</tr>".

Definition extensionTableRow (extension : ILocalExtension) : string :=
  line 4 "<tr>"
  +:+ line 5 ("<td>" +:+ name (manifest extension) +:+ "</td>")
  +:+ line 5 ("<td>" +:+ substr0 3 (publisher (manifest extension)) +:+ "</td>")
  +:+ line 5 ("<td>" +:+ version (manifest extension) +:+ "</td>")
  +:+ line 4 "</tr>".

(** The string assigned to [target.innerHTML]. *)
Definition extensionTableHtml (extensions : option (list ILocalExtension))
    (numThemeExtensions : option nat) : string :=
  let extensions := default [] extensions in
  if length extensions =? 0 then
    "Extensions: none" +:+ themeExclusionStr numThemeExtensions
  else
    let table := foldl (λ table extension, table +:+ extensionTableRow extension)
                       extensionTableHeader extensions in
    "<table>" +:+ table +:+ "</table>" +:+ themeExclusionStr numThemeExtensions.


(** ** The page *)

Module DOM.

(** An element of the page: what the window script reads and writes of
    it. [innerHTML] is the markup last assigned. [parentNode] is the
    position of the parent in the document. *)
Record Element := {
  id : string;
  classList : list string;
  value : string;
  innerHTML : string;
  parentNode : option nat
}.

(** The elements of the page in document order; an element is referred
    to by its position. *)
Abbreviation Document := (list Element).

Definition hasClass (c : string) (e : Element) : bool :=
  bool_decide (c ∈ classList e).

(** [classList.add] and [classList.remove] *)
Definition classList_add (c : string) (e : Element) : Element :=
  {| id := id e;
     classList := if hasClass c e then classList e else (classList e ++ [c])%list;
     value := value e; innerHTML := innerHTML e; parentNode := parentNode e |}.

Definition classList_remove (c : string) (e : Element) : Element :=
  {| id := id e;
     classList := filter (λ d, d ≠ c) (classList e);
     value := value e; innerHTML := innerHTML e; parentNode := parentNode e |}.

Definition set_innerHTML (html : string) (e : Element) : Element :=
  {| id := id e; classList := classList e; value := value e;
     innerHTML := html; parentNode := parentNode e |}.

(** The chain of ancestors of an element, nearest first. *)
Fixpoint ancestors (fuel : nat) (doc : Document) (e : Element) : list Element :=
  match fuel with
  | O => []
  | S fuel' =>
      match parentNode e ≫= (doc !!.) with
      | Some p => p :: ancestors fuel' doc p
      | None => []
      end
  end.

(** A selector [.c1 .c2 ... .cn] is the list of its class names. The
    function is given the names that remain to be found, innermost
    first, and the ancestors that remain to be searched. *)
Fixpoint matchesAbove (sel : list string) (anc : list Element) : bool :=
  match anc with
  | [] => bool_decide (sel = [])
  | a :: anc' =>
      match sel with
      | [] => true
      | c :: sel' => (hasClass c a && matchesAbove sel' anc') || matchesAbove sel anc'
      end
  end.

Definition matches (doc : Document) (sel : list string) (e : Element) : bool :=
  match reverse sel with
  | [] => false
  | c :: sel' => hasClass c e && matchesAbove sel' (ancestors (length doc) doc e)
  end.

Definition getElementById (elementId : string) (doc : Document) : option nat :=
  fst <$> list_find (λ e, id e = elementId) doc.

Definition querySelector (sel : list string) (doc : Document) : option nat :=
  fst <$> list_find (λ e, matches doc sel e = true) doc.

(** [getElementsByClassName(c)[0]] *)
Definition firstByClassName (c : string) (doc : Document) : option nat :=
  fst <$> list_find (λ e, hasClass c e = true) doc.

End DOM.

(** An element is shown unless it carries the class [hidden]. *)
Definition hidden (e : DOM.Element) : bool := DOM.hasClass "hidden" e.

(** ** The window *)

Record IssueReporter := {
  issueReporterModel : gmap string JsValue;
  (** the telemetry service, if any, with the events logged so far *)
  telemetryService : option (list (string * JsValue));
  document : DOM.Document;
  (** the element that has the focus *)
  activeElement : option nat;
  (** the listeners added with [addEventListener], oldest first: the id
      of the element and the type of the event *)
  listeners : list (string * string);
  (** the addresses passed to [shell.openExternal], oldest first *)
  openedExternal : list string;
  (** [remote.getCurrentWindow().close()] was called *)
  windowClosed : bool;
  (** [document.onkeydown] holds the handler that [setEventHandlers]
      assigns to it *)
  document_onkeydown : bool
}.

Definition M (A : Type) : Type := IssueReporter → option (A * IssueReporter).

Definition ret {A} (a : A) : M A := λ s, Some (a, s).

Definition bind {A B} (m : M A) (k : A → M B) : M B :=
  λ s, match m s with
       | Some (a, s') => k a s'
       | None => None
       end.

(** The script throws. *)
Definition throw {A} : M A := λ _, None.

Declare Scope M_scope.
Delimit Scope M_scope with M.
Notation "x <- m ;; k" := (bind m (λ x, k))
  (at level 100, m at next level, right associativity) : M_scope.
Notation "m ;; k" := (bind m (λ _, k))
  (at level 100, right associativity) : M_scope.
Local Open Scope M_scope.

Definition gets {A} (f : IssueReporter → A) : M A := λ s, Some (f s, s).

(** Assignments to one field of the window. *)
Definition withModel (f : gmap string JsValue → gmap string JsValue)
    (s : IssueReporter) : IssueReporter :=
  {| issueReporterModel := f (issueReporterModel s);
     telemetryService := telemetryService s;
     document := document s;
     activeElement := activeElement s;
     listeners := listeners s;
     openedExternal := openedExternal s;
     windowClosed := windowClosed s;
     document_onkeydown := document_onkeydown s |}.

Definition withTelemetry (f : list (string * JsValue) → list (string * JsValue))
    (s : IssueReporter) : IssueReporter :=
  {| issueReporterModel := issueReporterModel s;
     telemetryService := f <$> telemetryService s;
     document := document s;
     activeElement := activeElement s;
     listeners := listeners s;
     openedExternal := openedExternal s;
     windowClosed := windowClosed s;
     document_onkeydown := document_onkeydown s |}.

Definition withDocument (f : DOM.Document → DOM.Document)
    (s : IssueReporter) : IssueReporter :=
  {| issueReporterModel := issueReporterModel s;
     telemetryService := telemetryService s;
     document := f (document s);
     activeElement := activeElement s;
     listeners := listeners s;
     openedExternal := openedExternal s;
     windowClosed := windowClosed s;
     document_onkeydown := document_onkeydown s |}.

Definition withActiveElement (el : option nat) (s : IssueReporter) : IssueReporter :=
  {| issueReporterModel := issueReporterModel s;
     telemetryService := telemetryService s;
     document := document s;
     activeElement := el;
     listeners := listeners s;
     openedExternal := openedExternal s;
     windowClosed := windowClosed s;
     document_onkeydown := document_onkeydown s |}.

Definition withListener (elementId type : string) (s : IssueReporter) : IssueReporter :=
  {| issueReporterModel := issueReporterModel s;
     telemetryService := telemetryService s;
     document := document s;
     activeElement := activeElement s;
     listeners := (listeners s ++ [(elementId, type)])%list;
     openedExternal := openedExternal s;
     windowClosed := windowClosed s;
     document_onkeydown := document_onkeydown s |}.

Definition withOpenedExternal (url : string) (s : IssueReporter) : IssueReporter :=
  {| issueReporterModel := issueReporterModel s;
     telemetryService := telemetryService s;
     document := document s;
     activeElement := activeElement s;
     listeners := listeners s;
     openedExternal := (openedExternal s ++ [url])%list;
     windowClosed := windowClosed s;
     document_onkeydown := document_onkeydown s |}.

Definition withWindowClosed (s : IssueReporter) : IssueReporter :=
  {| issueReporterModel := issueReporterModel s;
     telemetryService := telemetryService s;
     document := document s;
     activeElement := activeElement s;
     listeners := listeners s;
     openedExternal := openedExternal s;
     windowClosed := true;
     document_onkeydown := document_onkeydown s |}.

Definition withOnkeydown (s : IssueReporter) : IssueReporter :=
  {| issueReporterModel := issueReporterModel s;
     telemetryService := telemetryService s;
     document := document s;
     activeElement := activeElement s;
     listeners := listeners s;
     openedExternal := openedExternal s;
     windowClosed := windowClosed s;
     document_onkeydown := true |}.

Definition modifyState (f : IssueReporter → IssueReporter) : M unit :=
  λ s, Some (tt, f s).

Definition setDocument (f : DOM.Document → DOM.Document) : M unit :=
  modifyState (withDocument f).

Definition setModel (f : gmap string JsValue → gmap string JsValue) : M unit :=
  modifyState (withModel f).

(** Access to a property of [el]: a [TypeError] when [el] is [null]. *)
Definition deref (el : option nat) : M DOM.Element :=
  match el with
  | Some i => d <- gets document ;;
              match d !! i with
              | Some e => ret e
              | None => throw
              end
  | None => throw
  end.

Definition modify (el : option nat) (f : DOM.Element → DOM.Element) : M unit :=
  _ <- deref el ;;
  match el with
  | Some i => setDocument (alter f i)
  | None => throw
  end.

Definition getElementById (elementId : string) : M (option nat) :=
  gets (λ s, DOM.getElementById elementId (document s)).

Definition querySelector (sel : list string) : M (option nat) :=
  gets (λ s, DOM.querySelector sel (document s)).

Definition hide (el : option nat) : M unit := modify el (DOM.classList_add "hidden").
Definition show (el : option nat) : M unit := modify el (DOM.classList_remove "hidden").

(** ** encodeURIComponent *)

(** The characters [encodeURIComponent] leaves as they are: letters,
    digits and [- _ . ! ~ * ' ( )]. *)
Definition uriUnreserved (c : Ascii.ascii) : bool :=
  let n := Ascii.nat_of_ascii c in
  ((65 <=? n) && (n <=? 90)) || ((97 <=? n) && (n <=? 122))
  || ((48 <=? n) && (n <=? 57))
  || bool_decide (n ∈ [45; 95; 46; 33; 126; 42; 39; 40; 41]).

Definition hexDigit (n : nat) : Ascii.ascii :=
  Ascii.ascii_of_nat (if n <? 10 then 48 + n else 55 + n).

(** One octet as [%XX], in upper case. *)
Definition percentOctet (n : nat) : string :=
  String (Ascii.ascii_of_nat 37)
    (String (hexDigit (n / 16)) (String (hexDigit (n mod 16)) "")).

(** The UTF-8 octets of a code point below U+0100, each escaped. *)
Definition escapeCodeUnit (c : Ascii.ascii) : string :=
  let n := Ascii.nat_of_ascii c in
  if n <? 128 then percentOctet n
  else percentOctet (192 + n / 64) +:+ percentOctet (128 + n mod 64).

Fixpoint encodeURIComponent (s : string) : string :=
  match s with
  | EmptyString => ""
  | String c rest =>
      (if uriUnreserved c then String c "" else escapeCodeUnit c)
      +:+ encodeURIComponent rest
  end.

(** ** The class IssueReporter *)

(** What the constructor reads of [pkg], [product] and [os]. *)
Record Platform := {
  pkg_name : string;
  pkg_version : string;
  product_commit : option string;
  product_date : option string;
  os_type : string;
  os_arch : string;
  os_release : string
}.

Definition dq : string := String (Ascii.ascii_of_nat 34) "".

Definition requiredInput : string :=
  " <span class=" +:+ dq +:+ "required-input" +:+ dq +:+ ">*</span>".

Definition JOfNumber (n : option nat) : JsValue :=
  match n with
  | Some k => JNumber (Z.of_nat k)
  | None => JUndefined
  end.

Definition JOfExtensions (l : option (list ILocalExtension)) : JsValue :=
  match l with
  | Some exts => JExtensions exts
  | None => JUndefined
  end.

Section IssueReporter.

(** [localize] (vs/nls), [IssueReporterModel.serialize] and the built-in
    [parseInt] are left open. *)
Variable localize : string → string → string.
Variable serialize : gmap string JsValue → string.
Variable parseInt : string → JsValue.

Definition versionInfo (p : Platform) : JsValue :=
  JVersionInfo
    (pkg_name p +:+ " " +:+ pkg_version p +:+ " ("
       +:+ orString (product_commit p) "Commit unknown" +:+ ", "
       +:+ orString (product_date p) "Date unknown" +:+ ")")
    (os_type p +:+ " " +:+ os_arch p +:+ " " +:+ os_release p).

(** The object literal passed to [new IssueReporterModel]. *)
Definition initialData (p : Platform) : gmap string JsValue :=
  list_to_map
    [ ("issueType", JIssueType Bug);
      ("includeSystemInfo", JBool true);
      ("includeWorkspaceInfo", JBool true);
      ("includeProcessInfo", JBool true);
      ("includeExtensions", JBool true);
      ("versionInfo", versionInfo p) ].

Definition update (newData : gmap string JsValue) : M unit :=
  setModel (IssueReporterModel.update newData).

Definition getData : M (gmap string JsValue) := gets issueReporterModel.

Definition updateExtensionTable (extensions : option (list ILocalExtension))
    (numThemeExtensions : option nat) : M unit :=
  target <- querySelector ["block-extensions"; "block-info"] ;;
  modify target (DOM.set_innerHTML (extensionTableHtml extensions numThemeExtensions)).

Definition handleExtensionData (extensions : list ILocalExtension) : M unit :=
  let groups := groupBy extensions extensionGroup in
  let nonThemes := groups !! "nonThemes" in
  let themes := groups !! "themes" in
  let numberOfThemeExtesions := length <$> themes in
  update (list_to_map
            [ ("numberOfThemeExtesions", JOfNumber numberOfThemeExtesions);
              ("enabledNonThemeExtesions", JOfExtensions nonThemes) ]) ;;
  updateExtensionTable nonThemes numberOfThemeExtesions.

Definition renderBlocks : M unit :=
  data <- getData ;;
  let issueType := IssueReporterModel.get data "issueType" in
  systemBlock <- querySelector ["block-system"] ;;
  processBlock <- querySelector ["block-process"] ;;
  workspaceBlock <- querySelector ["block-workspace"] ;;
  extensionsBlock <- querySelector ["block-extensions"] ;;
  descriptionTitle <- getElementById "issue-description-label" ;;
  descriptionSubtitle <- getElementById "issue-description-subtitle" ;;
  if strictEqNumber issueType (IssueType_number Bug) then
    show systemBlock ;;
    hide processBlock ;;
    hide workspaceBlock ;;
    show extensionsBlock ;;
    modify descriptionTitle
      (DOM.set_innerHTML (localize "stepsToReproduce" "Steps to Reproduce" +:+ requiredInput)) ;;
    show descriptionSubtitle ;;
    modify descriptionSubtitle
      (DOM.set_innerHTML (localize "bugDescription" "How did you encounter this problem? Please provide clear steps to reproduce the problem during our investigation. What did you expect to happen and what actually did happen?"))
  else if strictEqNumber issueType (IssueType_number PerformanceIssue) then
    show systemBlock ;;
    show processBlock ;;
    show workspaceBlock ;;
    show extensionsBlock ;;
    modify descriptionTitle
      (DOM.set_innerHTML (localize "stepsToReproduce" "Steps to Reproduce" +:+ requiredInput)) ;;
    show descriptionSubtitle ;;
    modify descriptionSubtitle
      (DOM.set_innerHTML (localize "performanceIssueDesciption" "When did this performance issue happen? For example, does it occur on startup or after a specific series of actions? Any details you can provide help our investigation."))
  else
    hide systemBlock ;;
    hide processBlock ;;
    hide workspaceBlock ;;
    hide extensionsBlock ;;
    modify descriptionTitle
      (DOM.set_innerHTML (localize "description" "Description" +:+ requiredInput)) ;;
    hide descriptionSubtitle.

Definition render : M unit := renderBlocks.

Definition validateInput (inputId : string) : M bool :=
  inputElement <- getElementById inputId ;;
  e <- deref inputElement ;;
  if negb (truthy (JString (DOM.value e))) then
    error <- getElementById (inputId +:+ "-validation-error") ;;
    show error ;;
    modify inputElement (DOM.classList_add "invalid-input") ;;
    ret false
  else
    error <- getElementById (inputId +:+ "-validation-error") ;;
    hide error ;;
    modify inputElement (DOM.classList_remove "invalid-input") ;;
    ret true.

(** [forEach] with a callback that assigns to a local variable: the
    variable is threaded through. *)
Fixpoint forEach {A S} (l : list A) (f : S → A → M S) (acc : S) : M S :=
  match l with
  | [] => ret acc
  | x :: l' => acc' <- f acc x ;; forEach l' f acc'
  end.

Definition validateInputs : M bool :=
  forEach ["issue-title"; "description"]
    (λ isValid elementId, v <- validateInput elementId ;; ret (v && isValid))
    true.

Definition focus (el : option nat) : M unit :=
  _ <- deref el ;;
  modifyState (withActiveElement el).

(** [el.addEventListener(type, ...)] on the element found under
    [elementId] *)
Definition addEventListener (el : option nat) (elementId type : string) : M unit :=
  _ <- deref el ;;
  modifyState (withListener elementId type).

Definition publicLog (eventName : string) (data : JsValue) : M unit :=
  modifyState (withTelemetry (λ log, (log ++ [(eventName, data)])%list)).

Definition openExternal (url : string) : M unit :=
  modifyState (withOpenedExternal url).

Definition closeWindow : M unit :=
  modifyState withWindowClosed.

Definition createIssue : M bool :=
  valid <- validateInputs ;;
  if negb valid then
    first <- gets (λ s, DOM.firstByClassName "invalid-input" (document s)) ;;
    focus first ;;
    title <- getElementById "issue-title" ;;
    addEventListener title "issue-title" "input" ;;
    description <- getElementById "description" ;;
    addEventListener description "description" "input" ;;
    ret false
  else
    service <- gets telemetryService ;;
    (if bool_decide (is_Some service) then
       data <- getData ;;
       publicLog "issueReporterSubmit" (IssueReporterModel.get data "issueType")
     else ret tt) ;;
    titleElement <- getElementById "issue-title" ;;
    e <- deref titleElement ;;
    let issueTitle := DOM.value e in
    let baseUrl := "https://github.com/microsoft/vscode/issues/new?title="
                   +:+ issueTitle +:+ "&body=" in
    data <- getData ;;
    let issueBody := serialize data in
    openExternal (baseUrl +:+ encodeURIComponent issueBody) ;;
    ret true.

(** *** The handlers installed by setEventHandlers *)

(** [change] on the issue type selector; [value] is [event.target.value]. *)
Definition onIssueTypeChange (value : string) : M unit :=
  update {[ "issueType" := parseInt value ]} ;;
  render.

Definition includeElementIds : list string :=
  ["includeSystemInfo"; "includeProcessInfo"; "includeWorkspaceInfo";
   "includeExtensions"].

(** [click] on one of the four include check boxes. *)
Definition onIncludeClick (elementId : string) : M unit :=
  data <- getData ;;
  update {[ elementId := JBool (negb (truthy (IssueReporterModel.get data elementId))) ]}.

(** [blur] on the description. *)
Definition onDescriptionBlur (value : string) : M unit :=
  update {[ "issueDescription" := JString value ]}.

Record KeyboardEvent := { shiftKey : bool; keyCode : Z }.

Definition onkeydown (e : KeyboardEvent) : M unit :=
  if shiftKey e && (keyCode e =? 13)%Z then
    created <- createIssue ;;
    if created then closeWindow else ret tt
  else ret tt.

(** *** The constructor *)

(** [document.onkeydown = ...]: the handler [onkeydown] above is assigned
    to the document. *)
Definition assignOnkeydown : M unit :=
  modifyState withOnkeydown.

(** [setEventHandlers]: the listeners are added in this order, and the
    handler for the keys is assigned last; what they do is
    [onIssueTypeChange], [onIncludeClick], [onDescriptionBlur],
    [createIssue] and [onkeydown] above. The search for similar issues
    that the title starts on [blur] is outside the model. *)
Definition setEventHandlers : M unit :=
  issueType <- getElementById "issue-type" ;;
  addEventListener issueType "issue-type" "change" ;;
  forEach includeElementIds
    (λ _ elementId,
       checkbox <- getElementById elementId ;;
       addEventListener checkbox elementId "click")
    tt ;;
  description <- getElementById "description" ;;
  addEventListener description "description" "blur" ;;
  title <- getElementById "issue-title" ;;
  addEventListener title "issue-title" "blur" ;;
  submit <- getElementById "github-submit-btn" ;;
  addEventListener submit "github-submit-btn" "click" ;;
  assignOnkeydown.

(** The window when the constructor has created the model and
    [initServices] has set up the services. [page] is the document that
    [startup] has loaded. *)
Definition created (p : Platform) (page : DOM.Document) : IssueReporter :=
  {| issueReporterModel := IssueReporterModel.create (initialData p);
     telemetryService := Some [];
     document := page;
     activeElement := None;
     listeners := [];
     openedExternal := [];
     windowClosed := false;
     document_onkeydown := false |}.

(** The rest of the constructor: the handlers are installed, the notice
    for languages other than English is shown, and the extensions
    delivered with the configuration are handled. [lang] is the language
    of the document. The request for the system information, the zoom
    level and the styles are outside the model. *)
Definition IssueReporter_constructor (lang : string)
    (enabledExtensions : list ILocalExtension) : M unit :=
  setEventHandlers ;;
  (if negb (String.eqb lang "en") then
     english <- getElementById "english" ;;
     show english
   else ret tt) ;;
  handleExtensionData enabledExtensions.

Definition construct (p : Platform) (lang : string) (page : DOM.Document)
    (enabledExtensions : list ILocalExtension) : option IssueReporter :=
  snd <$> IssueReporter_constructor lang enabledExtensions (created p page).

End IssueReporter.

(** ** A page and an environment to run the window on *)

Definition element (elementId : string) (classes : list string)
    (val : string) (parent : option nat) : DOM.Element :=
  {| DOM.id := elementId; DOM.classList := classes; DOM.value := val;
     DOM.innerHTML := ""; DOM.parentNode := parent |}.

(** A page with the elements the script looks up, carrying the given
    title and description. *)
Definition examplePage (title description : string) : DOM.Document :=
  [ element "issue-type" [] "0" None;
    element "issue-title" [] title None;
    element "issue-title-validation-error" ["validation-error"; "hidden"] "" None;
    element "" ["block"; "block-system"] "" None;
    element "" ["block-info"] "" (Some 3);
    element "" ["block"; "block-process"] "" None;
    element "" ["block-info"] "" (Some 5);
    element "" ["block"; "block-workspace"] "" None;
    element "" ["block-info"] "" (Some 7);
    element "" ["block"; "block-extensions"] "" None;
    element "" ["block-info"] "" (Some 9);
    element "issue-description-label" [] "" None;
    element "issue-description-subtitle" [] "" None;
    element "description" [] description None;
    element "description-validation-error" ["validation-error"; "hidden"] "" None;
    element "github-submit-btn" [] "" None;
    element "includeSystemInfo" [] "" (Some 3);
    element "includeProcessInfo" [] "" (Some 5);
    element "includeWorkspaceInfo" [] "" (Some 7);
    element "includeExtensions" [] "" (Some 9);
    element "english" ["hidden"] "" None ].

Definition examplePlatform : Platform :=
  {| pkg_name := "code-oss-dev"; pkg_version := "1.20.0";
     product_commit := None; product_date := None;
     os_type := "Linux"; os_arch := "x64"; os_release := "4.4.0" |}.

Definition exampleLocalize (key message : string) : string := message.

Definition exampleSerialize (data : gmap string JsValue) : string :=
  match IssueReporterModel.get data "issueDescription" with
  | JString s => s
  | _ => ""
  end.

(** [parseInt] on the values of the three options of the selector. *)
Definition exampleParseInt (s : string) : JsValue :=
  if String.eqb s "0" then JNumber 0
  else if String.eqb s "1" then JNumber 1
  else if String.eqb s "2" then JNumber 2
  else JNaN.

Definition vim : ILocalExtension :=
  {| manifest := {| name := "vim"; publisher := "vscodevim"; version := "0.10.2";
                    activationEvents := Some ["*"];
                    contributes := Some [("keybindings", "[]")] |} |}.

Definition dracula : ILocalExtension :=
  {| manifest := {| name := "theme-dracula"; publisher := "dracula-theme";
                    version := "2.9.0"; activationEvents := None;
                    contributes := Some [("themes", "[]")] |} |}.

(** The window on that page, before the handlers are installed. *)
Definition exampleWindow (title description : string) : IssueReporter :=
  created examplePlatform (examplePage title description).

Definition shiftEnter : KeyboardEvent := {| shiftKey := true; keyCode := 13 |}.

(** ** The rule table of the specification *)

Inductive Block := SystemBlock | ProcessBlock | WorkspaceBlock | ExtensionsBlock.

Module ReportCategoryPolicy.

(** The table of section 4.2 of the specification: which blocks are shown
    for a category. *)
Definition shown (category : IssueType) (block : Block) : bool :=
  match category, block with
  | Bug, SystemBlock => true
  | Bug, ProcessBlock => false
  | Bug, WorkspaceBlock => false
  | Bug, ExtensionsBlock => true
  | PerformanceIssue, _ => true
  | FeatureRequest, _ => false
  end.

End ReportCategoryPolicy.

(** ** Documents that differ in markup and in some classes only *)

(** [sameBut volatile d1 d2]: the two documents have the same elements up
    to the markup and to the classes in [volatile]. *)
Definition sameElementBut (volatile : list string) (e1 e2 : DOM.Element) : Prop :=
  DOM.id e1 = DOM.id e2 ∧ DOM.value e1 = DOM.value e2
  ∧ DOM.parentNode e1 = DOM.parentNode e2
  ∧ ∀ c, c ∉ volatile → DOM.hasClass c e1 = DOM.hasClass c e2.

Definition sameBut (volatile : list string) (d1 d2 : DOM.Document) : Prop :=
  Forall2 (sameElementBut volatile) d1 d2.

(** ** Reading the page *)

(** The text typed in the input at position [i]. *)
Definition valueAt (doc : DOM.Document) (i : nat) : string :=
  from_option DOM.value "" (doc !! i).

(** The markup last assigned to the element at position [i]. *)
Definition innerHTMLAt (doc : DOM.Document) (i : nat) : string :=
  from_option DOM.innerHTML "" (doc !! i).

(** The element at position [i] carries the class [c]. *)
Definition hasClassAt (c : string) (doc : DOM.Document) (i : nat) : bool :=
  from_option (DOM.hasClass c) false (doc !! i).

Definition nonEmpty (s : string) : bool := negb (String.eqb s "").

(** The block at position [i] is shown. *)
Definition blockShown (doc : DOM.Document) (i : nat) : option bool :=
  (λ e, negb (hidden e)) <$> doc !! i.

(** The text that follows the list of extensions when [n] themes were
    left out of it. *)
Definition themesExcluded (n : nat) : string :=
  nl +:+ "(" +:+ numberToString n +:+ " theme extensions excluded)".

(** The two inputs that [createIssue] validates and their error messages
    are on the page, at the positions [title], [description], [titleError]
    and [descriptionError]. *)
Definition inputsAt (doc : DOM.Document)
    (title description titleError descriptionError : nat) : Prop :=
  DOM.getElementById "issue-title" doc = Some title
  ∧ DOM.getElementById "description" doc = Some description
  ∧ DOM.getElementById "issue-title-validation-error" doc = Some titleError
  ∧ DOM.getElementById "description-validation-error" doc = Some descriptionError.

(** The elements that [setEventHandlers] adds listeners to are on the
    page. *)
Definition handlerIds : list string :=
  ["issue-type"] ++ includeElementIds
  ++ ["description"; "issue-title"; "github-submit-btn"].

Definition handlersAt (doc : DOM.Document) : Prop :=
  ∀ elementId, elementId ∈ handlerIds → is_Some (DOM.getElementById elementId doc).

(** The listeners that [setEventHandlers] adds. *)
Definition installedListeners : list (string * string) :=
  [ ("issue-type", "change");
    ("includeSystemInfo", "click"); ("includeProcessInfo", "click");
    ("includeWorkspaceInfo", "click"); ("includeExtensions", "click");
    ("description", "blur"); ("issue-title", "blur");
    ("github-submit-btn", "click") ].

Definition withListeners (added : list (string * string))
    (s : IssueReporter) : IssueReporter :=
  foldl (λ s' listener, withListener listener.1 listener.2 s') s added.

(** What [validateInput] does to an input and to its error message. *)
Definition markValidity (valid : bool) : DOM.Element → DOM.Element :=
  if valid then DOM.classList_remove "invalid-input"
  else DOM.classList_add "invalid-input".

Definition showError (valid : bool) : DOM.Element → DOM.Element :=
  if valid then DOM.classList_add "hidden" else DOM.classList_remove "hidden".

Definition validated (valid : bool) (input error : nat)
    (doc : DOM.Document) : DOM.Document :=
  alter (markValidity valid) input (alter (showError valid) error doc).

(** The document after [validateInputs]. *)
Definition validatedBoth (t d vt vd : nat) (doc : DOM.Document) : DOM.Document :=
  validated (nonEmpty (valueAt doc d)) d vd
    (validated (nonEmpty (valueAt doc t)) t vt doc).

(** The address [createIssue] opens for a title and a report body. *)
Definition issueUrl (issueTitle issueBody : string) : string :=
  "https://github.com/microsoft/vscode/issues/new?title=" +:+ issueTitle
  +:+ "&body=" +:+ encodeURIComponent issueBody.

(** The window after [createIssue] has found an empty field: both fields
    are marked, the first field marked invalid has the focus, and both
    revalidate on input. *)
Definition rejected (t d vt vd : nat) (focused : nat) (s : IssueReporter) : IssueReporter :=
  withListener "description" "input"
    (withListener "issue-title" "input"
       (withActiveElement (Some focused)
          (withDocument (validatedBoth t d vt vd) s))).

(** The window after [createIssue] has opened the tracker. *)
Definition submitted (t d vt vd : nat) (url : string) (s : IssueReporter) : IssueReporter :=
  withOpenedExternal url
    (withTelemetry
       (λ log, log ++ [("issueReporterSubmit",
                        IssueReporterModel.get (issueReporterModel s) "issueType")])
       (withDocument (validatedBoth t d vt vd) s)).

(** ** The parts of an address *)

(** The text before the first [c], and the text after it when [c]
    occurs. *)
Fixpoint cut (c : Ascii.ascii) (s : string) : string * option string :=
  match s with
  | EmptyString => (EmptyString, None)
  | String a rest =>
      if Ascii.eqb a c then (EmptyString, Some rest)
      else let '(before, after) := cut c rest in (String a before, after)
  end.

(** The texts between the occurrences of [c]. *)
Fixpoint pieces (c : Ascii.ascii) (s : string) : list string :=
  match s with
  | EmptyString => [EmptyString]
  | String a rest =>
      if Ascii.eqb a c then EmptyString :: pieces c rest
      else match pieces c rest with
           | piece :: others => String a piece :: others
           | [] => [String a EmptyString]
           end
  end.

(** The fragment of an address starts after the first [#]; its query
    stands between the first [?] and the fragment (RFC 3986). *)
Definition fragmentOf (url : string) : option string :=
  (cut (Ascii.ascii_of_nat 35) url).2.

Definition queryOf (url : string) : option string :=
  (cut (Ascii.ascii_of_nat 63) (cut (Ascii.ascii_of_nat 35) url).1).2.

(** The parameters of the query, name and value as they are written, in
    their order: they are separated by [&], and the name ends at the
    first [=]. *)
Definition queryParameters (url : string) : list (string * string) :=
  match queryOf url with
  | Some query =>
      (λ parameter,
         let '(parameterName, parameterValue) := cut (Ascii.ascii_of_nat 61) parameter in
         (parameterName, default EmptyString parameterValue))
      <$> pieces (Ascii.ascii_of_nat 38) query
  | None => []
  end.

(** ** applyStyles *)

(** The colours of the theme that [applyStyles] reads; each one may be
    missing. *)
Record IssueReporterStyles := {
  color : option string;
  inputBackground : option string;
  inputBorder : option string;
  inputForeground : option string;
  inputErrorBorder : option string;
  inputActiveBorder : option string;
  textLinkColor : option string;
  buttonBackground : option string;
  buttonForeground : option string;
  buttonHoverBackground : option string
}.

(** The value of an optional string when it is truthy. *)
Definition whenSet (o : option string) : option string :=
  match o with
  | Some v => if String.eqb v "" then None else Some v
  | None => None
  end.

(** The rules pushed on [content], in the order of the pushes. *)
Definition applyStyles_content (styles : IssueReporterStyles) : list string :=
  let content : list string := [] in
  let content :=
    match whenSet (inputBackground styles) with
    | Some v => content ++ ["input, textarea, select { background-color: " +:+ v +:+ "; }"]
    | None => content
    end in
  let content :=
    match whenSet (inputBorder styles) with
    | Some v => content ++ ["input, textarea, select { border: 1px solid " +:+ v +:+ "; }"]
    | None => content ++ ["input, textarea, select { border: 1px solid transparent; }"]
    end in
  let content :=
    match whenSet (inputForeground styles) with
    | Some v => content ++ ["input, textarea, select { color: " +:+ v +:+ "; }"]
    | None => content
    end in
  let content :=
    match whenSet (inputErrorBorder styles) with
    | Some v =>
        (content
           ++ [".invalid-input, .invalid-input:focus { border: 1px solid " +:+ v
               +:+ " !important; }"])
          ++ [".validation-error { color: " +:+ v +:+ "; }"]
    | None => content
    end in
  let content :=
    match whenSet (inputActiveBorder styles) with
    | Some v =>
        content
          ++ ["input[type='text']:focus, textarea:focus, select:focus, summary:focus  { border: 1px solid "
              +:+ v +:+ "; outline-style: none; }"]
    | None => content
    end in
  let content :=
    match whenSet (textLinkColor styles) with
    | Some v => content ++ ["a { color: " +:+ v +:+ "; }"]
    | None => content
    end in
  let content :=
    match whenSet (buttonBackground styles) with
    | Some v => content ++ ["button { background-color: " +:+ v +:+ "; }"]
    | None => content
    end in
  let content :=
    match whenSet (buttonForeground styles) with
    | Some v => content ++ ["button { color: " +:+ v +:+ "; }"]
    | None => content
    end in
  let content :=
    match whenSet (buttonHoverBackground styles) with
    | Some v => content ++ ["button:hover:enabled { background-color: " +:+ v +:+ "; }"]
    | None => content
    end in
  let content :=
    match whenSet (textLinkColor styles) with
    | Some v => content ++ ["a { color: " +:+ v +:+ "; }"]
    | None => content
    end in
  content.

(** What [applyStyles] gives the page: the text of the style element that
    it appends to the head, and the colour that it assigns to the body. *)
Definition applyStyles (styles : IssueReporterStyles) : string * option string :=
  (String.concat nl (applyStyles_content styles), color styles).

(** The rules that one colour contributes. *)
Definition rulesFor (o : option string) (rules : string → list string) : list string :=
  match whenSet o with
  | Some v => rules v
  | None => []
  end.

(** [s] starts with [p]. *)
Fixpoint startsWith (p s : string) : bool :=
  match p with
  | EmptyString => true
  | String a p' =>
      match s with
      | EmptyString => false
      | String b s' => Ascii.eqb a b && startsWith p' s'
      end
  end.

(** A rule that sets the border of the inputs. *)
Definition isInputBorderRule (rule : string) : bool :=
  startsWith "input, textarea, select { border: 1px solid " rule.

(** A rule that sets the colour of the links. *)
Definition isLinkRule (rule : string) : bool := startsWith "a { color: " rule.

(** 1 for a colour that is given, 0 for one that is not. *)
Definition given (o : option string) : nat :=
  match whenSet o with
  | Some _ => 1
  | None => 0
  end.

(** ** Similar issues *)

Module SimilarIssues.

(** An item of the answer of the search, and the link made of it. *)
Record Issue := { html_url : string; title : string }.
Record Link := { href : string; textContent : string }.

(** The loop of [addIssuesToList]: [count] rounds are left, [i] is the
    loop variable, [links] the items appended to the list so far. Reading a field of [issueJSON[i]] throws when the array
    has no such item. *)
Fixpoint addIssuesFrom (count i : nat) (links : list Link)
    (issueJSON : list Issue) : option (list Link) :=
  match count with
  | O => Some links
  | S count' =>
      match issueJSON !! i with
      | Some issue =>
          addIssuesFrom count' (S i)
            (links ++ [{| href := html_url issue; textContent := title issue |}])
            issueJSON
      | None => None
      end
  end.

Definition addIssuesToList (links : list Link) (issueJSON : list Issue) :
    option (list Link) :=
  addIssuesFrom 5 0 links issueJSON.

End SimilarIssues.

(** The link that [addIssuesToList] makes of an item. *)
Definition linkOf (issue : SimilarIssues.Issue) : SimilarIssues.Link :=
  {| SimilarIssues.href := SimilarIssues.html_url issue;
     SimilarIssues.textContent := SimilarIssues.title issue |}.

(** The text typed in an input. *)
Definition typed (text : string) (e : DOM.Element) : DOM.Element :=
  {| DOM.id := DOM.id e; DOM.classList := DOM.classList e; DOM.value := text;
     DOM.innerHTML := DOM.innerHTML e; DOM.parentNode := DOM.parentNode e |}.

(** The user types [text] in the element at position [i]. *)
Definition typeInto (i : nat) (text : string) (s : IssueReporter) : IssueReporter :=
  withDocument (alter (typed text) i) s.

Section MoreOfTheClass.

Variable localize : string → string → string.

(** The callback for the answer of the search: what is appended to the
    element [similar-issues], the title of the list and the links; [None]
    when the callback throws. *)
Definition onSimilarIssues (items : list SimilarIssues.Issue) :
    option (option (string * list SimilarIssues.Link)) :=
  if negb (length items =? 0) then
    let issuesText := localize "similarIssues" "Similar issues" in
    issues ← SimilarIssues.addIssuesToList [] items;
    Some (Some (issuesText, issues))
  else Some None.

(** [startup]: the window is constructed and, a moment later, rendered. *)
Definition startup (p : Platform) (lang : string) (page : DOM.Document)
    (enabledExtensions : list ILocalExtension) : option IssueReporter :=
  s ← construct p lang page enabledExtensions;
  snd <$> render localize s.

(** A value that a template literal turns into text. *)
Variable Value : Type.
Variable toString : Value → string.

Record ProcessItem := { pid : Value; cpu : Value; memory : Value; process_name : Value }.

Definition systemInfoRow (k : string) (v : Value) : string :=
  line 4 "<tr>"
  +:+ line 5 ("<td>" +:+ k +:+ "</td>")
  +:+ line 5 ("<td>" +:+ toString v +:+ "</td>")
  +:+ line 4 "</tr>".

(** [systemInfo] is the list of the entries of the object, if there is
    one. [Object.keys] throws on [undefined]. *)
Definition updateSystemInfo (systemInfo : option (list (string * Value))) : M unit :=
  target <- querySelector ["block-system"; "block-info"] ;;
  match systemInfo with
  | None => throw
  | Some entries =>
      let tableHtml :=
        foldl (λ tableHtml k,
                 match list_find (λ entry, entry.1 = k) entries with
                 | Some (_, entry) => tableHtml +:+ systemInfoRow k entry.2
                 | None => tableHtml
                 end)
              "" (entries.*1) in
      modify target (DOM.set_innerHTML ("<table>" +:+ tableHtml +:+ "</table>"))
  end.

Definition processTableHeader : string :=
  line 3 "<tr>"
  +:+ line 4 "<th>pid</th>"
  +:+ line 4 "<th>CPU %</th>"
  +:+ line 4 "<th>Memory (MB)</th>"
  +:+ line 4 "<th>Name</th>"
  +:+ line 3 "</tr>".

Definition processRow (p : ProcessItem) : string :=
  line 4 "<tr>"
  +:+ line 5 ("<td>" +:+ toString (pid p) +:+ "</td>")
  +:+ line 5 ("<td>" +:+ toString (cpu p) +:+ "</td>")
  +:+ line 5 ("<td>" +:+ toString (memory p) +:+ "</td>")
  +:+ line 5 ("<td>" +:+ toString (process_name p) +:+ "</td>")
  +:+ line 4 "</tr>".

(** [processInfo.forEach] throws on [undefined]. *)
Definition updateProcessInfo (processInfo : option (list ProcessItem)) : M unit :=
  target <- querySelector ["block-process"; "block-info"] ;;
  match processInfo with
  | None => throw
  | Some processes =>
      let tableHtml :=
        foldl (λ tableHtml p, tableHtml +:+ processRow p) processTableHeader processes in
      modify target (DOM.set_innerHTML ("<table>" +:+ tableHtml +:+ "</table>"))
  end.

End MoreOfTheClass.

(** ** More reading of the window *)

(** The document after [renderBlocks], for the issue type of the model and
    the positions of the elements that [renderBlocks] has looked up. *)
Definition renderedBlocks (localize : string → string → string) (issueType : JsValue)
    (sys proc ws ext lbl sub : nat) (doc : DOM.Document) : DOM.Document :=
  if strictEqNumber issueType (IssueType_number Bug) then
    alter (DOM.set_innerHTML (localize "bugDescription" "How did you encounter this problem? Please provide clear steps to reproduce the problem during our investigation. What did you expect to happen and what actually did happen?")) sub
      (alter (DOM.classList_remove "hidden") sub
         (alter (DOM.set_innerHTML
                   (localize "stepsToReproduce" "Steps to Reproduce" +:+ requiredInput)) lbl
            (alter (DOM.classList_remove "hidden") ext
               (alter (DOM.classList_add "hidden") ws
                  (alter (DOM.classList_add "hidden") proc
                     (alter (DOM.classList_remove "hidden") sys doc))))))
  else if strictEqNumber issueType (IssueType_number PerformanceIssue) then
    alter (DOM.set_innerHTML (localize "performanceIssueDesciption" "When did this performance issue happen? For example, does it occur on startup or after a specific series of actions? Any details you can provide help our investigation.")) sub
      (alter (DOM.classList_remove "hidden") sub
         (alter (DOM.set_innerHTML
                   (localize "stepsToReproduce" "Steps to Reproduce" +:+ requiredInput)) lbl
            (alter (DOM.classList_remove "hidden") ext
               (alter (DOM.classList_remove "hidden") ws
                  (alter (DOM.classList_remove "hidden") proc
                     (alter (DOM.classList_remove "hidden") sys doc))))))
  else
    alter (DOM.classList_add "hidden") sub
      (alter (DOM.set_innerHTML (localize "description" "Description" +:+ requiredInput)) lbl
         (alter (DOM.classList_add "hidden") ext
            (alter (DOM.classList_add "hidden") ws
               (alter (DOM.classList_add "hidden") proc
                  (alter (DOM.classList_add "hidden") sys doc))))).

(** The number of themes and the list of extensions that the model holds. *)
Definition themeCountOf (v : JsValue) : nat :=
  match v with
  | JNumber n => Z.to_nat n
  | _ => 0
  end.

Definition extensionsOf (v : JsValue) : list ILocalExtension :=
  match v with
  | JExtensions l => l
  | _ => []
  end.

(** [k] calls of a method, one after the other. *)
Fixpoint times {A} (k : nat) (m : M A) : M unit :=
  match k with
  | O => ret tt
  | S k' => _ <- m ;; times k' m
  end.

(** ** Reading an encoded text back *)







(** ** More examples *)

Definition exampleStyles : IssueReporterStyles :=
  {| color := Some "#cccccc";
     inputBackground := Some "#3c3c3c";
     inputBorder := None;
     inputForeground := Some "#cccccc";
     inputErrorBorder := Some "#be1100";
     inputActiveBorder := None;
     textLinkColor := Some "#3794ff";
     buttonBackground := None;
     buttonForeground := None;
     buttonHoverBackground := None |}.

(** The example window with an issue type that the selector does not
    offer. *)
Definition exampleWindowOther : IssueReporter :=
  withModel (<["issueType" := JNaN]>) (exampleWindow "" "").

Definition exampleSystemInfo : list (string * string) :=
  [("CPUs", "Intel(R) Core(TM) i7 (4 x 2700)"); ("Memory (System)", "7.87GB (1.20GB free)");
   ("VM", "0%")].

Definition exampleProcesses : list (ProcessItem string) :=
  [ {| pid := "4242"; cpu := "3"; memory := "120"; process_name := "code" |};
    {| pid := "4250"; cpu := "0"; memory := "48"; process_name := "  shared-process" |} ].

Definition exampleIssue (n : string) : SimilarIssues.Issue :=
  {| SimilarIssues.html_url := "https://github.com/Microsoft/vscode/issues/" +:+ n;
     SimilarIssues.title := "Issue " +:+ n |}.

(** * Properties *)

(** ** Text *)

Lemma string_app_cons (c : Ascii.ascii) (s t : string) :
  String c s +:+ t = String c (s +:+ t).
Proof. reflexivity. Qed.

Lemma string_app_nil_r (s : string) : s +:+ "" = s.
Proof. induction s as [|c s IH]; [done | by rewrite string_app_cons, IH]. Qed.

Lemma string_app_assoc (a b c : string) : (a +:+ b) +:+ c = a +:+ (b +:+ c).
Proof.
  induction a as [|x a IH]; [done | by rewrite !string_app_cons, IH].
Qed.

(** The rows appended one by one by [forEach] are the rows of the list,
    in its order, after what was there before. *)
Lemma foldl_rows (rows : list ILocalExtension) (table : string) :
  foldl (λ table extension, table +:+ extensionTableRow extension) table rows
  = table +:+ String.concat "" (extensionTableRow <$> rows).
Proof.
  revert table. induction rows as [|r rows IH]; intros table; simpl.
  - by rewrite string_app_nil_r.
  - rewrite IH. destruct rows as [|r' rows]; simpl.
    + by rewrite string_app_nil_r.
    + by rewrite string_app_assoc.
Qed.

Lemma substr0_prefix (n : nat) (s : string) :
  String.prefix (substr0 n s) s = true.
Proof.
  unfold substr0. revert s. induction n as [|n IH]; intros [|c s]; simpl; try done.
  rewrite IH. by destruct (Ascii.ascii_dec c c).
Qed.

Lemma substr0_length (n : nat) (s : string) :
  String.length (substr0 n s) = n `min` String.length s.
Proof.
  unfold substr0. revert s. induction n as [|n IH]; intros [|c s]; simpl; try done.
  by rewrite IH.
Qed.

Lemma themeExclusionStr_empty (n : option nat) :
  themeExclusionStr n = "" ↔ n = None ∨ n = Some 0.
Proof.
  destruct n as [[|n]|]; simpl; split; intros H; try done; auto.
  destruct H as [H|H]; discriminate.
Qed.

(** ** groupBy *)

Lemma groupBy_snoc {T} (data : list T) (groupFn : T → string) (x : T) :
  groupBy (data ++ [x]) groupFn
  = <[groupFn x := (default [] (groupBy data groupFn !! groupFn x) ++ [x])%list]>
      (groupBy data groupFn).
Proof. unfold groupBy. by rewrite foldl_app. Qed.

(** A group holds the elements of its name, in the order of receipt, and
    exists only if it has an element. *)
Lemma groupBy_lookup {T} (data : list T) (groupFn : T → string) (key : string) :
  groupBy data groupFn !! key
  = match filter (λ x, groupFn x = key) data with
    | [] => None
    | group => Some group
    end.
Proof.
  induction data as [|x data IH] using rev_ind; [done|].
  rewrite groupBy_snoc, filter_app, lookup_insert.
  rewrite (filter_cons _ x), filter_nil.
  destruct (decide (groupFn x = key)) as [->|Hne].
  - rewrite IH. destruct (filter _ data) as [|y group]; simpl; done.
  - rewrite app_nil_r. apply IH.
Qed.

Lemma filter_all {A} (P : A → Prop) `{!∀ x, Decision (P x)} (l : list A) :
  Forall P l → filter P l = l.
Proof.
  induction 1 as [|x l Hx _ IH]; [done|]. by rewrite filter_cons_True, IH.
Qed.

Lemma filter_none {A} (P : A → Prop) `{!∀ x, Decision (P x)} (l : list A) :
  Forall (λ x, ¬ P x) l → filter P l = [].
Proof.
  induction 1 as [|x l Hx _ IH]; [done|]. by rewrite filter_cons_False, IH.
Qed.

Lemma extensionGroup_themes (ext : ILocalExtension) :
  extensionGroup ext = "themes" ↔ onlyTheme ext = true.
Proof. unfold extensionGroup. destruct (onlyTheme ext); split; done. Qed.

Lemma extensionGroup_nonThemes (ext : ILocalExtension) :
  extensionGroup ext = "nonThemes" ↔ onlyTheme ext = false.
Proof. unfold extensionGroup. destruct (onlyTheme ext); split; done. Qed.

Lemma themes_group (extensions : list ILocalExtension) :
  groupBy extensions extensionGroup !! "themes"
  = match filter (λ ext, onlyTheme ext = true) extensions with
    | [] => None
    | group => Some group
    end.
Proof.
  rewrite groupBy_lookup.
  by rewrite (list_filter_iff _ (λ ext, onlyTheme ext = true) extensions)
    by (intros; apply extensionGroup_themes).
Qed.

Lemma nonThemes_group (extensions : list ILocalExtension) :
  groupBy extensions extensionGroup !! "nonThemes"
  = match filter (λ ext, onlyTheme ext = false) extensions with
    | [] => None
    | group => Some group
    end.
Proof.
  rewrite groupBy_lookup.
  by rewrite (list_filter_iff _ (λ ext, onlyTheme ext = false) extensions)
    by (intros; apply extensionGroup_nonThemes).
Qed.

(** The classification of one extension. *)
Lemma onlyTheme_iff (ext : ILocalExtension) :
  onlyTheme ext = true
  ↔ activationEvents (manifest ext) = None
    ∧ ∃ c, contributes (manifest ext) = Some c ∧ Object_keys c = ["themes"].
Proof.
  unfold onlyTheme.
  destruct (activationEvents (manifest ext)) as [events|]; simpl.
  { split; [done | by intros [? _]]. }
  destruct (contributes (manifest ext)) as [c|]; simpl.
  - destruct (Object_keys c) as [|k [|k' ks]] eqn:Hk; simpl.
    + split; [done | intros [_ (c' & ? & Hc')]; congruence].
    + rewrite String.eqb_eq. split.
      * intros ->. split; [done|]. by exists c.
      * intros [_ (c' & ? & Hc')]. congruence.
    + split; [done | intros [_ (c' & ? & Hc')]; congruence].
  - split; [done | intros [_ (? & ? & ?)]; congruence].
Qed.

(** An empty array of activation events is a value: the manifest declares
    the field, and the extension is not taken for a theme. *)
Lemma onlyTheme_empty_activationEvents (ext : ILocalExtension) :
  activationEvents (manifest ext) = Some [] → onlyTheme ext = false.
Proof. intros H. unfold onlyTheme. rewrite H. done. Qed.

(** ** The page *)

Lemma hasClass_add (c d : string) (e : DOM.Element) :
  DOM.hasClass d (DOM.classList_add c e)
  = if decide (d = c) then true else DOM.hasClass d e.
Proof.
  unfold DOM.classList_add, DOM.hasClass at 1 3. simpl.
  destruct (DOM.hasClass c e) eqn:Hc; unfold DOM.hasClass in Hc.
  - destruct (decide (d = c)) as [->|]; done.
  - apply bool_decide_eq_false in Hc.
    destruct (decide (d = c)) as [->|Hne].
    + apply bool_decide_eq_true, elem_of_app. right. apply list_elem_of_singleton. done.
    + apply bool_decide_ext. rewrite elem_of_app, list_elem_of_singleton. tauto.
Qed.

Lemma hasClass_remove (c d : string) (e : DOM.Element) :
  DOM.hasClass d (DOM.classList_remove c e)
  = if decide (d = c) then false else DOM.hasClass d e.
Proof.
  unfold DOM.classList_remove, DOM.hasClass. simpl.
  destruct (decide (d = c)) as [->|Hne].
  - apply bool_decide_eq_false. rewrite list_elem_of_filter. tauto.
  - apply bool_decide_ext. rewrite list_elem_of_filter. tauto.
Qed.

(** An element found by a search is in the document and has what was
    searched for. *)
Lemma getElementById_Some (elementId : string) (doc : DOM.Document) (i : nat) :
  DOM.getElementById elementId doc = Some i →
  ∃ e, doc !! i = Some e ∧ DOM.id e = elementId.
Proof.
  unfold DOM.getElementById. intros H.
  destruct (list_find _ doc) as [[j e]|] eqn:Hfind; simplify_eq/=.
  apply list_find_Some in Hfind as (? & ? & _). eauto.
Qed.

Lemma querySelector_Some (sel : list string) (doc : DOM.Document) (i : nat) :
  DOM.querySelector sel doc = Some i →
  ∃ e, doc !! i = Some e ∧ DOM.matches doc sel e = true.
Proof.
  unfold DOM.querySelector. intros H.
  destruct (list_find _ doc) as [[j e]|] eqn:Hfind; simplify_eq/=.
  apply list_find_Some in Hfind as (? & ? & _). eauto.
Qed.

Lemma getElementById_ne (a b : string) (doc : DOM.Document) (i j : nat) :
  DOM.getElementById a doc = Some i → DOM.getElementById b doc = Some j →
  a ≠ b → i ≠ j.
Proof.
  intros (e & He & <-)%getElementById_Some (e' & He' & <-)%getElementById_Some.
  intros Hne ->. congruence.
Qed.

(** Two documents that agree, position by position, on what a search
    looks at give the same answer to it. *)
Lemma list_find_index_ext {A} (P Q : A → Prop) `{!∀ x, Decision (P x)}
    `{!∀ x, Decision (Q x)} (l k : list A) :
  Forall2 (λ x y, P x ↔ Q y) l k →
  fst <$> list_find P l = fst <$> list_find Q k.
Proof.
  induction 1 as [|x y l k Hxy _ IH]; [done|]. simpl.
  destruct (decide (P x)), (decide (Q y)); try tauto; try done.
  rewrite <-!option_fmap_compose.
  destruct (list_find P l) as [[]|], (list_find Q k) as [[]|]; simplify_eq/=; done.
Qed.

Lemma sameElementBut_refl (volatile : list string) (e : DOM.Element) :
  sameElementBut volatile e e.
Proof. by repeat split. Qed.

Lemma sameElementBut_trans (volatile : list string) (e1 e2 e3 : DOM.Element) :
  sameElementBut volatile e1 e2 → sameElementBut volatile e2 e3 →
  sameElementBut volatile e1 e3.
Proof.
  intros (? & ? & ? & Hc12) (? & ? & ? & Hc23). repeat split; try congruence.
  intros c Hc. by rewrite Hc12, Hc23.
Qed.

Lemma sameBut_refl (volatile : list string) (doc : DOM.Document) :
  sameBut volatile doc doc.
Proof. apply Forall2_same_length_lookup_2; [done|]. intros; simplify_eq. apply sameElementBut_refl. Qed.

Lemma sameBut_alter (volatile : list string) (f : DOM.Element → DOM.Element)
    (i : nat) (d1 d2 : DOM.Document) :
  (∀ e, sameElementBut volatile e (f e)) →
  sameBut volatile d1 d2 → sameBut volatile d1 (alter f i d2).
Proof.
  intros Hf H. revert i. induction H as [|e1 e2 d1 d2 He Hd IH]; intros i; [constructor|].
  destruct i as [|i]; simpl; constructor.
  - eapply sameElementBut_trans; eauto.
  - exact Hd.
  - exact He.
  - apply IH.
Qed.

Lemma sameBut_length (volatile : list string) (d1 d2 : DOM.Document) :
  sameBut volatile d1 d2 → length d1 = length d2.
Proof. apply Forall2_length. Qed.

Lemma sameBut_lookup (volatile : list string) (d1 d2 : DOM.Document) (i : nat)
    (e1 : DOM.Element) :
  sameBut volatile d1 d2 → d1 !! i = Some e1 →
  ∃ e2, d2 !! i = Some e2 ∧ sameElementBut volatile e1 e2.
Proof. intros H He. eapply Forall2_lookup_l in H as (e2 & ? & ?); eauto. Qed.

Lemma sameBut_add (volatile : list string) (c : string) (e : DOM.Element) :
  c ∈ volatile → sameElementBut volatile e (DOM.classList_add c e).
Proof.
  intros Hc. repeat split. intros d Hd. rewrite hasClass_add.
  destruct (decide (d = c)) as [->|]; done.
Qed.

Lemma sameBut_remove (volatile : list string) (c : string) (e : DOM.Element) :
  c ∈ volatile → sameElementBut volatile e (DOM.classList_remove c e).
Proof.
  intros Hc. repeat split. intros d Hd. rewrite hasClass_remove.
  destruct (decide (d = c)) as [->|]; done.
Qed.

Lemma sameBut_set_innerHTML (volatile : list string) (html : string) (e : DOM.Element) :
  sameElementBut volatile e (DOM.set_innerHTML html e).
Proof. by repeat split. Qed.

Lemma getElementById_sameBut (volatile : list string) (elementId : string)
    (d1 d2 : DOM.Document) :
  sameBut volatile d1 d2 →
  DOM.getElementById elementId d1 = DOM.getElementById elementId d2.
Proof.
  intros H. apply list_find_index_ext.
  eapply Forall2_impl; [exact H|]. intros e1 e2 (Hid & _). by rewrite Hid.
Qed.

Lemma ancestors_sameBut (volatile : list string) (d1 d2 : DOM.Document)
    (fuel : nat) (e1 e2 : DOM.Element) :
  sameBut volatile d1 d2 → sameElementBut volatile e1 e2 →
  Forall2 (sameElementBut volatile)
    (DOM.ancestors fuel d1 e1) (DOM.ancestors fuel d2 e2).
Proof.
  intros Hd. revert e1 e2.
  induction fuel as [|fuel IH]; intros e1 e2 He; simpl; [constructor|].
  destruct He as (_ & _ & <- & _).
  destruct (DOM.parentNode e1) as [p|]; simpl; [|constructor].
  destruct (d1 !! p) as [a1|] eqn:H1.
  - destruct (sameBut_lookup _ _ _ _ _ Hd H1) as (a2 & -> & Ha).
    constructor; auto.
  - destruct (d2 !! p) as [a2|] eqn:H2; [|constructor].
    apply lookup_lt_Some in H2. apply lookup_ge_None in H1.
    apply sameBut_length in Hd. lia.
Qed.

Lemma matchesAbove_sameBut (volatile sel : list string) (a1 a2 : list DOM.Element) :
  Forall2 (sameElementBut volatile) a1 a2 →
  (∀ c, c ∈ sel → c ∉ volatile) →
  DOM.matchesAbove sel a1 = DOM.matchesAbove sel a2.
Proof.
  intros H. revert sel.
  induction H as [|e1 e2 a1 a2 He _ IH]; intros sel Hsel; [done|].
  simpl. destruct sel as [|c sel]; [done|].
  destruct He as (_ & _ & _ & Hc).
  rewrite Hc by (apply Hsel; left).
  rewrite (IH sel) by (intros; apply Hsel; by right).
  by rewrite (IH (c :: sel)) by done.
Qed.

Lemma matches_sameBut (volatile sel : list string) (d1 d2 : DOM.Document)
    (e1 e2 : DOM.Element) :
  (∀ c, c ∈ sel → c ∉ volatile) →
  sameBut volatile d1 d2 → sameElementBut volatile e1 e2 →
  DOM.matches d1 sel e1 = DOM.matches d2 sel e2.
Proof.
  intros Hsel Hd He. unfold DOM.matches.
  destruct (reverse sel) as [|c sel'] eqn:Hrev; [done|].
  assert (∀ c', c' ∈ c :: sel' → c' ∉ volatile) as Hsel'.
  { intros c' Hc'. apply Hsel. rewrite <-Hrev in Hc'. by apply elem_of_reverse. }
  rewrite (sameBut_length _ _ _ Hd).
  destruct (He) as (_ & _ & _ & Hc). rewrite Hc by (apply Hsel'; left).
  f_equal. apply matchesAbove_sameBut with volatile.
  - by apply ancestors_sameBut.
  - intros; apply Hsel'; by right.
Qed.

Lemma querySelector_sameBut (volatile sel : list string) (d1 d2 : DOM.Document) :
  (∀ c, c ∈ sel → c ∉ volatile) →
  sameBut volatile d1 d2 →
  DOM.querySelector sel d1 = DOM.querySelector sel d2.
Proof.
  intros Hsel H. apply list_find_index_ext.
  eapply Forall2_impl; [exact H|]. intros e1 e2 He. simpl.
  by rewrite (matches_sameBut volatile sel d1 d2 e1 e2).
Qed.

(** ** Running the methods *)

Lemma bind_run {A B} (m : M A) (k : A → M B) (s s' : IssueReporter) (a : A) :
  m s = Some (a, s') → bind m k s = k a s'.
Proof. unfold bind. by intros ->. Qed.

Lemma deref_run (i : nat) (e : DOM.Element) (s : IssueReporter) :
  document s !! i = Some e → deref (Some i) s = Some (e, s).
Proof. unfold deref, bind, gets. by intros ->. Qed.

Lemma modify_run (i : nat) (e : DOM.Element) (f : DOM.Element → DOM.Element)
    (s : IssueReporter) :
  document s !! i = Some e →
  modify (Some i) f s = Some (tt, withDocument (alter f i) s).
Proof. intros H. unfold modify. by rewrite (bind_run _ _ _ _ _ (deref_run _ _ _ H)). Qed.

Lemma alter_lookup_Some {A} (f : A → A) (i j : nat) (l : list A) (x : A) :
  l !! j = Some x → ∃ y, alter f i l !! j = Some y.
Proof.
  intros H. rewrite list_lookup_alter.
  destruct (decide (i = j)) as [->|]; rewrite ?H; eauto.
Qed.

Lemma alter_is_Some {A} (f : A → A) (i j : nat) (l : list A) :
  is_Some (l !! j) → is_Some (alter f i l !! j).
Proof. intros [x H]. destruct (alter_lookup_Some f i j l x H); eauto. Qed.

Lemma hidden_alter_other (f : DOM.Element → DOM.Element) (i j : nat)
    (doc : DOM.Document) :
  i ≠ j ∨ (∀ e, hidden (f e) = hidden e) →
  hidden <$> alter f i doc !! j = hidden <$> doc !! j.
Proof.
  intros H. rewrite list_lookup_alter.
  destruct (decide (i = j)) as [->|]; [|done].
  destruct H as [|H]; [done|]. destruct (doc !! j); simpl; [|done]. by rewrite H.
Qed.

Lemma hidden_alter_hide (i : nat) (doc : DOM.Document) :
  is_Some (doc !! i) →
  hidden <$> alter (DOM.classList_add "hidden") i doc !! i = Some true.
Proof.
  intros [e H]. rewrite list_lookup_alter, decide_True, H by done. simpl.
  unfold hidden. by rewrite hasClass_add.
Qed.

Lemma hidden_alter_show (i : nat) (doc : DOM.Document) :
  is_Some (doc !! i) →
  hidden <$> alter (DOM.classList_remove "hidden") i doc !! i = Some false.
Proof.
  intros [e H]. rewrite list_lookup_alter, decide_True, H by done. simpl.
  unfold hidden. by rewrite hasClass_remove.
Qed.

Ltac run_modify :=
  match goal with
  | |- context [modify (Some ?i) ?f ?s] =>
      let H := fresh "Hel" in
      let e := fresh "e" in
      assert (is_Some (document s !! i)) as [e H]
        by (simpl; repeat apply alter_is_Some; eauto);
      rewrite (modify_run i e f s H); clear e H
  end.

Section Properties.

Variable localize : string → string → string.
Variable serialize : gmap string JsValue → string.
Variable parseInt : string → JsValue.

(** [renderBlocks] on a page that has the four blocks and the two parts of
    the description prompt: it succeeds, it changes nothing but markup and
    the class [hidden], and it leaves each block hidden or shown as the
    issue type of the model asks. *)
Lemma renderBlocks_run (s : IssueReporter) (sys proc ws ext lbl sub : nat) :
  DOM.querySelector ["block-system"] (document s) = Some sys →
  DOM.querySelector ["block-process"] (document s) = Some proc →
  DOM.querySelector ["block-workspace"] (document s) = Some ws →
  DOM.querySelector ["block-extensions"] (document s) = Some ext →
  DOM.getElementById "issue-description-label" (document s) = Some lbl →
  DOM.getElementById "issue-description-subtitle" (document s) = Some sub →
  let issueType := IssueReporterModel.get (issueReporterModel s) "issueType" in
  let bug := strictEqNumber issueType (IssueType_number Bug) in
  let perf := strictEqNumber issueType (IssueType_number PerformanceIssue) in
  ∃ doc',
    renderBlocks localize s = Some (tt, withDocument (λ _, doc') s)
    ∧ sameBut ["hidden"] (document s) doc'
    ∧ (NoDup [sys; proc; ws; ext; sub] →
       hidden <$> doc' !! sys = Some (negb (bug || perf))
       ∧ hidden <$> doc' !! proc = Some (negb perf)
       ∧ hidden <$> doc' !! ws = Some (negb perf)
       ∧ hidden <$> doc' !! ext = Some (negb (bug || perf))).
Proof.
  intros Hsys Hproc Hws Hext Hlbl Hsub issueType bug perf.
  destruct (querySelector_Some _ _ _ Hsys) as (esys & Hesys & _).
  destruct (querySelector_Some _ _ _ Hproc) as (eproc & Heproc & _).
  destruct (querySelector_Some _ _ _ Hws) as (ews & Hews & _).
  destruct (querySelector_Some _ _ _ Hext) as (eext & Heext & _).
  destruct (getElementById_Some _ _ _ Hlbl) as (elbl & Helbl & _).
  destruct (getElementById_Some _ _ _ Hsub) as (esub & Hesub & _).
  unfold renderBlocks, getData, querySelector, getElementById, show, hide.
  unfold bind at 1. unfold gets at 1. cbv beta iota.
  unfold bind at 1. unfold gets at 1. cbv beta iota. rewrite Hsys.
  unfold bind at 1. unfold gets at 1. cbv beta iota. rewrite Hproc.
  unfold bind at 1. unfold gets at 1. cbv beta iota. rewrite Hws.
  unfold bind at 1. unfold gets at 1. cbv beta iota. rewrite Hext.
  unfold bind at 1. unfold gets at 1. cbv beta iota. rewrite Hlbl.
  unfold bind at 1. unfold gets at 1. cbv beta iota. rewrite Hsub.
  fold issueType. fold bug. fold perf.
  assert (∀ c, sameElementBut ["hidden"] c (DOM.classList_add "hidden" c)) as Hadd
    by (intros; apply sameBut_add; left).
  assert (∀ c, sameElementBut ["hidden"] c (DOM.classList_remove "hidden" c)) as Hrem
    by (intros; apply sameBut_remove; left).
  assert (∀ html c, sameElementBut ["hidden"] c (DOM.set_innerHTML html c)) as Hset
    by (intros; apply sameBut_set_innerHTML).
  assert (bug && perf = false) as Hexcl.
  { unfold bug, perf. destruct issueType as [| | n | | | | |]; try done. simpl.
    destruct (Z.eqb_spec n 0) as [->|]; done. }
  clearbody bug perf issueType.
  destruct bug, perf; try discriminate Hexcl; unfold bind; repeat run_modify;
    (eexists; split; [reflexivity|]; split;
     [ repeat (apply sameBut_alter; [done|]); apply sameBut_refl
     | intros Hnd; repeat match goal with
         | H : NoDup (_ :: _) |- _ => apply NoDup_cons in H as [? H]
         end;
       repeat match goal with
         | H : _ ∉ _ :: _ |- _ => apply not_elem_of_cons in H as [? H]
         end;
       repeat split; simpl;
       repeat first
         [ apply hidden_alter_hide; repeat apply alter_is_Some; eauto
         | apply hidden_alter_show; repeat apply alter_is_Some; eauto
         | rewrite hidden_alter_other by (first [left; congruence | right; done]) ] ]).
Qed.

Lemma validateInput_run (inputId : string) (s : IssueReporter) (i v : nat)
    (e : DOM.Element) :
  DOM.getElementById inputId (document s) = Some i →
  document s !! i = Some e →
  DOM.getElementById (inputId +:+ "-validation-error") (document s) = Some v →
  validateInput inputId s
  = Some (nonEmpty (DOM.value e),
          withDocument (validated (nonEmpty (DOM.value e)) i v) s).
Proof.
  intros Hi He Hv.
  destruct (getElementById_Some _ _ _ Hv) as (ev & Hev & _).
  unfold validateInput, getElementById, show, hide.
  unfold bind at 1. unfold gets at 1. cbv beta iota. rewrite Hi.
  rewrite (bind_run _ _ _ _ _ (deref_run _ _ _ He)).
  unfold truthy, nonEmpty.
  destruct (String.eqb (DOM.value e) ""); cbn [negb];
    unfold bind at 1; unfold gets at 1; cbv beta iota; rewrite Hv;
    unfold bind; repeat run_modify; reflexivity.
Qed.

Lemma validated_sameBut (valid : bool) (i v : nat) (d1 d2 : DOM.Document) :
  sameBut ["hidden"; "invalid-input"] d1 d2 →
  sameBut ["hidden"; "invalid-input"] d1 (validated valid i v d2).
Proof.
  intros H. unfold validated, markValidity, showError.
  destruct valid; repeat (apply sameBut_alter; [|try done]);
    intros; first [apply sameBut_add | apply sameBut_remove];
    repeat constructor.
Qed.

Lemma valueAt_sameBut (volatile : list string) (d1 d2 : DOM.Document) (i : nat) :
  sameBut volatile d1 d2 → valueAt d2 i = valueAt d1 i.
Proof.
  intros H. unfold valueAt. destruct (d1 !! i) as [e1|] eqn:H1.
  - destruct (sameBut_lookup _ _ _ _ _ H H1) as (e2 & -> & _ & Hv & _). done.
  - apply lookup_ge_None in H1. rewrite (sameBut_length _ _ _ H) in H1.
    apply lookup_ge_None in H1. by rewrite H1.
Qed.

Lemma inputsAt_sameBut (d1 d2 : DOM.Document) (t d vt vd : nat) :
  sameBut ["hidden"; "invalid-input"] d1 d2 →
  inputsAt d1 t d vt vd → inputsAt d2 t d vt vd.
Proof.
  intros H (? & ? & ? & ?). unfold inputsAt.
  by rewrite <-!(getElementById_sameBut _ _ _ _ H).
Qed.

(** The two inputs are validated in turn, the title first, and both are
    marked. *)
Lemma validateInputs_run (s : IssueReporter) (t d vt vd : nat) :
  inputsAt (document s) t d vt vd →
  validateInputs s
  = Some (nonEmpty (valueAt (document s) d) && (nonEmpty (valueAt (document s) t) && true),
          withDocument (validatedBoth t d vt vd) s).
Proof.
  intros Hin.
  set (validTitle := nonEmpty (valueAt (document s) t)).
  set (validDescription := nonEmpty (valueAt (document s) d)).
  pose proof Hin as (Ht & Hd & Hvt & Hvd).
  destruct (getElementById_Some _ _ _ Ht) as (et & Het & _).
  unfold validateInputs, forEach.
  unfold bind at 1.
  rewrite (bind_run _ _ _ _ _ (validateInput_run _ _ _ _ _ Ht Het Hvt)).
  assert (valueAt (document s) t = DOM.value et) as Hvalt
    by (unfold valueAt; by rewrite Het).
  rewrite <-Hvalt. fold validTitle.
  set (s1 := withDocument (validated validTitle t vt) s).
  assert (sameBut ["hidden"; "invalid-input"] (document s) (document s1)) as Hsame
    by (apply validated_sameBut, sameBut_refl).
  pose proof (inputsAt_sameBut _ _ _ _ _ _ Hsame Hin) as (_ & Hd1 & _ & Hvd1).
  destruct (getElementById_Some _ _ _ Hd1) as (ed & Hed & _).
  unfold ret at 1. cbv beta iota.
  unfold bind at 1.
  rewrite (bind_run _ _ _ _ _ (validateInput_run _ _ _ _ _ Hd1 Hed Hvd1)).
  assert (valueAt (document s) d = DOM.value ed) as Hvald.
  { rewrite <-(valueAt_sameBut _ _ _ d Hsame). unfold valueAt. by rewrite Hed. }
  rewrite <-Hvald. fold validDescription. reflexivity.
Qed.

Lemma validated_lookup_is_Some (valid : bool) (i v j : nat) (doc : DOM.Document) :
  is_Some (doc !! j) → is_Some (validated valid i v doc !! j).
Proof. intros H. unfold validated. by repeat apply alter_is_Some. Qed.

Lemma hasClassAt_validated (valid : bool) (i v j : nat) (doc : DOM.Document) :
  is_Some (doc !! i) →
  hasClassAt "invalid-input" (validated valid i v doc) j
  = if decide (j = i) then negb valid else hasClassAt "invalid-input" doc j.
Proof.
  intros [e He]. unfold hasClassAt, validated.
  rewrite list_lookup_alter.
  destruct (decide (i = j)) as [->|Hne].
  - rewrite decide_True by done.
    destruct (alter_lookup_Some (showError valid) v j doc e He) as [e' ->].
    simpl. unfold markValidity.
    destruct valid; by rewrite ?hasClass_add, ?hasClass_remove.
  - rewrite decide_False by done. rewrite list_lookup_alter.
    destruct (decide (v = j)) as [->|]; [|done].
    destruct (doc !! j) as [e'|]; [|done]. simpl. unfold showError.
    destruct valid; by rewrite ?hasClass_add, ?hasClass_remove.
Qed.

Lemma firstByClassName_Some (c : string) (doc : DOM.Document) (i : nat) :
  DOM.firstByClassName c doc = Some i ↔
  hasClassAt c doc i = true ∧ ∀ j, j < i → hasClassAt c doc j = false.
Proof.
  unfold DOM.firstByClassName, hasClassAt. split.
  - intros H. destruct (list_find _ doc) as [[k e]|] eqn:Hfind; simplify_eq/=.
    apply list_find_Some in Hfind as (He & Hc & Hmin). rewrite He. split; [done|].
    intros j Hj. destruct (doc !! j) as [e'|] eqn:He'; [|done]. simpl.
    apply not_true_is_false. eauto.
  - intros [Hc Hmin]. destruct (doc !! i) as [e|] eqn:He; [|done]. simpl in Hc.
    assert (list_find (λ e, DOM.hasClass c e = true) doc = Some (i, e)) as ->; [|done].
    apply list_find_Some. split_and!; [done..|].
    intros j e' He' Hj Hc'. specialize (Hmin j Hj). rewrite He' in Hmin. simpl in Hmin.
    congruence.
Qed.

Lemma firstByClassName_exists (c : string) (doc : DOM.Document) (i : nat) :
  hasClassAt c doc i = true → is_Some (DOM.firstByClassName c doc).
Proof.
  unfold hasClassAt, DOM.firstByClassName. intros H.
  destruct (doc !! i) as [e|] eqn:He; [|done]. simpl in H.
  apply fmap_is_Some. eapply (list_find_elem_of _ doc e); [|done].
  by eapply list_elem_of_lookup_2.
Qed.

(** The document after both inputs were validated. *)
Lemma validatedBoth_sameBut (doc : DOM.Document) (t d vt vd : nat) :
  sameBut ["hidden"; "invalid-input"] doc (validatedBoth t d vt vd doc).
Proof. unfold validatedBoth. do 2 apply validated_sameBut. apply sameBut_refl. Qed.

Lemma validatedBoth_invalid (doc : DOM.Document) (t d vt vd : nat) (j : nat) :
  inputsAt doc t d vt vd →
  hasClassAt "invalid-input" (validatedBoth t d vt vd doc) j
  = if decide (j = d) then negb (nonEmpty (valueAt doc d))
    else if decide (j = t) then negb (nonEmpty (valueAt doc t))
    else hasClassAt "invalid-input" doc j.
Proof.
  intros (Ht & Hd & _ & _).
  destruct (getElementById_Some _ _ _ Ht) as (et & Het & _).
  destruct (getElementById_Some _ _ _ Hd) as (ed & Hed & _).
  unfold validatedBoth.
  rewrite hasClassAt_validated by (apply validated_lookup_is_Some; eauto).
  destruct (decide (j = d)); [done|].
  rewrite hasClassAt_validated by eauto. done.
Qed.

Lemma createIssue_rejects (s : IssueReporter) (t d vt vd : nat) :
  inputsAt (document s) t d vt vd →
  nonEmpty (valueAt (document s) t) && nonEmpty (valueAt (document s) d) = false →
  ∃ focused,
    createIssue serialize s = Some (false, rejected t d vt vd focused s)
    ∧ DOM.firstByClassName "invalid-input" (validatedBoth t d vt vd (document s))
      = Some focused.
Proof.
  intros Hin Hinvalid.
  pose proof (validatedBoth_sameBut (document s) t d vt vd) as Hsame.
  pose proof (inputsAt_sameBut _ _ _ _ _ _ Hsame Hin) as (Ht' & Hd' & _ & _).
  destruct (getElementById_Some _ _ _ Ht') as (et & Het & _).
  destruct (getElementById_Some _ _ _ Hd') as (ed & Hed & _).
  assert (is_Some (DOM.firstByClassName "invalid-input"
                     (validatedBoth t d vt vd (document s))))
    as [focused Hfocused].
  { destruct (nonEmpty (valueAt (document s) t)) eqn:Hvt.
    - apply firstByClassName_exists with d.
      rewrite (validatedBoth_invalid _ _ _ _ _ d Hin).
      rewrite decide_True by done. simpl in Hinvalid. by rewrite Hinvalid.
    - apply firstByClassName_exists with t.
      rewrite (validatedBoth_invalid _ _ _ _ _ t Hin).
      rewrite Hvt. destruct (decide (t = d)) as [Heq|]; [|by rewrite decide_True].
      destruct Hin as (Ht & Hd & _). by destruct (getElementById_ne _ _ _ _ _ Ht Hd). }
  exists focused. split; [|exact Hfocused].
  destruct (proj1 (firstByClassName_Some _ _ _) Hfocused) as [Hc _].
  unfold hasClassAt in Hc.
  destruct (_ !! focused) as [ef|] eqn:Hef in Hc; [|done].
  unfold createIssue.
  rewrite (bind_run _ _ _ _ _ (validateInputs_run s t d vt vd Hin)).
  replace (_ && (_ && true)) with false
    by (rewrite andb_true_r, andb_comm; by rewrite Hinvalid).
  cbn [negb]. cbv iota. unfold rejected.
  set (s1 := withDocument (validatedBoth t d vt vd) s).
  set (s2 := withActiveElement (Some focused) s1).
  set (s3 := withListener "issue-title" "input" s2).
  change (validatedBoth t d vt vd (document s)) with (document s1) in Hfocused, Hef.
  change (validatedBoth t d vt vd (document s)) with (document s2) in Ht', Het.
  change (validatedBoth t d vt vd (document s)) with (document s3) in Hd', Hed.
  unfold bind at 1. unfold gets at 1. cbv beta iota. rewrite Hfocused.
  unfold focus.
  rewrite (bind_run _ _ _ _ _ (bind_run _ _ _ _ _ (deref_run focused ef s1 Hef))).
  fold s2.
  unfold getElementById. unfold bind at 1. unfold gets at 1. cbv beta iota.
  rewrite Ht'. unfold addEventListener.
  rewrite (bind_run _ _ _ _ _ (bind_run _ _ _ _ _ (deref_run t et s2 Het))).
  fold s3.
  unfold bind at 1. unfold gets at 1. cbv beta iota. rewrite Hd'.
  rewrite (bind_run _ _ _ _ _ (bind_run _ _ _ _ _ (deref_run d ed s3 Hed))).
  reflexivity.
Qed.

Lemma createIssue_submits (s : IssueReporter) (t d vt vd : nat) :
  inputsAt (document s) t d vt vd →
  nonEmpty (valueAt (document s) t) = true →
  nonEmpty (valueAt (document s) d) = true →
  createIssue serialize s
  = Some (true,
          submitted t d vt vd
            (issueUrl (valueAt (document s) t) (serialize (issueReporterModel s))) s).
Proof.
  intros Hin Htitle Hdescription.
  pose proof (validatedBoth_sameBut (document s) t d vt vd) as Hsame.
  pose proof (inputsAt_sameBut _ _ _ _ _ _ Hsame Hin) as (Ht' & _).
  destruct (getElementById_Some _ _ _ Ht') as (et & Het & _).
  assert (DOM.value et = valueAt (document s) t) as Hvalue.
  { rewrite <-(valueAt_sameBut _ _ _ t Hsame). unfold valueAt. by rewrite Het. }
  unfold createIssue.
  rewrite (bind_run _ _ _ _ _ (validateInputs_run s t d vt vd Hin)).
  rewrite Htitle, Hdescription. cbn [andb negb]. cbv iota. unfold submitted.
  set (s1 := withDocument (validatedBoth t d vt vd) s).
  unfold bind at 1. unfold gets at 1. cbv beta iota.
  destruct (telemetryService s1) as [log|] eqn:Hservice.
  - rewrite bool_decide_true by eauto.
    unfold getData, publicLog, getElementById, openExternal, modifyState, bind, gets, ret.
    cbv beta iota.
    change (document (withTelemetry ?f s1)) with (validatedBoth t d vt vd (document s)).
    rewrite Ht'. unfold deref, bind, gets, ret. cbv beta iota.
    change (document (withTelemetry ?f s1)) with (validatedBoth t d vt vd (document s)).
    rewrite Het. rewrite Hvalue. unfold issueUrl. rewrite !string_app_assoc.
    reflexivity.
  - rewrite bool_decide_false by (by intros [? ?]).
    unfold getData, getElementById, openExternal, modifyState, bind, gets, ret.
    cbv beta iota.
    change (document s1) with (validatedBoth t d vt vd (document s)).
    rewrite Ht'. unfold deref, bind, gets, ret. cbv beta iota.
    change (document s1) with (validatedBoth t d vt vd (document s)).
    rewrite Het. rewrite Hvalue. unfold issueUrl. rewrite !string_app_assoc.
    unfold withOpenedExternal, withTelemetry. simpl.
    change (telemetryService s) with (telemetryService s1). rewrite Hservice. reflexivity.
Qed.


(** ** The table of extensions *)

Lemma updateExtensionTable_run (extensions : option (list ILocalExtension))
    (numThemeExtensions : option nat) (s : IssueReporter) (target : nat) :
  DOM.querySelector ["block-extensions"; "block-info"] (document s) = Some target →
  updateExtensionTable extensions numThemeExtensions s
  = Some (tt, withDocument
                (alter (DOM.set_innerHTML
                          (extensionTableHtml extensions numThemeExtensions)) target) s)
    ∧ innerHTMLAt
        (alter (DOM.set_innerHTML (extensionTableHtml extensions numThemeExtensions))
               target (document s)) target
      = extensionTableHtml extensions numThemeExtensions.
Proof.
  intros Htarget.
  destruct (querySelector_Some _ _ _ Htarget) as (e & He & _).
  split.
  - unfold updateExtensionTable, querySelector.
    unfold bind at 1. unfold gets at 1. cbv beta iota. rewrite Htarget.
    by rewrite (modify_run target e _ s He).
  - unfold innerHTMLAt. by rewrite list_lookup_alter, decide_True, He.
Qed.

Lemma extensionTableRow_cells (extension : ILocalExtension) :
  ∃ author,
    extensionTableRow extension
    = line 4 "<tr>"
      +:+ line 5 ("<td>" +:+ name (manifest extension) +:+ "</td>")
      +:+ line 5 ("<td>" +:+ author +:+ "</td>")
      +:+ line 5 ("<td>" +:+ version (manifest extension) +:+ "</td>")
      +:+ line 4 "</tr>"
    ∧ String.prefix author (publisher (manifest extension)) = true
    ∧ String.length author = 3 `min` String.length (publisher (manifest extension)).
Proof.
  exists (substr0 3 (publisher (manifest extension))).
  split_and!; [done | apply substr0_prefix | apply substr0_length].
Qed.

Lemma themeExclusionStr_Some (n : nat) :
  themeExclusionStr (Some n) = if decide (n = 0) then "" else themesExcluded n.
Proof. by destruct n. Qed.

Lemma extensionTableHtml_Some (extensions : list ILocalExtension)
    (numThemeExtensions : option nat) :
  extensionTableHtml (Some extensions) numThemeExtensions
  = match extensions with
    | [] => "Extensions: none" +:+ themeExclusionStr numThemeExtensions
    | _ => "<table>" +:+ extensionTableHeader
           +:+ String.concat "" (extensionTableRow <$> extensions)
           +:+ "</table>" +:+ themeExclusionStr numThemeExtensions
    end.
Proof.
  unfold extensionTableHtml. destruct extensions as [|x l]; [done|].
  cbn [default length Nat.eqb]. cbv iota.
  by rewrite foldl_rows, string_app_assoc.
Qed.

Lemma extensionTableHeader_text :
  "<table>" +:+ extensionTableHeader
  = "<table>
			<tr>
				<th>Extension</th>
				<th>Author (truncated)</th>
				<th>Version</th>
			</tr>".
Proof. reflexivity. Qed.

Lemma extensionTableRow_text (extension : ILocalExtension) :
  extensionTableRow extension
  = "
				<tr>
					<td>" +:+ name (manifest extension) +:+ "</td>
					<td>"
    +:+ String.substring 0 3 (publisher (manifest extension)) +:+ "</td>
					<td>"
    +:+ version (manifest extension) +:+ "</td>
				</tr>".
Proof.
  unfold extensionTableRow, line, substr0. cbn [tabs].
  by rewrite !string_app_assoc.
Qed.

Lemma numberToString_reads_back (n : nat) :
  NilZero.uint_of_string (numberToString n) = Some (Nat.to_uint n).
Proof.
  apply NilZero.usu.
  rewrite <-(DecimalNat.Unsigned.of_to n) at 1. rewrite DecimalNat.Unsigned.to_of.
  apply DecimalFacts.unorm_nonnil.
Qed.

(** C4. The extensions block, for the list of extensions that are not
    themes and the number of themes, which is undefined when there are no
    themes: with an empty list it is the line "Extensions: none";
    otherwise it is a table with the header and one row for each
    extension, in the order of receipt, holding the name, the first three
    characters of the publisher and the version. In both cases the text
    "(N theme extensions excluded)", with N in decimal, follows on a line
    of its own exactly when the number of themes is given and is not
    zero. *)
Theorem updateExtensionTable_renders (extensions : list ILocalExtension)
    (numThemeExtensions : option nat) (s : IssueReporter) (target : nat) :
  DOM.querySelector ["block-extensions"; "block-info"] (document s) = Some target →
  ∃ s' suffix,
    updateExtensionTable (Some extensions) numThemeExtensions s = Some (tt, s')
    ∧ innerHTMLAt (document s') target
      = match extensions with
        | [] => "Extensions: none" +:+ suffix
        | _ =>
            "<table>
			<tr>
				<th>Extension</th>
				<th>Author (truncated)</th>
				<th>Version</th>
			</tr>"
            +:+ String.concat ""
                  ((λ extension,
                      "
				<tr>
					<td>" +:+ name (manifest extension) +:+ "</td>
					<td>"
                      +:+ String.substring 0 3 (publisher (manifest extension)) +:+ "</td>
					<td>"
                      +:+ version (manifest extension) +:+ "</td>
				</tr>")
                   <$> extensions)
            +:+ "</table>" +:+ suffix
        end
    ∧ match numThemeExtensions with
      | Some (S n) =>
          ∃ digits,
            suffix = "
(" +:+ digits +:+ " theme extensions excluded)"
            ∧ NilZero.uint_of_string digits = Some (Nat.to_uint (S n))
      | Some 0 | None => suffix = ""
      end
    ∧ (suffix = "" ↔ numThemeExtensions = None ∨ numThemeExtensions = Some 0)
    ∧ ∀ extension,
        String.prefix (String.substring 0 3 (publisher (manifest extension)))
          (publisher (manifest extension)) = true
        ∧ String.length (String.substring 0 3 (publisher (manifest extension)))
          = 3 `min` String.length (publisher (manifest extension)).
Proof.
  intros Htarget.
  destruct (updateExtensionTable_run (Some extensions) numThemeExtensions
              s target Htarget) as [Hrun Hhtml].
  eexists _, (themeExclusionStr numThemeExtensions).
  split; [exact Hrun|]. split_and!.
  - change (document (withDocument ?f s)) with (f (document s)).
    rewrite Hhtml, extensionTableHtml_Some.
    destruct extensions as [|extension extensions]; [done|].
    rewrite <-extensionTableHeader_text, !string_app_assoc. do 4 f_equal.
    apply list_fmap_ext. intros _ e _. apply extensionTableRow_text.
  - destruct numThemeExtensions as [[|n]|]; [done | | done].
    exists (numberToString (S n)). split; [done|]. apply numberToString_reads_back.
  - rewrite themeExclusionStr_empty. tauto.
  - intros extension. split; [apply substr0_prefix | apply substr0_length].
Qed.

Lemma handleExtensionData_run (extensions : list ILocalExtension)
    (s : IssueReporter) (target : nat) :
  DOM.querySelector ["block-extensions"; "block-info"] (document s) = Some target →
  let groups := groupBy extensions extensionGroup in
  let html := extensionTableHtml (groups !! "nonThemes")
                                 (length <$> groups !! "themes") in
  handleExtensionData extensions s
  = Some (tt, withDocument (alter (DOM.set_innerHTML html) target)
                (withModel
                   (IssueReporterModel.update
                      (list_to_map
                         [ ("numberOfThemeExtesions",
                            JOfNumber (length <$> groups !! "themes"));
                           ("enabledNonThemeExtesions",
                            JOfExtensions (groups !! "nonThemes")) ])) s)).
Proof.
  intros Htarget groups html. unfold handleExtensionData, update, setModel.
  unfold bind at 1. unfold modifyState at 1. cbv beta iota.
  fold groups.
  match goal with
  | |- updateExtensionTable _ _ ?s1 = _ =>
      by destruct (updateExtensionTable_run (groups !! "nonThemes")
                     (length <$> groups !! "themes") s1 target Htarget) as [-> _]
  end.
Qed.

(** C9. When no extension of the list is left for the table, the group of
    extensions that are not themes is undefined; the table is given the
    empty list in its place and shows "Extensions: none". The text on the
    excluded themes follows exactly when the number of themes is a number
    other than zero: not when it is zero, not when it is undefined. *)
Theorem updateExtensionTable_without_extensions (extensions : list ILocalExtension)
    (numThemeExtensions : option nat) (s : IssueReporter) (target : nat) :
  DOM.querySelector ["block-extensions"; "block-info"] (document s) = Some target →
  (∀ ext, ext ∈ extensions → onlyTheme ext = true) →
  (∃ s', updateExtensionTable None numThemeExtensions s = Some (tt, s')
         ∧ innerHTMLAt (document s') target
           = "Extensions: none" +:+ themeExclusionStr numThemeExtensions)
  ∧ (themeExclusionStr numThemeExtensions = ""
     ↔ numThemeExtensions = None ∨ numThemeExtensions = Some 0)
  ∧ (∀ n, numThemeExtensions = Some n → n ≠ 0 →
       themeExclusionStr numThemeExtensions
       = nl +:+ "(" +:+ numberToString n +:+ " theme extensions excluded)")
  ∧ groupBy extensions extensionGroup !! "nonThemes" = None
  ∧ ∃ s', handleExtensionData extensions s = Some (tt, s')
          ∧ innerHTMLAt (document s') target
            = "Extensions: none"
              +:+ match extensions with
                  | [] => ""
                  | _ => nl +:+ "(" +:+ numberToString (length extensions)
                         +:+ " theme extensions excluded)"
                  end.
Proof.
  intros Htarget Hthemes.
  assert (filter (λ ext, onlyTheme ext = false) extensions = []) as Hnone.
  { apply filter_none, Forall_forall. intros ext Hext.
    rewrite (Hthemes ext Hext). done. }
  assert (filter (λ ext, onlyTheme ext = true) extensions = extensions) as Hall
    by (by apply filter_all, Forall_forall).
  split_and!.
  - destruct (updateExtensionTable_run None numThemeExtensions s target Htarget)
      as [Hrun Hhtml].
    eexists. split; [exact Hrun|]. exact Hhtml.
  - apply themeExclusionStr_empty.
  - intros n -> Hn. rewrite themeExclusionStr_Some. by rewrite decide_False.
  - by rewrite nonThemes_group, Hnone.
  - rewrite (handleExtensionData_run extensions s target Htarget).
    eexists. split; [reflexivity|].
    change (document (withDocument ?f ?s0)) with (f (document s0)).
    change (document (withModel ?f s)) with (document s).
    destruct (updateExtensionTable_run
                (groupBy extensions extensionGroup !! "nonThemes")
                (length <$> groupBy extensions extensionGroup !! "themes")
                s target Htarget) as [_ ->].
    rewrite nonThemes_group, themes_group, Hnone, Hall.
    by destruct extensions.
Qed.

(** C2. An extension is taken for a theme exactly when its manifest has no
    activation events and the only key of its contributions is "themes".
    Of the extensions delivered, the themes are counted, and the count is
    what the model is given as number of themes; the others, and only
    they, make up the list the model is given, in the order of receipt. *)
Theorem handleExtensionData_separates_themes (extensions : list ILocalExtension)
    (s : IssueReporter) (target : nat) :
  DOM.querySelector ["block-extensions"; "block-info"] (document s) = Some target →
  let themes := filter (λ ext, onlyTheme ext = true) extensions in
  let nonThemes := filter (λ ext, onlyTheme ext = false) extensions in
  (∀ ext, onlyTheme ext = true
          ↔ activationEvents (manifest ext) = None
            ∧ ∃ c, contributes (manifest ext) = Some c ∧ Object_keys c = ["themes"])
  ∧ ∃ s', handleExtensionData extensions s = Some (tt, s')
      ∧ IssueReporterModel.get (issueReporterModel s') "numberOfThemeExtesions"
        = match themes with
          | [] => JUndefined
          | _ => JNumber (Z.of_nat (length themes))
          end
      ∧ IssueReporterModel.get (issueReporterModel s') "enabledNonThemeExtesions"
        = match nonThemes with
          | [] => JUndefined
          | _ => JExtensions nonThemes
          end
      ∧ (∀ ext, ext ∈ extensions → onlyTheme ext = true →
           ext ∈ themes ∧ ext ∉ nonThemes)
      ∧ (∀ ext, ext ∈ extensions → onlyTheme ext = false →
           ext ∈ nonThemes ∧ ext ∉ themes).
Proof.
  intros Htarget themes nonThemes. split; [apply onlyTheme_iff|].
  rewrite (handleExtensionData_run extensions s target Htarget).
  eexists. split; [reflexivity|].
  change (issueReporterModel (withDocument ?f (withModel ?g s)))
    with (g (issueReporterModel s)).
  unfold IssueReporterModel.get, IssueReporterModel.update.
  rewrite themes_group, nonThemes_group. fold themes nonThemes.
  split_and!.
  - erewrite lookup_union_Some_l; [|reflexivity]. simpl. by destruct themes.
  - erewrite lookup_union_Some_l; [|reflexivity]. simpl. by destruct nonThemes.
  - intros ext Hext Htheme. unfold themes, nonThemes.
    rewrite !list_elem_of_filter. split; [done|]. intros [? _]. congruence.
  - intros ext Hext Htheme. unfold themes, nonThemes.
    rewrite !list_elem_of_filter. split; [done|]. intros [? _]. congruence.
Qed.

Lemma addEventListener_run (s : IssueReporter) (elementId type : string) :
  is_Some (DOM.getElementById elementId (document s)) →
  (el <- getElementById elementId ;; addEventListener el elementId type) s
  = Some (tt, withListener elementId type s).
Proof.
  intros [i Hi]. destruct (getElementById_Some _ _ _ Hi) as (e & He & _).
  unfold getElementById, addEventListener.
  unfold bind at 1. unfold gets at 1. cbv beta iota. rewrite Hi.
  by rewrite (bind_run _ _ _ _ _ (deref_run i e s He)).
Qed.

Lemma setEventHandlers_run (s : IssueReporter) :
  handlersAt (document s) →
  setEventHandlers s = Some (tt, withOnkeydown (withListeners installedListeners s)).
Proof.
  intros Hready.
  assert (∀ added elementId, elementId ∈ handlerIds →
            is_Some (DOM.getElementById elementId
                       (document (withListeners added s)))) as Hid.
  { intros added elementId Hin.
    replace (document (withListeners added s)) with (document s); [by apply Hready|].
    unfold withListeners. generalize s. induction added as [|x added IH]; [done|].
    intros s0. simpl. by rewrite <-IH. }
  assert (∀ added elementId type (k : unit → M unit), elementId ∈ handlerIds →
            bind (el <- getElementById elementId ;; addEventListener el elementId type)
                 k (withListeners added s)
            = k tt (withListeners (added ++ [(elementId, type)]) s)) as Hstep.
  { intros added elementId type k Hin.
    rewrite (bind_run _ _ _ _ _ (addEventListener_run _ elementId type (Hid added _ Hin))).
    unfold withListeners. by rewrite foldl_app. }
  assert (∀ added elementId type (k : unit → M unit), elementId ∈ handlerIds →
            (el <- getElementById elementId ;;
             x <- addEventListener el elementId type ;; k x) (withListeners added s)
            = k tt (withListeners (added ++ [(elementId, type)]) s)) as Hstep'.
  { intros added elementId type k Hin. rewrite <-Hstep by done.
    unfold bind. by destruct (getElementById elementId _) as [[]|]. }
  assert (∀ elementId, bool_decide (elementId ∈ handlerIds) = true →
                       elementId ∈ handlerIds) as Hmem
    by (intros ?; apply bool_decide_eq_true_1).
  unfold setEventHandlers, includeElementIds, forEach.
  change s with (withListeners [] s) at 1.
  rewrite Hstep' by (by apply Hmem). cbv beta.
  unfold bind at 1. rewrite Hstep by (by apply Hmem). cbv beta.
  rewrite Hstep by (by apply Hmem). cbv beta.
  rewrite Hstep by (by apply Hmem). cbv beta.
  rewrite Hstep by (by apply Hmem). cbv beta.
  unfold ret at 1. cbv beta iota.
  rewrite Hstep' by (by apply Hmem). cbv beta.
  rewrite Hstep' by (by apply Hmem). cbv beta.
  rewrite Hstep' by (by apply Hmem). cbv beta.
  reflexivity.
Qed.

(** C5. The window starts with a model whose issue type is Bug, whose four
    include flags are true and whose version information is filled in; the
    texts "Commit unknown" and "Date unknown" stand for a commit or a date
    that the product does not have. *)
Theorem construct_initial_state (p : Platform) (lang : string) (page : DOM.Document)
    (enabledExtensions : list ILocalExtension) (target : nat) :
  handlersAt page →
  (lang ≠ "en" → is_Some (DOM.getElementById "english" page)) →
  DOM.querySelector ["block-extensions"; "block-info"] page = Some target →
  ∃ s commit date,
    construct p lang page enabledExtensions = Some s
    ∧ IssueReporterModel.get (issueReporterModel s) "issueType" = JIssueType Bug
    ∧ IssueReporterModel.get (issueReporterModel s) "includeSystemInfo" = JBool true
    ∧ IssueReporterModel.get (issueReporterModel s) "includeProcessInfo" = JBool true
    ∧ IssueReporterModel.get (issueReporterModel s) "includeWorkspaceInfo" = JBool true
    ∧ IssueReporterModel.get (issueReporterModel s) "includeExtensions" = JBool true
    ∧ IssueReporterModel.get (issueReporterModel s) "versionInfo"
      = JVersionInfo
          (pkg_name p +:+ " " +:+ pkg_version p +:+ " (" +:+ commit +:+ ", "
             +:+ date +:+ ")")
          (os_type p +:+ " " +:+ os_arch p +:+ " " +:+ os_release p)
    ∧ (product_commit p = None → commit = "Commit unknown")
    ∧ (product_date p = None → date = "Date unknown")
    ∧ (∀ c, product_commit p = Some c → c ≠ "" → commit = c)
    ∧ (∀ d, product_date p = Some d → d ≠ "" → date = d).
Proof.
  intros Hhandlers Henglish Htarget.
  assert (∃ s1, (setEventHandlers ;;
                 (if negb (String.eqb lang "en") then
                    english <- getElementById "english" ;; show english
                  else ret tt)) (created p page) = Some (tt, s1)
                ∧ issueReporterModel s1 = initialData p
                ∧ sameBut ["hidden"] page (document s1)) as (s1 & Hrun1 & Hmodel1 & Hsame).
  { rewrite (bind_run _ _ _ _ _ (setEventHandlers_run (created p page) Hhandlers)).
    destruct (String.eqb_spec lang "en") as [->|Hlang]; cbn [negb].
    - eexists. split; [reflexivity|]. split; [done|]. apply sameBut_refl.
    - destruct (Henglish Hlang) as [i Hi].
      destruct (getElementById_Some _ _ _ Hi) as (e & He & _).
      unfold getElementById, show. unfold bind at 1. unfold gets at 1. cbv beta iota.
      change (document (withOnkeydown (withListeners installedListeners (created p page))))
        with page.
      rewrite Hi.
      rewrite (modify_run i e _
                 (withOnkeydown (withListeners installedListeners (created p page))) He).
      eexists. split; [reflexivity|]. split; [done|].
      apply sameBut_alter; [|apply sameBut_refl].
      intros; apply sameBut_remove; left. }
  assert (DOM.querySelector ["block-extensions"; "block-info"] (document s1) = Some target)
    as Htarget1.
  { rewrite <-Htarget. symmetry. apply querySelector_sameBut with ["hidden"]; [|done].
    intros c Hc ->%list_elem_of_singleton.
    by repeat (apply elem_of_cons in Hc as [?|Hc]; [done|]); apply elem_of_nil in Hc. }
  unfold construct, IssueReporter_constructor.
  unfold bind at 1 in Hrun1.
  destruct (setEventHandlers (created p page)) as [[[] s0]|] eqn:Hs0; [|done].
  unfold bind at 1. rewrite Hs0. unfold bind at 1. rewrite Hrun1.
  rewrite (handleExtensionData_run enabledExtensions s1 target Htarget1).
  eexists _, (orString (product_commit p) "Commit unknown"),
    (orString (product_date p) "Date unknown").
  split; [reflexivity|]. cbn [fmap option_fmap option_map snd].
  change (issueReporterModel (withDocument ?f (withModel ?g ?s0)))
    with (g (issueReporterModel s0)).
  rewrite Hmodel1.
  unfold IssueReporterModel.get, IssueReporterModel.update.
  assert (∀ key value (newData : gmap string JsValue),
            newData !! key = None → initialData p !! key = Some value →
            default JUndefined ((newData ∪ initialData p) !! key) = value) as Hget.
  { intros key value newData Hnew Hold. by rewrite lookup_union_r, Hold. }
  split_and!; try (by apply Hget).
  - intros ->. done.
  - intros ->. done.
  - intros c -> Hc. simpl. by apply String.eqb_neq in Hc as ->.
  - intros d -> Hd. simpl. by apply String.eqb_neq in Hd as ->.
Qed.

(** ** The blocks and the issue type *)

(** C1. After [renderBlocks], the four blocks are shown or hidden as the
    rule table of the specification says for the issue type of the model:
    for Bug the system and extensions blocks are shown and the process and
    workspace blocks hidden, for PerformanceIssue all four are shown, for
    FeatureRequest all four are hidden. *)
Theorem renderBlocks_follows_policy (s : IssueReporter) (category : IssueType)
    (sys proc ws ext lbl sub : nat) :
  IssueReporterModel.get (issueReporterModel s) "issueType" = JIssueType category →
  DOM.querySelector ["block-system"] (document s) = Some sys →
  DOM.querySelector ["block-process"] (document s) = Some proc →
  DOM.querySelector ["block-workspace"] (document s) = Some ws →
  DOM.querySelector ["block-extensions"] (document s) = Some ext →
  DOM.getElementById "issue-description-label" (document s) = Some lbl →
  DOM.getElementById "issue-description-subtitle" (document s) = Some sub →
  NoDup [sys; proc; ws; ext; sub] →
  ∃ s',
    renderBlocks localize s = Some (tt, s')
    ∧ blockShown (document s') sys
      = Some (ReportCategoryPolicy.shown category SystemBlock)
    ∧ blockShown (document s') proc
      = Some (ReportCategoryPolicy.shown category ProcessBlock)
    ∧ blockShown (document s') ws
      = Some (ReportCategoryPolicy.shown category WorkspaceBlock)
    ∧ blockShown (document s') ext
      = Some (ReportCategoryPolicy.shown category ExtensionsBlock).
Proof.
  intros Htype Hsys Hproc Hws Hext Hlbl Hsub Hnodup.
  destruct (renderBlocks_run s sys proc ws ext lbl sub Hsys Hproc Hws Hext Hlbl Hsub)
    as (doc' & Hrun & _ & Hblocks).
  destruct (Hblocks Hnodup) as (H1 & H2 & H3 & H4).
  exists (withDocument (λ _, doc') s). split; [exact Hrun|].
  change (document (withDocument (λ _, doc') s)) with doc'.
  rewrite Htype in H1, H2, H3, H4.
  assert (∀ i b, hidden <$> doc' !! i = Some b → blockShown doc' i = Some (negb b))
    as Hshown.
  { intros i b. unfold blockShown. destruct (doc' !! i); simpl; [|done].
    by intros [= ->]. }
  apply Hshown in H1, H2, H3, H4.
  rewrite H1, H2, H3, H4. by destruct category.
Qed.

(** C6. A change of the issue type changes the issue type in the model and
    nothing else: every other key of the model and every text typed in
    the page are as before. Changing the issue type back gives the model
    that there was before the change. *)
Theorem onIssueTypeChange_changes_issueType_only (s : IssueReporter)
    (value : string) (sys proc ws ext lbl sub : nat) :
  DOM.querySelector ["block-system"] (document s) = Some sys →
  DOM.querySelector ["block-process"] (document s) = Some proc →
  DOM.querySelector ["block-workspace"] (document s) = Some ws →
  DOM.querySelector ["block-extensions"] (document s) = Some ext →
  DOM.getElementById "issue-description-label" (document s) = Some lbl →
  DOM.getElementById "issue-description-subtitle" (document s) = Some sub →
  ∃ s',
    onIssueTypeChange localize parseInt value s = Some (tt, s')
    ∧ issueReporterModel s' = <["issueType" := parseInt value]> (issueReporterModel s)
    ∧ (∀ key, key ≠ "issueType" →
         issueReporterModel s' !! key = issueReporterModel s !! key)
    ∧ (∀ i, valueAt (document s') i = valueAt (document s) i)
    ∧ ∀ previous,
        issueReporterModel s !! "issueType" = Some (parseInt previous) →
        ∃ s'', onIssueTypeChange localize parseInt previous s' = Some (tt, s'')
               ∧ issueReporterModel s'' = issueReporterModel s.
Proof.
  intros Hsys Hproc Hws Hext Hlbl Hsub.
  assert (∀ v (s0 : IssueReporter), document s0 = document s →
            ∃ doc', onIssueTypeChange localize parseInt v s0
                    = Some (tt, withDocument (λ _, doc')
                                  (withModel (IssueReporterModel.update
                                                {[ "issueType" := parseInt v ]}) s0))
                    ∧ sameBut ["hidden"] (document s) doc') as Hstep.
  { intros v s0 Hdoc. unfold onIssueTypeChange, update, setModel, render.
    unfold bind at 1. unfold modifyState at 1. cbv beta iota.
    set (s1 := withModel _ s0).
    assert (document s1 = document s) as Hdoc1 by done.
    rewrite <-Hdoc1 in Hsys, Hproc, Hws, Hext, Hlbl, Hsub.
    destruct (renderBlocks_run s1 sys proc ws ext lbl sub Hsys Hproc Hws Hext Hlbl Hsub)
      as (doc' & Hrun & Hsame & _).
    exists doc'. rewrite Hdoc1 in Hsame. done. }
  destruct (Hstep value s eq_refl) as (doc1 & Hrun1 & Hsame1).
  eexists. split; [exact Hrun1|].
  change (issueReporterModel (withDocument ?f (withModel ?g s)))
    with (g (issueReporterModel s)).
  change (document (withDocument (λ _, doc1) ?s0)) with doc1.
  unfold IssueReporterModel.update. rewrite <-insert_union_singleton_l.
  split_and!.
  - done.
  - intros key Hkey. by rewrite lookup_insert_ne.
  - intros i. by apply valueAt_sameBut with ["hidden"].
  - intros previous Hprevious.
    set (s1 := withDocument (λ _, doc1) (withModel _ s)).
    assert (∃ doc', onIssueTypeChange localize parseInt previous s1
                    = Some (tt, withDocument (λ _, doc')
                                  (withModel (IssueReporterModel.update
                                                {[ "issueType" := parseInt previous ]}) s1)))
      as [doc2 Hrun2].
    { unfold onIssueTypeChange, update, setModel, render.
      unfold bind at 1. unfold modifyState at 1. cbv beta iota.
      set (s2 := withModel _ s1).
      assert (sameBut ["hidden"] (document s) (document s2)) as Hsame2 by exact Hsame1.
      assert (∀ c, c ≠ "hidden" →
                DOM.querySelector [c] (document s) = DOM.querySelector [c] (document s2))
        as Hquery.
      { intros c Hc. apply querySelector_sameBut with ["hidden"]; [|done].
        intros c' ->%list_elem_of_singleton ?%list_elem_of_singleton. done. }
      rewrite Hquery in Hsys, Hproc, Hws, Hext by done.
      rewrite (getElementById_sameBut _ "issue-description-label" _ _ Hsame2) in Hlbl.
      rewrite (getElementById_sameBut _ "issue-description-subtitle" _ _ Hsame2) in Hsub.
      destruct (renderBlocks_run s2 sys proc ws ext lbl sub Hsys Hproc Hws Hext Hlbl Hsub)
        as (doc' & Hrun & _). eauto. }
    eexists. split; [exact Hrun2|].
    change (issueReporterModel (withDocument ?f (withModel ?g s1)))
      with (g (issueReporterModel s1)).
    change (issueReporterModel s1)
      with (IssueReporterModel.update {[ "issueType" := parseInt value ]}
              (issueReporterModel s)).
    unfold IssueReporterModel.update. rewrite <-!insert_union_singleton_l.
    rewrite insert_insert_eq. by apply insert_id.
Qed.

(** C7. A click on one of the four include check boxes replaces the flag
    of that name by its negation and leaves the rest of the window as it
    was: the other flags, the issue type, the description, the version
    information and, in particular, the data that the flag stands for. *)
Theorem onIncludeClick_negates_one_flag (s : IssueReporter) (elementId : string) :
  elementId ∈ includeElementIds →
  ∃ s',
    onIncludeClick elementId s = Some (tt, s')
    ∧ IssueReporterModel.get (issueReporterModel s') elementId
      = JBool (negb (truthy (IssueReporterModel.get (issueReporterModel s) elementId)))
    ∧ (∀ flag, IssueReporterModel.get (issueReporterModel s) elementId = JBool flag →
         IssueReporterModel.get (issueReporterModel s') elementId = JBool (negb flag))
    ∧ (∀ key, key ≠ elementId →
         issueReporterModel s' !! key = issueReporterModel s !! key)
    ∧ (∀ key, key ∈ ["systemInfo"; "processInfo"; "workspaceInfo";
                     "enabledNonThemeExtesions"; "numberOfThemeExtesions"] →
         issueReporterModel s' !! key = issueReporterModel s !! key)
    ∧ document s' = document s
    ∧ s' = withModel (λ _, issueReporterModel s') s.
Proof.
  intros Hid.
  eexists. split; [reflexivity|].
  assert (IssueReporterModel.update
            {[ elementId := JBool (negb (truthy (IssueReporterModel.get
                                                   (issueReporterModel s) elementId))) ]}
            (issueReporterModel s)
          = <[elementId := JBool (negb (truthy (IssueReporterModel.get
                                                   (issueReporterModel s) elementId)))]>
              (issueReporterModel s)) as Hupdate
    by (unfold IssueReporterModel.update; by rewrite <-insert_union_singleton_l).
  split_and!; [| | | | done | done];
    change (issueReporterModel (withModel ?g s)) with (g (issueReporterModel s));
    rewrite Hupdate.
  - unfold IssueReporterModel.get at 1. by rewrite lookup_insert_eq.
  - intros flag Hflag. unfold IssueReporterModel.get at 1.
    by rewrite lookup_insert_eq, Hflag.
  - intros key Hkey. by rewrite lookup_insert_ne.
  - intros key Hkey. rewrite lookup_insert_ne; [done|]. intros ->.
    unfold includeElementIds in Hid.
    repeat (apply elem_of_cons in Hid as [->|Hid];
            [by repeat (apply elem_of_cons in Hkey as [?|Hkey]; [done|]);
                apply elem_of_nil in Hkey|]).
    by apply elem_of_nil in Hid.
Qed.

(** ** Submission *)


Lemma nonEmpty_true (x : string) : nonEmpty x = true ↔ x ≠ "".
Proof. unfold nonEmpty. rewrite negb_true_iff. apply String.eqb_neq. Qed.


(** What [createIssue] does, whatever the fields hold. *)
Lemma createIssue_run (s : IssueReporter) (t d vt vd : nat) :
  inputsAt (document s) t d vt vd →
  ∃ submitted' s',
    createIssue serialize s = Some (submitted', s')
    ∧ submitted' = nonEmpty (valueAt (document s) t) && nonEmpty (valueAt (document s) d)
    ∧ document s' = validatedBoth t d vt vd (document s)
    ∧ windowClosed s' = windowClosed s
    ∧ issueReporterModel s' = issueReporterModel s
    ∧ (submitted' = true →
         openedExternal s'
         = openedExternal s
           ++ [issueUrl (valueAt (document s) t) (serialize (issueReporterModel s))])
    ∧ (submitted' = false →
         openedExternal s' = openedExternal s
         ∧ ∃ focused, activeElement s' = Some focused
                      ∧ DOM.firstByClassName "invalid-input" (document s') = Some focused).
Proof.
  intros Hin.
  destruct (nonEmpty (valueAt (document s) t) && nonEmpty (valueAt (document s) d))
    eqn:Hvalid.
  - apply andb_true_iff in Hvalid as [Htitle Hdescription].
    eexists _, _. split; [by apply createIssue_submits|].
    split_and!; done.
  - destruct (createIssue_rejects s t d vt vd Hin Hvalid) as (focused & Hrun & Hfocus).
    eexists _, _. split; [exact Hrun|].
    split_and!; try done. intros _. split; [done|]. by exists focused.
Qed.

Lemma both_nonEmpty (x y : string) :
  nonEmpty x && nonEmpty y = true ↔ x ≠ "" ∧ y ≠ "".
Proof. by rewrite andb_true_iff, !nonEmpty_true. Qed.


(** ** The address of the tracker *)

Lemma escapeCodeUnit_characters (c : Ascii.ascii) :
  forallb (λ x, uriUnreserved x || Ascii.eqb x (Ascii.ascii_of_nat 37))
          (String.list_ascii_of_string (escapeCodeUnit c)) = true.
Proof. destruct c as [[] [] [] [] [] [] [] []]; vm_compute; reflexivity. Qed.

(** Every character of an encoded text is a letter, a digit, one of
    [- _ . ! ~ * ' ( )] or the percent sign of an escape. *)
Lemma encodeURIComponent_characters (text : string) :
  Forall (λ c, uriUnreserved c = true ∨ c = Ascii.ascii_of_nat 37)
         (String.list_ascii_of_string (encodeURIComponent text)).
Proof.
  assert (∀ a b, String.list_ascii_of_string (a +:+ b)
                 = String.list_ascii_of_string a ++ String.list_ascii_of_string b) as Happ.
  { intros a b. induction a as [|c a IH]; [done|].
    rewrite string_app_cons. simpl. by rewrite IH. }
  induction text as [|c text IH]; [constructor|].
  simpl. rewrite Happ. apply Forall_app. split; [|exact IH].
  destruct (uriUnreserved c) eqn:Hc.
  - simpl. constructor; [by left | constructor].
  - apply Forall_forall. intros x Hx%list_elem_of_In.
    pose proof (proj1 (forallb_forall _ _) (escapeCodeUnit_characters c) x Hx) as Hok.
    apply orb_true_iff in Hok as [?|?%Ascii.eqb_eq]; auto.
Qed.

(** The text of the address that [createIssue] opens when both fields
    are filled in: the title follows [title=] as it was typed, and the
    serialized report follows [&body=] percent-encoded. *)
Lemma createIssue_opens_address (s : IssueReporter) (t d vt vd : nat) :
  inputsAt (document s) t d vt vd →
  valueAt (document s) t ≠ "" →
  valueAt (document s) d ≠ "" →
  ∃ s',
    createIssue serialize s = Some (true, s')
    ∧ openedExternal s'
      = openedExternal s
        ++ ["https://github.com/microsoft/vscode/issues/new?title="
            +:+ valueAt (document s) t
            +:+ "&body="
            +:+ encodeURIComponent (serialize (issueReporterModel s))]
    ∧ Forall (λ c, uriUnreserved c = true ∨ c = Ascii.ascii_of_nat 37)
        (String.list_ascii_of_string
           (encodeURIComponent (serialize (issueReporterModel s)))).
Proof.
  intros Hin Htitle%nonEmpty_true Hdescription%nonEmpty_true.
  eexists. split; [by apply (createIssue_submits s t d vt vd)|].
  split; [done|]. apply encodeURIComponent_characters.
Qed.

(** C10. Shift+Enter closes the window exactly when [createIssue] returns
    true, that is, exactly when the title and the description are both
    filled in; with an empty field the window stays open, as it does on
    every other key. *)
Theorem onkeydown_closes_on_success (s : IssueReporter) (e : KeyboardEvent)
    (t d vt vd : nat) :
  inputsAt (document s) t d vt vd →
  windowClosed s = false →
  ∃ s',
    onkeydown serialize e s = Some (tt, s')
    ∧ (windowClosed s' = true
       ↔ shiftKey e = true ∧ keyCode e = 13%Z
         ∧ valueAt (document s) t ≠ "" ∧ valueAt (document s) d ≠ "")
    ∧ (shiftKey e = true → keyCode e = 13%Z →
       ∃ submitted' s1,
         createIssue serialize s = Some (submitted', s1)
         ∧ windowClosed s' = submitted'
         ∧ (submitted' = true
            ↔ valueAt (document s) t ≠ "" ∧ valueAt (document s) d ≠ "")).
Proof.
  intros Hin Hopen.
  destruct (createIssue_run s t d vt vd Hin)
    as (submitted' & s1 & Hrun & Hsubmitted & _ & Hwindow & _).
  unfold onkeydown.
  destruct (shiftKey e) eqn:Hshift; cbn [andb];
    [destruct (Z.eqb_spec (keyCode e) 13) as [Hkey|Hkey]|].
  - rewrite (bind_run _ _ _ _ _ Hrun).
    assert (submitted' = true
            ↔ valueAt (document s) t ≠ "" ∧ valueAt (document s) d ≠ "") as Hiff
      by (rewrite Hsubmitted; apply both_nonEmpty).
    destruct submitted' eqn:Hs.
    + eexists. split; [reflexivity|]. split.
      * cbn [windowClosed withWindowClosed]. rewrite <-Hiff. tauto.
      * intros _ _. exists true, s1. split_and!; try done.
    + eexists. split; [reflexivity|]. split.
      * rewrite Hwindow, Hopen, <-Hiff. split; [done | by intros (_ & _ & ?)].
      * intros _ _. exists false, s1. split_and!; try done. by rewrite Hwindow.
  - eexists. split; [reflexivity|]. rewrite Hopen.
    split; [split; [done | by intros (_ & ? & _)] | done].
  - eexists. split; [reflexivity|]. rewrite Hopen.
    split; [split; [done | by intros (? & _)] | done].
Qed.

End Properties.

(** * The window at work on the example page *)

Example onlyTheme_dracula : onlyTheme dracula = true.
Proof. reflexivity. Qed.

Example onlyTheme_vim : onlyTheme vim = false.
Proof. reflexivity. Qed.

Example groupBy_example :
  groupBy [vim; dracula; vim] extensionGroup
  = {[ "nonThemes" := [vim; vim]; "themes" := [dracula] ]}.
Proof. by vm_compute. Qed.

Example extensionTableHtml_none : extensionTableHtml None None = "Extensions: none".
Proof. reflexivity. Qed.

Example extensionTableHtml_one_theme :
  extensionTableHtml None (Some 1)
  = "Extensions: none" +:+ nl +:+ "(1 theme extensions excluded)".
Proof. reflexivity. Qed.

Example extensionTableHtml_no_themes :
  extensionTableHtml (Some [vim]) None
  = "<table>
			<tr>
				<th>Extension</th>
				<th>Author (truncated)</th>
				<th>Version</th>
			</tr>
				<tr>
					<td>vim</td>
					<td>vsc</td>
					<td>0.10.2</td>
				</tr></table>".
Proof. reflexivity. Qed.

Example extensionTableHtml_two_themes :
  extensionTableHtml (Some [vim]) (Some 2)
  = "<table>
			<tr>
				<th>Extension</th>
				<th>Author (truncated)</th>
				<th>Version</th>
			</tr>
				<tr>
					<td>vim</td>
					<td>vsc</td>
					<td>0.10.2</td>
				</tr></table>
(2 theme extensions excluded)".
Proof. reflexivity. Qed.

Example extensionTableRow_vim :
  extensionTableRow vim
  = nl +:+ tabs 4 +:+ "<tr>"
    +:+ nl +:+ tabs 5 +:+ "<td>vim</td>"
    +:+ nl +:+ tabs 5 +:+ "<td>vsc</td>"
    +:+ nl +:+ tabs 5 +:+ "<td>0.10.2</td>"
    +:+ nl +:+ tabs 4 +:+ "</tr>".
Proof. reflexivity. Qed.

Example versionInfo_example :
  versionInfo examplePlatform
  = JVersionInfo "code-oss-dev 1.20.0 (Commit unknown, Date unknown)"
                 "Linux x64 4.4.0".
Proof. reflexivity. Qed.

Example encodeURIComponent_example :
  encodeURIComponent "Steps: a&b = c/d #1 (50%)"
  = "Steps%3A%20a%26b%20%3D%20c%2Fd%20%231%20(50%25)".
Proof. reflexivity. Qed.

Example encodeURIComponent_latin1 :
  encodeURIComponent (String (Ascii.ascii_of_nat 233) "") = "%C3%A9".
Proof. reflexivity. Qed.

Example issueUrl_example :
  issueUrl "Crash on save" "Steps..."
  = "https://github.com/microsoft/vscode/issues/new?title=Crash on save&body=Steps...".
Proof. reflexivity. Qed.

(** The title goes into the address as it was typed. *)
Example issueUrl_title_verbatim :
  issueUrl "a&b" "x y"
  = "https://github.com/microsoft/vscode/issues/new?title=a&b&body=x%20y".
Proof. reflexivity. Qed.

Example queryParameters_example :
  queryParameters (issueUrl "Crash" "Steps: 1 & 2")
  = [("title", "Crash"); ("body", "Steps%3A%201%20%26%202")].
Proof. reflexivity. Qed.

(** C8. The title is put in the address as it was typed, while the report
    is percent-encoded: a title with a reserved character does not come
    out as the query parameter [title], and the report need not come out
    as the query parameter [body]. With the title "C# debugger crash" the
    query of the address opened is [title=C] alone, the rest of the
    title and the report being in the fragment; with the title
    "Save & close" the parameter [title] is "Save " and the rest of the
    title is a parameter of its own. *)
Theorem createIssue_title_not_encoded :
  (∃ s' url,
     (onDescriptionBlur "Steps: 1 & 2" ;; createIssue exampleSerialize)
       (exampleWindow "C# debugger crash" "Steps: 1 & 2")
     = Some (true, s')
     ∧ openedExternal s' = [url]
     ∧ url = "https://github.com/microsoft/vscode/issues/new?title=C# debugger crash&body=Steps%3A%201%20%26%202"
     ∧ queryParameters url = [("title", "C")]
     ∧ fragmentOf url = Some " debugger crash&body=Steps%3A%201%20%26%202")
  ∧ (∃ s' url,
       (onDescriptionBlur "Steps: 1 & 2" ;; createIssue exampleSerialize)
         (exampleWindow "Save & close" "Steps: 1 & 2")
       = Some (true, s')
       ∧ openedExternal s' = [url]
       ∧ url = "https://github.com/microsoft/vscode/issues/new?title=Save & close&body=Steps%3A%201%20%26%202"
       ∧ queryParameters url
         = [("title", "Save "); (" close", ""); ("body", "Steps%3A%201%20%26%202")]).
Proof.
  split.
  - eexists _, _. split; [by vm_compute|]. by split_and!.
  - eexists _, _. split; [by vm_compute|]. by split_and!.
Qed.

(** The description reaches the model when the field loses the focus; the
    report is then opened in the tracker. *)
Example createIssue_example :
  (onDescriptionBlur "Steps..." ;; createIssue exampleSerialize)
    (exampleWindow "Crash on save" "Steps...")
  ≫= (λ r, Some (r.1, openedExternal r.2))
  = Some (true,
          ["https://github.com/microsoft/vscode/issues/new?title=Crash on save&body=Steps..."]).
Proof. by vm_compute. Qed.

Example createIssue_empty_title :
  (λ r, (r.1, activeElement r.2, openedExternal r.2, windowClosed r.2))
  <$> createIssue exampleSerialize (exampleWindow "" "Steps...")
  = Some (false, Some 1, [], false).
Proof. by vm_compute. Qed.

Lemma examplePage_inputs (title description : string) :
  inputsAt (examplePage title description) 1 13 2 14.
Proof. by repeat split. Qed.


Lemma renderBlocks_follows_policy_witness :
  (IssueReporterModel.get (issueReporterModel (exampleWindow "" "")) "issueType"
   = JIssueType Bug
   ∧ DOM.querySelector ["block-system"] (document (exampleWindow "" "")) = Some 3
   ∧ DOM.querySelector ["block-process"] (document (exampleWindow "" "")) = Some 5
   ∧ DOM.querySelector ["block-workspace"] (document (exampleWindow "" "")) = Some 7
   ∧ DOM.querySelector ["block-extensions"] (document (exampleWindow "" "")) = Some 9
   ∧ DOM.getElementById "issue-description-label" (document (exampleWindow "" ""))
     = Some 11
   ∧ DOM.getElementById "issue-description-subtitle" (document (exampleWindow "" ""))
     = Some 12
   ∧ NoDup [3; 5; 7; 9; 12])
  ∧ ∃ s',
      renderBlocks exampleLocalize (exampleWindow "" "") = Some (tt, s')
      ∧ blockShown (document s') 3 = Some true
      ∧ blockShown (document s') 5 = Some false
      ∧ blockShown (document s') 7 = Some false
      ∧ blockShown (document s') 9 = Some true.
Proof.
  assert (NoDup [3; 5; 7; 9; 12]) as Hnodup
    by (apply (bool_decide_unpack _); vm_compute; exact I).
  split; [by split_and!|].
  apply (renderBlocks_follows_policy exampleLocalize (exampleWindow "" "") Bug
           3 5 7 9 11 12); try reflexivity; exact Hnodup.
Defined.

Lemma handleExtensionData_separates_themes_witness :
  DOM.querySelector ["block-extensions"; "block-info"] (document (exampleWindow "" ""))
  = Some 10
  ∧ (∀ ext, onlyTheme ext = true
            ↔ activationEvents (manifest ext) = None
              ∧ ∃ c, contributes (manifest ext) = Some c ∧ Object_keys c = ["themes"])
  ∧ ∃ s', handleExtensionData [vim; dracula; vim] (exampleWindow "" "") = Some (tt, s')
      ∧ IssueReporterModel.get (issueReporterModel s') "numberOfThemeExtesions"
        = JNumber 1
      ∧ IssueReporterModel.get (issueReporterModel s') "enabledNonThemeExtesions"
        = JExtensions [vim; vim]
      ∧ (∀ ext, ext ∈ [vim; dracula; vim] → onlyTheme ext = true →
           ext ∈ [dracula] ∧ ext ∉ [vim; vim])
      ∧ (∀ ext, ext ∈ [vim; dracula; vim] → onlyTheme ext = false →
           ext ∈ [vim; vim] ∧ ext ∉ [dracula]).
Proof.
  split; [reflexivity|].
  apply (handleExtensionData_separates_themes [vim; dracula; vim]
           (exampleWindow "" "") 10).
  reflexivity.
Defined.

Lemma updateExtensionTable_renders_witness :
  DOM.querySelector ["block-extensions"; "block-info"] (document (exampleWindow "" ""))
  = Some 10
  ∧ ∃ s' suffix,
      updateExtensionTable (Some [vim]) (Some 2) (exampleWindow "" "") = Some (tt, s')
      ∧ innerHTMLAt (document s') 10
        = "<table>
			<tr>
				<th>Extension</th>
				<th>Author (truncated)</th>
				<th>Version</th>
			</tr>
				<tr>
					<td>vim</td>
					<td>vsc</td>
					<td>0.10.2</td>
				</tr></table>" +:+ suffix
      ∧ (∃ digits,
           suffix = "
(" +:+ digits +:+ " theme extensions excluded)"
           ∧ NilZero.uint_of_string digits = Some (Nat.to_uint 2))
      ∧ (suffix = "" ↔ Some 2 = None ∨ Some 2 = Some 0)
      ∧ ∀ extension,
          String.prefix (String.substring 0 3 (publisher (manifest extension)))
            (publisher (manifest extension)) = true
          ∧ String.length (String.substring 0 3 (publisher (manifest extension)))
            = 3 `min` String.length (publisher (manifest extension)).
Proof.
  split; [reflexivity|].
  apply (updateExtensionTable_renders [vim] (Some 2) (exampleWindow "" "") 10).
  reflexivity.
Defined.

Lemma updateExtensionTable_without_extensions_witness :
  (DOM.querySelector ["block-extensions"; "block-info"] (document (exampleWindow "" ""))
   = Some 10
   ∧ ∀ ext, ext ∈ [dracula] → onlyTheme ext = true)
  ∧ (∃ s', updateExtensionTable None (Some 1) (exampleWindow "" "") = Some (tt, s')
           ∧ innerHTMLAt (document s') 10
             = "Extensions: none" +:+ themeExclusionStr (Some 1))
  ∧ (themeExclusionStr (Some 1) = "" ↔ Some 1 = None ∨ Some 1 = Some 0)
  ∧ (∀ n, Some 1 = Some n → n ≠ 0 →
       themeExclusionStr (Some 1)
       = nl +:+ "(" +:+ numberToString n +:+ " theme extensions excluded)")
  ∧ groupBy [dracula] extensionGroup !! "nonThemes" = None
  ∧ ∃ s', handleExtensionData [dracula] (exampleWindow "" "") = Some (tt, s')
          ∧ innerHTMLAt (document s') 10
            = "Extensions: none"
              +:+ (nl +:+ "(" +:+ numberToString (length [dracula])
                   +:+ " theme extensions excluded)").
Proof.
  assert (∀ ext, ext ∈ [dracula] → onlyTheme ext = true) as Hthemes
    by (by intros ext ->%list_elem_of_singleton).
  split; [by split|].
  apply (updateExtensionTable_without_extensions [dracula] (Some 1)
           (exampleWindow "" "") 10); [reflexivity | exact Hthemes].
Defined.

Lemma examplePage_handlers (title description : string) :
  handlersAt (examplePage title description).
Proof.
  intros elementId Hid. unfold handlerIds, includeElementIds in Hid. simpl in Hid.
  repeat (apply elem_of_cons in Hid as [->|Hid]; [by eexists|]).
  by apply elem_of_nil in Hid.
Qed.

Lemma construct_initial_state_witness :
  (handlersAt (examplePage "" "")
   ∧ ("de" ≠ "en" → is_Some (DOM.getElementById "english" (examplePage "" "")))
   ∧ DOM.querySelector ["block-extensions"; "block-info"] (examplePage "" "") = Some 10)
  ∧ ∃ s commit date,
      construct examplePlatform "de" (examplePage "" "") [vim; dracula] = Some s
      ∧ IssueReporterModel.get (issueReporterModel s) "issueType" = JIssueType Bug
      ∧ IssueReporterModel.get (issueReporterModel s) "includeSystemInfo" = JBool true
      ∧ IssueReporterModel.get (issueReporterModel s) "includeProcessInfo" = JBool true
      ∧ IssueReporterModel.get (issueReporterModel s) "includeWorkspaceInfo" = JBool true
      ∧ IssueReporterModel.get (issueReporterModel s) "includeExtensions" = JBool true
      ∧ IssueReporterModel.get (issueReporterModel s) "versionInfo"
        = JVersionInfo
            ("code-oss-dev" +:+ " " +:+ "1.20.0" +:+ " (" +:+ commit +:+ ", "
               +:+ date +:+ ")")
            ("Linux" +:+ " " +:+ "x64" +:+ " " +:+ "4.4.0")
      ∧ (product_commit examplePlatform = None → commit = "Commit unknown")
      ∧ (product_date examplePlatform = None → date = "Date unknown")
      ∧ (∀ c, product_commit examplePlatform = Some c → c ≠ "" → commit = c)
      ∧ (∀ d, product_date examplePlatform = Some d → d ≠ "" → date = d).
Proof.
  assert ("de" ≠ "en" → is_Some (DOM.getElementById "english" (examplePage "" "")))
    as Henglish by (by eexists).
  split; [split_and!; [apply examplePage_handlers | exact Henglish | reflexivity]|].
  apply (construct_initial_state examplePlatform "de" (examplePage "" "")
           [vim; dracula] 10);
    [apply examplePage_handlers | exact Henglish | reflexivity].
Defined.

Lemma onIssueTypeChange_changes_issueType_only_witness :
  (DOM.querySelector ["block-system"] (document (exampleWindow "" "")) = Some 3
   ∧ DOM.querySelector ["block-process"] (document (exampleWindow "" "")) = Some 5
   ∧ DOM.querySelector ["block-workspace"] (document (exampleWindow "" "")) = Some 7
   ∧ DOM.querySelector ["block-extensions"] (document (exampleWindow "" "")) = Some 9
   ∧ DOM.getElementById "issue-description-label" (document (exampleWindow "" ""))
     = Some 11
   ∧ DOM.getElementById "issue-description-subtitle" (document (exampleWindow "" ""))
     = Some 12)
  ∧ ∃ s',
      onIssueTypeChange exampleLocalize exampleParseInt "1" (exampleWindow "" "")
      = Some (tt, s')
      ∧ issueReporterModel s'
        = <["issueType" := exampleParseInt "1"]>
            (issueReporterModel (exampleWindow "" ""))
      ∧ (∀ key, key ≠ "issueType" →
           issueReporterModel s' !! key
           = issueReporterModel (exampleWindow "" "") !! key)
      ∧ (∀ i, valueAt (document s') i = valueAt (document (exampleWindow "" "")) i)
      ∧ ∀ previous,
          issueReporterModel (exampleWindow "" "") !! "issueType"
          = Some (exampleParseInt previous) →
          ∃ s'', onIssueTypeChange exampleLocalize exampleParseInt previous s'
                 = Some (tt, s'')
                 ∧ issueReporterModel s'' = issueReporterModel (exampleWindow "" "").
Proof.
  split; [by split_and!|].
  apply (onIssueTypeChange_changes_issueType_only exampleLocalize exampleParseInt
           (exampleWindow "" "") "1" 3 5 7 9 11 12); reflexivity.
Defined.

Lemma onIncludeClick_negates_one_flag_witness :
  "includeProcessInfo" ∈ includeElementIds
  ∧ ∃ s',
      onIncludeClick "includeProcessInfo" (exampleWindow "" "") = Some (tt, s')
      ∧ IssueReporterModel.get (issueReporterModel s') "includeProcessInfo"
        = JBool (negb (truthy (IssueReporterModel.get
                                 (issueReporterModel (exampleWindow "" ""))
                                 "includeProcessInfo")))
      ∧ (∀ flag,
           IssueReporterModel.get (issueReporterModel (exampleWindow "" ""))
             "includeProcessInfo" = JBool flag →
           IssueReporterModel.get (issueReporterModel s') "includeProcessInfo"
           = JBool (negb flag))
      ∧ (∀ key, key ≠ "includeProcessInfo" →
           issueReporterModel s' !! key
           = issueReporterModel (exampleWindow "" "") !! key)
      ∧ (∀ key, key ∈ ["systemInfo"; "processInfo"; "workspaceInfo";
                       "enabledNonThemeExtesions"; "numberOfThemeExtesions"] →
           issueReporterModel s' !! key
           = issueReporterModel (exampleWindow "" "") !! key)
      ∧ document s' = document (exampleWindow "" "")
      ∧ s' = withModel (λ _, issueReporterModel s') (exampleWindow "" "").
Proof.
  assert ("includeProcessInfo" ∈ includeElementIds) as Hid
    by (apply (bool_decide_unpack _); vm_compute; exact I).
  split; [exact Hid|].
  apply (onIncludeClick_negates_one_flag (exampleWindow "" "") "includeProcessInfo" Hid).
Defined.


Lemma onkeydown_closes_on_success_witness :
  (inputsAt (document (exampleWindow "Crash on save" "Steps...")) 1 13 2 14
   ∧ windowClosed (exampleWindow "Crash on save" "Steps...") = false)
  ∧ ∃ s',
      onkeydown exampleSerialize shiftEnter (exampleWindow "Crash on save" "Steps...")
      = Some (tt, s')
      ∧ (windowClosed s' = true
         ↔ shiftKey shiftEnter = true ∧ keyCode shiftEnter = 13%Z
           ∧ valueAt (document (exampleWindow "Crash on save" "Steps...")) 1 ≠ ""
           ∧ valueAt (document (exampleWindow "Crash on save" "Steps...")) 13 ≠ "")
      ∧ (shiftKey shiftEnter = true → keyCode shiftEnter = 13%Z →
         ∃ submitted' s1,
           createIssue exampleSerialize (exampleWindow "Crash on save" "Steps...")
           = Some (submitted', s1)
           ∧ windowClosed s' = submitted'
           ∧ (submitted' = true
              ↔ valueAt (document (exampleWindow "Crash on save" "Steps...")) 1 ≠ ""
                ∧ valueAt (document (exampleWindow "Crash on save" "Steps...")) 13 ≠ "")).
Proof.
  split; [split; [apply examplePage_inputs | reflexivity]|].
  apply (onkeydown_closes_on_success exampleSerialize
           (exampleWindow "Crash on save" "Steps...") shiftEnter 1 13 2 14);
    [apply examplePage_inputs | reflexivity].
Defined.

(** * More of the code *)

(** ** applyStyles *)

(** The rules of the style sheet, colour by colour. *)
Lemma applyStyles_content_rules (styles : IssueReporterStyles) :
  applyStyles_content styles
  = (((((((((rulesFor (inputBackground styles)
               (λ v, ["input, textarea, select { background-color: " +:+ v +:+ "; }"])
             ++ [ match whenSet (inputBorder styles) with
                  | Some v =>
                      "input, textarea, select { border: 1px solid " +:+ v +:+ "; }"
                  | None => "input, textarea, select { border: 1px solid transparent; }"
                  end ])
            ++ rulesFor (inputForeground styles)
                 (λ v, ["input, textarea, select { color: " +:+ v +:+ "; }"]))
           ++ rulesFor (inputErrorBorder styles)
                (λ v, [".invalid-input, .invalid-input:focus { border: 1px solid " +:+ v
                       +:+ " !important; }";
                       ".validation-error { color: " +:+ v +:+ "; }"]))
          ++ rulesFor (inputActiveBorder styles)
               (λ v, ["input[type='text']:focus, textarea:focus, select:focus, summary:focus  { border: 1px solid "
                      +:+ v +:+ "; outline-style: none; }"]))
         ++ rulesFor (textLinkColor styles) (λ v, ["a { color: " +:+ v +:+ "; }"]))
        ++ rulesFor (buttonBackground styles)
             (λ v, ["button { background-color: " +:+ v +:+ "; }"]))
       ++ rulesFor (buttonForeground styles) (λ v, ["button { color: " +:+ v +:+ "; }"]))
      ++ rulesFor (buttonHoverBackground styles)
           (λ v, ["button:hover:enabled { background-color: " +:+ v +:+ "; }"]))
     ++ rulesFor (textLinkColor styles) (λ v, ["a { color: " +:+ v +:+ "; }"])).
Proof.
  assert (∀ o (rules : string → list string) (X Y : list string), X = Y →
            match whenSet o with
            | Some v => X ++ rules v
            | None => X
            end = Y ++ rulesFor o rules) as Hpush.
  { intros o rules X Y ->. unfold rulesFor.
    destruct (whenSet o); [done | by rewrite app_nil_r]. }
  assert (∀ o (a b : string → string) (X Y : list string), X = Y →
            match whenSet o with
            | Some v => (X ++ [a v]) ++ [b v]
            | None => X
            end = Y ++ rulesFor o (λ v, [a v; b v])) as Hpush2.
  { intros o a b X Y ->. unfold rulesFor.
    destruct (whenSet o); [by rewrite <-app_assoc | by rewrite app_nil_r]. }
  assert (∀ o (a : string → string) (b : string) (X Y : list string), X = Y →
            match whenSet o with
            | Some v => X ++ [a v]
            | None => X ++ [b]
            end = Y ++ [match whenSet o with Some v => a v | None => b end]) as Hborder.
  { intros o a b X Y ->. by destruct (whenSet o). }
  unfold applyStyles_content. cbv zeta.
  apply Hpush, Hpush, Hpush, Hpush, Hpush, Hpush.
  apply (Hpush2 (inputErrorBorder styles)
           (λ v, ".invalid-input, .invalid-input:focus { border: 1px solid " +:+ v
                 +:+ " !important; }")
           (λ v, ".validation-error { color: " +:+ v +:+ "; }")).
  apply Hpush.
  apply (Hborder (inputBorder styles)
           (λ v, "input, textarea, select { border: 1px solid " +:+ v +:+ "; }")).
  unfold rulesFor. by destruct (whenSet (inputBackground styles)).
Qed.

Lemma length_rulesFor (o : option string) (rules : string → list string) (k : nat) :
  (∀ v, length (rules v) = k) → length (rulesFor o rules) = k * given o.
Proof.
  intros H. unfold rulesFor, given. destruct (whenSet o); simpl; [rewrite H|]; lia.
Qed.

Lemma filter_rulesFor_nil (P : string → Prop) `{!∀ x, Decision (P x)}
    (o : option string) (rules : string → list string) :
  (∀ v, filter P (rules v) = []) → filter P (rulesFor o rules) = [].
Proof. intros Hrules. unfold rulesFor. by destruct (whenSet o). Qed.

Lemma filter_rulesFor_all (P : string → Prop) `{!∀ x, Decision (P x)}
    (o : option string) (rules : string → list string) :
  (∀ v, filter P (rules v) = rules v) → filter P (rulesFor o rules) = rulesFor o rules.
Proof. intros Hrules. unfold rulesFor. by destruct (whenSet o). Qed.

(** X1. Whatever colours are given, the style sheet sets the border of the
    inputs exactly once: with the colour given for it, or else to
    transparent. *)
Theorem applyStyles_one_input_border (styles : IssueReporterStyles) :
  filter (λ rule, isInputBorderRule rule = true) (applyStyles_content styles)
  = [ match whenSet (inputBorder styles) with
      | Some v => "input, textarea, select { border: 1px solid " +:+ v +:+ "; }"
      | None => "input, textarea, select { border: 1px solid transparent; }"
      end ].
Proof.
  rewrite applyStyles_content_rules, !filter_app.
  rewrite !filter_rulesFor_nil by (intros; reflexivity).
  by destruct (whenSet (inputBorder styles)).
Qed.

(** X2. The style sheet has one rule for the border of the inputs, one
    rule for each other colour that is given, a second rule for the colour
    of errors, and the rule for the colour of links twice. A colour that
    is the empty string counts as not given. *)
Theorem applyStyles_rule_count (styles : IssueReporterStyles) :
  length (applyStyles_content styles)
  = 1 + given (inputBackground styles) + given (inputForeground styles)
    + 2 * given (inputErrorBorder styles) + given (inputActiveBorder styles)
    + 2 * given (textLinkColor styles) + given (buttonBackground styles)
    + given (buttonForeground styles) + given (buttonHoverBackground styles)
  ∧ length (filter (λ rule, isLinkRule rule = true) (applyStyles_content styles))
    = 2 * given (textLinkColor styles)
  ∧ 1 ≤ length (applyStyles_content styles) ≤ 11
  ∧ ∀ o, o = None ∨ o = Some "" → given o = 0.
Proof.
  assert (∀ o, given o ≤ 1) as Hle by (intros o; unfold given; destruct (whenSet o); lia).
  assert (length (applyStyles_content styles)
          = 1 + given (inputBackground styles) + given (inputForeground styles)
            + 2 * given (inputErrorBorder styles) + given (inputActiveBorder styles)
            + 2 * given (textLinkColor styles) + given (buttonBackground styles)
            + given (buttonForeground styles) + given (buttonHoverBackground styles))
    as Hcount.
  { rewrite applyStyles_content_rules, !length_app.
    rewrite (length_rulesFor (inputErrorBorder styles) _ 2) by done.
    rewrite !(length_rulesFor _ _ 1) by done. simpl. lia. }
  split_and!; [exact Hcount | | | | by intros o [->| ->]].
  - rewrite applyStyles_content_rules, !filter_app, !length_app.
    rewrite !(filter_rulesFor_all _ (textLinkColor styles)) by (intros; reflexivity).
    rewrite !filter_rulesFor_nil by (intros; reflexivity).
    rewrite !(length_rulesFor _ _ 1) by done.
    destruct (whenSet (inputBorder styles)); simpl; lia.
  - lia.
  - rewrite Hcount.
    pose proof (Hle (inputBackground styles)). pose proof (Hle (inputForeground styles)).
    pose proof (Hle (inputErrorBorder styles)). pose proof (Hle (inputActiveBorder styles)).
    pose proof (Hle (textLinkColor styles)). pose proof (Hle (buttonBackground styles)).
    pose proof (Hle (buttonForeground styles)).
    pose proof (Hle (buttonHoverBackground styles)). lia.
Qed.

(** ** Similar issues *)

Lemma addIssuesFrom_spec (count i : nat) (links : list SimilarIssues.Link)
    (issueJSON : list SimilarIssues.Issue) :
  i ≤ length issueJSON →
  SimilarIssues.addIssuesFrom count i links issueJSON
  = if decide (i + count ≤ length issueJSON)
    then Some (links ++ (linkOf <$> take count (drop i issueJSON)))
    else None.
Proof.
  revert i links. induction count as [|count IH]; intros i links Hi; simpl.
  - rewrite decide_True by lia. by rewrite app_nil_r.
  - destruct (issueJSON !! i) as [issue|] eqn:Hissue.
    + pose proof (lookup_lt_Some _ _ _ Hissue). rewrite IH by lia.
      destruct (decide (S i + count ≤ length issueJSON)).
      * rewrite decide_True by lia. f_equal.
        rewrite (drop_S _ issue i Hissue). simpl. by rewrite <-app_assoc.
      * by rewrite decide_False by lia.
    + apply lookup_ge_None in Hissue. by rewrite decide_False by lia.
Qed.

(** X3. [addIssuesToList] always reads five items: given at least five
    it appends the links of the first five, in their order, each with the
    address and the title of its item; given fewer it throws. *)
Theorem addIssuesToList_needs_five (links : list SimilarIssues.Link)
    (issueJSON : list SimilarIssues.Issue) :
  SimilarIssues.addIssuesToList links issueJSON
  = if decide (5 ≤ length issueJSON)
    then Some (links ++ (linkOf <$> take 5 issueJSON))
    else None.
Proof.
  unfold SimilarIssues.addIssuesToList. rewrite addIssuesFrom_spec by lia.
  by rewrite drop_0.
Qed.

Section SimilarIssuesProperties.

Variable localize : string → string → string.

(** X4. The answer of the search for similar issues: nothing is shown
    for an empty answer; the title "Similar issues" and the first five
    links are shown for an answer of five items or more; for an answer of
    one to four items the callback throws, and nothing is shown. *)
Theorem onSimilarIssues_cases (items : list SimilarIssues.Issue) :
  onSimilarIssues localize items
  = if decide (length items = 0) then Some None
    else if decide (length items < 5) then None
    else Some (Some (localize "similarIssues" "Similar issues",
                     linkOf <$> take 5 items)).
Proof.
  unfold onSimilarIssues, SimilarIssues.addIssuesToList.
  rewrite addIssuesFrom_spec by lia. rewrite drop_0.
  destruct items as [|issue items]; [done|].
  simpl length. cbn [Nat.eqb negb]. rewrite (decide_False (P := S _ = 0)) by lia.
  destruct (decide (S (length items) < 5)).
  - by rewrite decide_False by (simpl; lia).
  - by rewrite decide_True by (simpl; lia).
Qed.

End SimilarIssuesProperties.

Example onSimilarIssues_three :
  onSimilarIssues exampleLocalize (exampleIssue <$> ["1"; "2"; "3"]) = None.
Proof. reflexivity. Qed.

Example onSimilarIssues_six :
  onSimilarIssues exampleLocalize (exampleIssue <$> ["1"; "2"; "3"; "4"; "5"; "6"])
  = Some (Some ("Similar issues", linkOf ∘ exampleIssue <$> ["1"; "2"; "3"; "4"; "5"])).
Proof. reflexivity. Qed.

Example applyStyles_example :
  applyStyles_content exampleStyles
  = [ "input, textarea, select { background-color: #3c3c3c; }";
      "input, textarea, select { border: 1px solid transparent; }";
      "input, textarea, select { color: #cccccc; }";
      ".invalid-input, .invalid-input:focus { border: 1px solid #be1100 !important; }";
      ".validation-error { color: #be1100; }";
      "a { color: #3794ff; }";
      "a { color: #3794ff; }" ]
  ∧ snd (applyStyles exampleStyles) = Some "#cccccc".
Proof. split; reflexivity. Qed.

(** ** The report in the address *)







(** ** More on the blocks *)

Lemma innerHTMLAt_alter_ne (f : DOM.Element → DOM.Element) (i j : nat)
    (doc : DOM.Document) :
  i ≠ j ∨ (∀ e, DOM.innerHTML (f e) = DOM.innerHTML e) →
  innerHTMLAt (alter f i doc) j = innerHTMLAt doc j.
Proof.
  intros H. unfold innerHTMLAt. rewrite list_lookup_alter.
  destruct (decide (i = j)) as [->|]; [|done].
  destruct H as [|H]; [done|]. destruct (doc !! j); simpl; [|done]. by rewrite H.
Qed.

Lemma innerHTMLAt_alter_set (html : string) (i : nat) (doc : DOM.Document) :
  is_Some (doc !! i) →
  innerHTMLAt (alter (DOM.set_innerHTML html) i doc) i = html.
Proof.
  intros [e H]. unfold innerHTMLAt. by rewrite list_lookup_alter, decide_True, H.
Qed.

Lemma strictEqNumber_true (v : JsValue) (n : Z) :
  strictEqNumber v n = true ↔ v = JNumber n.
Proof.
  destruct v; simpl; try (split; [done | discriminate]).
  rewrite Z.eqb_eq. split; [by intros -> | by intros [= ->]].
Qed.

Lemma blockShown_hidden (doc : DOM.Document) (i : nat) (b : bool) :
  hidden <$> doc !! i = Some (negb b) → blockShown doc i = Some b.
Proof.
  unfold blockShown. destruct (doc !! i); simpl; [|done].
  intros [= ->]. by rewrite negb_involutive.
Qed.

Lemma classList_add_add (c : string) (e : DOM.Element) :
  DOM.classList_add c (DOM.classList_add c e) = DOM.classList_add c e.
Proof.
  unfold DOM.classList_add at 1. rewrite hasClass_add, decide_True by done.
  by destruct e.
Qed.

Lemma classList_remove_remove (c : string) (e : DOM.Element) :
  DOM.classList_remove c (DOM.classList_remove c e) = DOM.classList_remove c e.
Proof.
  unfold DOM.classList_remove. simpl. f_equal.
  rewrite list_filter_filter. apply list_filter_iff. tauto.
Qed.

Section MoreProperties.

Variable localize : string → string → string.
Variable serialize : gmap string JsValue → string.
Variable parseInt : string → JsValue.

(** The document that [renderBlocks] leaves. *)
Lemma renderBlocks_document (s : IssueReporter) (sys proc ws ext lbl sub : nat) :
  DOM.querySelector ["block-system"] (document s) = Some sys →
  DOM.querySelector ["block-process"] (document s) = Some proc →
  DOM.querySelector ["block-workspace"] (document s) = Some ws →
  DOM.querySelector ["block-extensions"] (document s) = Some ext →
  DOM.getElementById "issue-description-label" (document s) = Some lbl →
  DOM.getElementById "issue-description-subtitle" (document s) = Some sub →
  renderBlocks localize s
  = Some (tt, withDocument
                (renderedBlocks localize
                   (IssueReporterModel.get (issueReporterModel s) "issueType")
                   sys proc ws ext lbl sub) s).
Proof.
  intros Hsys Hproc Hws Hext Hlbl Hsub.
  destruct (querySelector_Some _ _ _ Hsys) as (esys & Hesys & _).
  destruct (querySelector_Some _ _ _ Hproc) as (eproc & Heproc & _).
  destruct (querySelector_Some _ _ _ Hws) as (ews & Hews & _).
  destruct (querySelector_Some _ _ _ Hext) as (eext & Heext & _).
  destruct (getElementById_Some _ _ _ Hlbl) as (elbl & Helbl & _).
  destruct (getElementById_Some _ _ _ Hsub) as (esub & Hesub & _).
  unfold renderBlocks, getData, querySelector, getElementById, show, hide, renderedBlocks.
  unfold bind at 1. unfold gets at 1. cbv beta iota.
  unfold bind at 1. unfold gets at 1. cbv beta iota. rewrite Hsys.
  unfold bind at 1. unfold gets at 1. cbv beta iota. rewrite Hproc.
  unfold bind at 1. unfold gets at 1. cbv beta iota. rewrite Hws.
  unfold bind at 1. unfold gets at 1. cbv beta iota. rewrite Hext.
  unfold bind at 1. unfold gets at 1. cbv beta iota. rewrite Hlbl.
  unfold bind at 1. unfold gets at 1. cbv beta iota. rewrite Hsub.
  destruct (strictEqNumber _ (IssueType_number Bug));
    [|destruct (strictEqNumber _ (IssueType_number PerformanceIssue))];
    unfold bind; repeat run_modify; reflexivity.
Qed.

(** X6. The prompt of the description follows the issue type: for a bug
    and for a performance issue the label reads "Steps to Reproduce" and
    the subtitle is shown with the text for that type; for a feature
    request the label reads "Description" and the subtitle is hidden, its
    text being left as it was. *)
Theorem renderBlocks_prompt (s : IssueReporter) (category : IssueType)
    (sys proc ws ext lbl sub : nat) :
  IssueReporterModel.get (issueReporterModel s) "issueType" = JIssueType category →
  DOM.querySelector ["block-system"] (document s) = Some sys →
  DOM.querySelector ["block-process"] (document s) = Some proc →
  DOM.querySelector ["block-workspace"] (document s) = Some ws →
  DOM.querySelector ["block-extensions"] (document s) = Some ext →
  DOM.getElementById "issue-description-label" (document s) = Some lbl →
  DOM.getElementById "issue-description-subtitle" (document s) = Some sub →
  NoDup [sys; proc; ws; ext; sub] →
  ∃ s',
    renderBlocks localize s = Some (tt, s')
    ∧ innerHTMLAt (document s') lbl
      = match category with
        | FeatureRequest => localize "description" "Description"
        | _ => localize "stepsToReproduce" "Steps to Reproduce"
        end +:+ requiredInput
    ∧ blockShown (document s') sub
      = Some match category with FeatureRequest => false | _ => true end
    ∧ innerHTMLAt (document s') sub
      = match category with
        | Bug => localize "bugDescription" "How did you encounter this problem? Please provide clear steps to reproduce the problem during our investigation. What did you expect to happen and what actually did happen?"
        | PerformanceIssue => localize "performanceIssueDesciption" "When did this performance issue happen? For example, does it occur on startup or after a specific series of actions? Any details you can provide help our investigation."
        | FeatureRequest => innerHTMLAt (document s) sub
        end.
Proof.
  intros Htype Hsys Hproc Hws Hext Hlbl Hsub Hnodup.
  assert (lbl ≠ sub) as Hne by (by eapply getElementById_ne).
  destruct (querySelector_Some _ _ _ Hsys) as (esys & Hesys & _).
  destruct (querySelector_Some _ _ _ Hproc) as (eproc & Heproc & _).
  destruct (querySelector_Some _ _ _ Hws) as (ews & Hews & _).
  destruct (querySelector_Some _ _ _ Hext) as (eext & Heext & _).
  destruct (getElementById_Some _ _ _ Hlbl) as (elbl & Helbl & _).
  destruct (getElementById_Some _ _ _ Hsub) as (esub & Hesub & _).
  repeat match goal with
    | H : NoDup (_ :: _) |- _ => apply NoDup_cons in H as [? H]
    end.
  repeat match goal with
    | H : _ ∉ _ :: _ |- _ => apply not_elem_of_cons in H as [? H]
    end.
  eexists. split; [by apply (renderBlocks_document s sys proc ws ext lbl sub)|].
  change (document (withDocument ?f s)) with (f (document s)).
  rewrite Htype. unfold renderedBlocks.
  destruct category; simpl; split_and!;
    try (apply blockShown_hidden; cbn [negb]);
    repeat first
      [ apply innerHTMLAt_alter_set; repeat apply alter_is_Some; eauto
      | apply hidden_alter_hide; repeat apply alter_is_Some; eauto
      | apply hidden_alter_show; repeat apply alter_is_Some; eauto
      | rewrite innerHTMLAt_alter_ne by (first [left; congruence | right; done])
      | rewrite hidden_alter_other by (first [left; congruence | right; done])
      | reflexivity ].
Qed.

(** X7. Any issue type other than Bug and PerformanceIssue, such as a
    selector value that is not a number or an issue type that is missing
    from the model, is rendered as a feature request: the four blocks and
    the subtitle are hidden and the label reads "Description". *)
Theorem renderBlocks_other_values (s : IssueReporter) (sys proc ws ext lbl sub : nat) :
  IssueReporterModel.get (issueReporterModel s) "issueType" ≠ JIssueType Bug →
  IssueReporterModel.get (issueReporterModel s) "issueType"
  ≠ JIssueType PerformanceIssue →
  DOM.querySelector ["block-system"] (document s) = Some sys →
  DOM.querySelector ["block-process"] (document s) = Some proc →
  DOM.querySelector ["block-workspace"] (document s) = Some ws →
  DOM.querySelector ["block-extensions"] (document s) = Some ext →
  DOM.getElementById "issue-description-label" (document s) = Some lbl →
  DOM.getElementById "issue-description-subtitle" (document s) = Some sub →
  NoDup [sys; proc; ws; ext; sub] →
  ∃ s',
    renderBlocks localize s = Some (tt, s')
    ∧ blockShown (document s') sys = Some false
    ∧ blockShown (document s') proc = Some false
    ∧ blockShown (document s') ws = Some false
    ∧ blockShown (document s') ext = Some false
    ∧ blockShown (document s') sub = Some false
    ∧ innerHTMLAt (document s') lbl
      = localize "description" "Description" +:+ requiredInput.
Proof.
  intros Hbug Hperf Hsys Hproc Hws Hext Hlbl Hsub Hnodup.
  assert (lbl ≠ sub) as Hne by (by eapply getElementById_ne).
  destruct (querySelector_Some _ _ _ Hsys) as (esys & Hesys & _).
  destruct (querySelector_Some _ _ _ Hproc) as (eproc & Heproc & _).
  destruct (querySelector_Some _ _ _ Hws) as (ews & Hews & _).
  destruct (querySelector_Some _ _ _ Hext) as (eext & Heext & _).
  destruct (getElementById_Some _ _ _ Hlbl) as (elbl & Helbl & _).
  destruct (getElementById_Some _ _ _ Hsub) as (esub & Hesub & _).
  repeat match goal with
    | H : NoDup (_ :: _) |- _ => apply NoDup_cons in H as [? H]
    end.
  repeat match goal with
    | H : _ ∉ _ :: _ |- _ => apply not_elem_of_cons in H as [? H]
    end.
  eexists. split; [by apply (renderBlocks_document s sys proc ws ext lbl sub)|].
  change (document (withDocument ?f s)) with (f (document s)).
  unfold renderedBlocks.
  assert (strictEqNumber (IssueReporterModel.get (issueReporterModel s) "issueType")
            (IssueType_number Bug) = false) as ->
    by (apply not_true_iff_false; by rewrite strictEqNumber_true).
  assert (strictEqNumber (IssueReporterModel.get (issueReporterModel s) "issueType")
            (IssueType_number PerformanceIssue) = false) as ->
    by (apply not_true_iff_false; by rewrite strictEqNumber_true).
  split_and!;
    try (apply blockShown_hidden; cbn [negb]);
    repeat first
      [ apply innerHTMLAt_alter_set; repeat apply alter_is_Some; eauto
      | apply hidden_alter_hide; repeat apply alter_is_Some; eauto
      | rewrite innerHTMLAt_alter_ne by (first [left; congruence | right; done])
      | rewrite hidden_alter_other by (first [left; congruence | right; done])
      | reflexivity ].
Qed.

Lemma renderedBlocks_sameBut (issueType : JsValue) (sys proc ws ext lbl sub : nat)
    (doc : DOM.Document) :
  sameBut ["hidden"] doc (renderedBlocks localize issueType sys proc ws ext lbl sub doc).
Proof.
  assert (∀ c, sameElementBut ["hidden"] c (DOM.classList_add "hidden" c)) as Hadd
    by (intros; apply sameBut_add; left).
  assert (∀ c, sameElementBut ["hidden"] c (DOM.classList_remove "hidden" c)) as Hrem
    by (intros; apply sameBut_remove; left).
  assert (∀ html c, sameElementBut ["hidden"] c (DOM.set_innerHTML html c)) as Hset
    by (intros; apply sameBut_set_innerHTML).
  unfold renderedBlocks.
  destruct (strictEqNumber _ _); [|destruct (strictEqNumber _ _)];
    repeat (apply sameBut_alter; [done|]); apply sameBut_refl.
Qed.

Lemma renderedBlocks_twice (issueType : JsValue) (sys proc ws ext lbl sub : nat)
    (doc : DOM.Document) :
  NoDup [sys; proc; ws; ext; lbl; sub] →
  renderedBlocks localize issueType sys proc ws ext lbl sub
    (renderedBlocks localize issueType sys proc ws ext lbl sub doc)
  = renderedBlocks localize issueType sys proc ws ext lbl sub doc.
Proof.
  intros Hnodup.
  repeat match goal with
    | H : NoDup (_ :: _) |- _ => apply NoDup_cons in H as [? H]
    end.
  repeat match goal with
    | H : _ ∉ _ :: _ |- _ => apply not_elem_of_cons in H as [? H]
    end.
  assert (∀ (f : DOM.Element → DOM.Element) i k (l : DOM.Document),
            alter f i l !! k = (if decide (i = k) then f else id) <$> l !! k) as Hlookup.
  { intros f i k l. rewrite list_lookup_alter.
    destruct (decide (i = k)) as [->|]; [done|]. by destruct (l !! k). }
  apply list_eq. intros j. unfold renderedBlocks.
  destruct (strictEqNumber _ _); [|destruct (strictEqNumber _ _)];
    rewrite !Hlookup; destruct (doc !! j) as [e|]; simpl; try done; f_equal;
    (destruct (decide (sys = j)) as [<-|];
     [|destruct (decide (proc = j)) as [<-|];
       [|destruct (decide (ws = j)) as [<-|];
         [|destruct (decide (ext = j)) as [<-|];
           [|destruct (decide (lbl = j)) as [<-|];
             [|destruct (decide (sub = j)) as [<-|]]]]]]);
    repeat first [ rewrite decide_True by done | rewrite decide_False by congruence ];
    unfold id;
    rewrite ?classList_add_add, ?classList_remove_remove; try done;
    change (DOM.classList_remove "hidden" (DOM.set_innerHTML ?h ?x))
      with (DOM.set_innerHTML h (DOM.classList_remove "hidden" x));
    by rewrite ?classList_remove_remove.
Qed.

(** X8. Rendering is idempotent: a second [renderBlocks] with the same
    issue type finds the same elements and leaves the window exactly as
    the first one left it. *)
Theorem renderBlocks_idempotent (s : IssueReporter) (sys proc ws ext lbl sub : nat) :
  DOM.querySelector ["block-system"] (document s) = Some sys →
  DOM.querySelector ["block-process"] (document s) = Some proc →
  DOM.querySelector ["block-workspace"] (document s) = Some ws →
  DOM.querySelector ["block-extensions"] (document s) = Some ext →
  DOM.getElementById "issue-description-label" (document s) = Some lbl →
  DOM.getElementById "issue-description-subtitle" (document s) = Some sub →
  NoDup [sys; proc; ws; ext; lbl; sub] →
  ∃ s', renderBlocks localize s = Some (tt, s')
        ∧ renderBlocks localize s' = Some (tt, s').
Proof.
  intros Hsys Hproc Hws Hext Hlbl Hsub Hnodup.
  eexists. split; [by apply (renderBlocks_document s sys proc ws ext lbl sub)|].
  set (issueType := IssueReporterModel.get (issueReporterModel s) "issueType").
  set (s1 := withDocument _ s).
  pose proof (renderedBlocks_sameBut issueType sys proc ws ext lbl sub (document s))
    as Hsame.
  change (renderedBlocks _ _ _ _ _ _ _ _ (document s)) with (document s1) in Hsame.
  assert (∀ c, c ≠ "hidden" →
            DOM.querySelector [c] (document s) = DOM.querySelector [c] (document s1))
    as Hquery.
  { intros c Hc. apply querySelector_sameBut with ["hidden"]; [|done].
    intros c' ->%list_elem_of_singleton ?%list_elem_of_singleton. done. }
  rewrite Hquery in Hsys, Hproc, Hws, Hext by done.
  rewrite (getElementById_sameBut _ "issue-description-label" _ _ Hsame) in Hlbl.
  rewrite (getElementById_sameBut _ "issue-description-subtitle" _ _ Hsame) in Hsub.
  rewrite (renderBlocks_document s1 sys proc ws ext lbl sub Hsys Hproc Hws Hext Hlbl Hsub).
  do 2 f_equal. unfold s1, withDocument. cbn [document issueReporterModel].
  f_equal. by apply renderedBlocks_twice.
Qed.

(** ** The constructor at work *)




Lemma filter_length_split {A} (P : A → bool) (l : list A) :
  length (filter (λ x, P x = true) l) + length (filter (λ x, P x = false) l) = length l.
Proof.
  induction l as [|x l IH]; [done|]. rewrite !filter_cons.
  destruct (P x) eqn:Hx; simpl; lia.
Qed.

(** X10. No extension is lost or counted twice: the number of themes and
    the length of the list of extensions that the model is given add up
    to the number of extensions delivered. *)
Theorem handleExtensionData_conserves (extensions : list ILocalExtension)
    (s : IssueReporter) (target : nat) :
  DOM.querySelector ["block-extensions"; "block-info"] (document s) = Some target →
  ∃ s', handleExtensionData extensions s = Some (tt, s')
        ∧ themeCountOf
            (IssueReporterModel.get (issueReporterModel s') "numberOfThemeExtesions")
          + length (extensionsOf
                      (IssueReporterModel.get (issueReporterModel s')
                         "enabledNonThemeExtesions"))
          = length extensions.
Proof.
  intros Htarget.
  rewrite (handleExtensionData_run extensions s target Htarget).
  eexists. split; [reflexivity|].
  change (issueReporterModel (withDocument ?f (withModel ?g s)))
    with (g (issueReporterModel s)).
  unfold IssueReporterModel.get, IssueReporterModel.update.
  erewrite lookup_union_Some_l; [|reflexivity].
  erewrite (lookup_union_Some_l _ _ "enabledNonThemeExtesions"); [|reflexivity].
  rewrite themes_group, nonThemes_group. simpl.
  rewrite <-(filter_length_split onlyTheme extensions).
  destruct (filter (λ ext, onlyTheme ext = true) extensions),
    (filter (λ ext, onlyTheme ext = false) extensions); simpl; lia.
Qed.

(** X11. A second click on an include check box undoes the first: when
    the flag is a boolean, two clicks leave the window exactly as it
    was. *)
Theorem onIncludeClick_twice (s : IssueReporter) (elementId : string) (flag : bool) :
  issueReporterModel s !! elementId = Some (JBool flag) →
  ∃ s1, onIncludeClick elementId s = Some (tt, s1)
        ∧ onIncludeClick elementId s1 = Some (tt, s).
Proof.
  intros Hflag. eexists. split; [reflexivity|].
  unfold onIncludeClick, getData, update, setModel, modifyState, bind, gets.
  cbv beta iota. do 2 f_equal.
  destruct s as [model ? ? ? ? ? ? ?]. unfold withModel. simpl in *. f_equal.
  unfold IssueReporterModel.update, IssueReporterModel.get.
  rewrite <-!insert_union_singleton_l, lookup_insert_eq, Hflag. simpl.
  rewrite insert_insert_eq, negb_involutive. by apply insert_id.
Qed.

(** ** The constructor and the first rendering *)

(** The window that the constructor leaves. *)
Lemma construct_run (p : Platform) (lang : string) (page : DOM.Document)
    (enabledExtensions : list ILocalExtension) (target : nat) :
  handlersAt page →
  (lang ≠ "en" → is_Some (DOM.getElementById "english" page)) →
  DOM.querySelector ["block-extensions"; "block-info"] page = Some target →
  ∃ s,
    construct p lang page enabledExtensions = Some s
    ∧ IssueReporterModel.get (issueReporterModel s) "issueType" = JIssueType Bug
    ∧ sameBut ["hidden"] page (document s)
    ∧ listeners s = installedListeners
    ∧ openedExternal s = []
    ∧ windowClosed s = false.
Proof.
  intros Hhandlers Henglish Htarget.
  assert (∃ s1, (setEventHandlers ;;
                 (if negb (String.eqb lang "en") then
                    english <- getElementById "english" ;; show english
                  else ret tt)) (created p page) = Some (tt, s1)
                ∧ issueReporterModel s1 = initialData p
                ∧ sameBut ["hidden"] page (document s1)
                ∧ listeners s1 = installedListeners
                ∧ openedExternal s1 = []
                ∧ windowClosed s1 = false)
    as (s1 & Hrun1 & Hmodel1 & Hsame & Hlisteners & Hopened & Hclosed).
  { rewrite (bind_run _ _ _ _ _ (setEventHandlers_run (created p page) Hhandlers)).
    destruct (String.eqb_spec lang "en") as [->|Hlang]; cbn [negb].
    - eexists. split; [reflexivity|]. split_and!; try done. apply sameBut_refl.
    - destruct (Henglish Hlang) as [i Hi].
      destruct (getElementById_Some _ _ _ Hi) as (e & He & _).
      unfold getElementById, show. unfold bind at 1. unfold gets at 1. cbv beta iota.
      change (document (withOnkeydown (withListeners installedListeners (created p page))))
        with page.
      rewrite Hi.
      rewrite (modify_run i e _
                 (withOnkeydown (withListeners installedListeners (created p page))) He).
      eexists. split; [reflexivity|]. split_and!; try done.
      apply sameBut_alter; [|apply sameBut_refl].
      intros; apply sameBut_remove; left. }
  assert (DOM.querySelector ["block-extensions"; "block-info"] (document s1) = Some target)
    as Htarget1.
  { rewrite <-Htarget. symmetry. apply querySelector_sameBut with ["hidden"]; [|done].
    intros c Hc ->%list_elem_of_singleton.
    by repeat (apply elem_of_cons in Hc as [?|Hc]; [done|]); apply elem_of_nil in Hc. }
  unfold construct, IssueReporter_constructor.
  unfold bind at 1 in Hrun1.
  destruct (setEventHandlers (created p page)) as [[[] s0]|] eqn:Hs0; [|done].
  unfold bind at 1. rewrite Hs0. unfold bind at 1. rewrite Hrun1.
  rewrite (handleExtensionData_run enabledExtensions s1 target Htarget1).
  eexists. split; [reflexivity|]. cbn [fmap option_fmap option_map snd].
  split_and!; try done.
  - change (issueReporterModel (withDocument ?f (withModel ?g ?s0)))
      with (g (issueReporterModel s0)).
    rewrite Hmodel1. unfold IssueReporterModel.get, IssueReporterModel.update.
    by rewrite lookup_union_r.
  - change (document (withDocument ?f (withModel ?g ?s0))) with (f (document s0)).
    apply sameBut_alter; [|done]. intros; apply sameBut_set_innerHTML.
Qed.

(** X12. The window opens on the view of a bug: after [startup], whatever
    the language of the page and the extensions delivered, the system and
    extensions blocks are shown, the process and workspace blocks are
    hidden, the model still says Bug, and the eight listeners of
    [setEventHandlers] are the only ones. *)
Theorem startup_shows_bug_view (p : Platform) (lang : string) (page : DOM.Document)
    (enabledExtensions : list ILocalExtension) (target sys proc ws ext lbl sub : nat) :
  handlersAt page →
  (lang ≠ "en" → is_Some (DOM.getElementById "english" page)) →
  DOM.querySelector ["block-extensions"; "block-info"] page = Some target →
  DOM.querySelector ["block-system"] page = Some sys →
  DOM.querySelector ["block-process"] page = Some proc →
  DOM.querySelector ["block-workspace"] page = Some ws →
  DOM.querySelector ["block-extensions"] page = Some ext →
  DOM.getElementById "issue-description-label" page = Some lbl →
  DOM.getElementById "issue-description-subtitle" page = Some sub →
  NoDup [sys; proc; ws; ext; sub] →
  ∃ s,
    startup localize p lang page enabledExtensions = Some s
    ∧ blockShown (document s) sys = Some true
    ∧ blockShown (document s) proc = Some false
    ∧ blockShown (document s) ws = Some false
    ∧ blockShown (document s) ext = Some true
    ∧ IssueReporterModel.get (issueReporterModel s) "issueType" = JIssueType Bug
    ∧ listeners s = installedListeners.
Proof.
  intros Hhandlers Henglish Htarget Hsys Hproc Hws Hext Hlbl Hsub Hnodup.
  destruct (construct_run p lang page enabledExtensions target Hhandlers Henglish Htarget)
    as (s0 & Hconstruct & Htype & Hsame & Hlisteners & _).
  assert (∀ c, c ≠ "hidden" →
            DOM.querySelector [c] page = DOM.querySelector [c] (document s0)) as Hquery.
  { intros c Hc. apply querySelector_sameBut with ["hidden"]; [|done].
    intros c' ->%list_elem_of_singleton ?%list_elem_of_singleton. done. }
  rewrite Hquery in Hsys, Hproc, Hws, Hext by done.
  rewrite (getElementById_sameBut _ "issue-description-label" _ _ Hsame) in Hlbl.
  rewrite (getElementById_sameBut _ "issue-description-subtitle" _ _ Hsame) in Hsub.
  destruct (renderBlocks_run localize s0 sys proc ws ext lbl sub
              Hsys Hproc Hws Hext Hlbl Hsub) as (doc' & Hrun & _ & Hblocks).
  destruct (Hblocks Hnodup) as (H1 & H2 & H3 & H4).
  rewrite Htype in H1, H2, H3, H4.
  exists (withDocument (λ _, doc') s0). split.
  { unfold startup. rewrite Hconstruct. simpl. unfold render. by rewrite Hrun. }
  change (document (withDocument (λ _, doc') s0)) with doc'.
  split_and!; try done; by apply blockShown_hidden.
Qed.

(** ** More on submitting *)

(** X13. What [createIssue] leaves behind: when it submits it logs one
    event [issueReporterSubmit] with the issue type of the model, if
    there is a telemetry service, and adds no listener; when it rejects
    it logs nothing and adds two listeners for [input], on the title and
    on the description. In both cases the texts of the inputs are as
    they were. *)
Theorem createIssue_logs_and_listens (s : IssueReporter) (t d vt vd : nat) :
  inputsAt (document s) t d vt vd →
  ∃ submitted' s',
    createIssue serialize s = Some (submitted', s')
    ∧ telemetryService s'
      = (if submitted'
         then (λ log, log ++ [("issueReporterSubmit",
                               IssueReporterModel.get (issueReporterModel s)
                                 "issueType")])
              <$> telemetryService s
         else telemetryService s)
    ∧ listeners s'
      = (if submitted' then listeners s
         else listeners s ++ [("issue-title", "input"); ("description", "input")])
    ∧ ∀ i, valueAt (document s') i = valueAt (document s) i.
Proof.
  intros Hin.
  pose proof (validatedBoth_sameBut (document s) t d vt vd) as Hsame.
  destruct (nonEmpty (valueAt (document s) t) && nonEmpty (valueAt (document s) d))
    eqn:Hvalid.
  - apply andb_true_iff in Hvalid as [Htitle Hdescription].
    eexists true, _. split; [by apply createIssue_submits|].
    split_and!; [done | done |].
    intros i. by apply (valueAt_sameBut _ _ _ i Hsame).
  - destruct (createIssue_rejects serialize s t d vt vd Hin Hvalid)
      as (focused & Hrun & _).
    eexists false, _. split; [exact Hrun|].
    split_and!; [done | |].
    + simpl. by rewrite <-app_assoc.
    + intros i. by apply (valueAt_sameBut _ _ _ i Hsame).
Qed.

(** X14. The listeners for [input] pile up: each call of [createIssue]
    that finds an empty field adds the two listeners again, so that after
    [k] such calls there are [2 * k] more of them; nothing is opened or
    logged and the window stays. *)
Theorem createIssue_listeners_pile_up (s : IssueReporter) (t d vt vd : nat) (k : nat) :
  inputsAt (document s) t d vt vd →
  nonEmpty (valueAt (document s) t) && nonEmpty (valueAt (document s) d) = false →
  ∃ s',
    times k (createIssue serialize) s = Some (tt, s')
    ∧ listeners s'
      = listeners s
        ++ concat (replicate k [("issue-title", "input"); ("description", "input")])
    ∧ openedExternal s' = openedExternal s
    ∧ telemetryService s' = telemetryService s
    ∧ windowClosed s' = windowClosed s.
Proof.
  revert s. induction k as [|k IH]; intros s Hin Hinvalid.
  - exists s. split; [done|]. simpl. by rewrite app_nil_r.
  - destruct (createIssue_rejects serialize s t d vt vd Hin Hinvalid)
      as (focused & Hrun & _).
    pose proof (validatedBoth_sameBut (document s) t d vt vd) as Hsame.
    destruct (IH (rejected t d vt vd focused s))
      as (s' & Hrun' & Hlisteners & Hopened & Htelemetry & Hclosed).
    + by apply (inputsAt_sameBut _ _ _ _ _ _ Hsame).
    + change (document (rejected t d vt vd focused s))
        with (validatedBoth t d vt vd (document s)).
      by rewrite !(valueAt_sameBut _ _ _ _ Hsame).
    + exists s'. split.
      * cbn [times]. by rewrite (bind_run _ _ _ _ _ Hrun).
      * rewrite Hlisteners, Hopened, Htelemetry, Hclosed. split_and!; try done.
        simpl. by rewrite <-!app_assoc.
Qed.

Lemma getElementById_typed (elementId text : string) (i : nat) (doc : DOM.Document) :
  DOM.getElementById elementId (alter (typed text) i doc)
  = DOM.getElementById elementId doc.
Proof.
  apply list_find_index_ext. revert i.
  induction doc as [|e doc IH]; intros i; [constructor|].
  destruct i as [|i]; simpl; constructor; try done;
    [by apply Forall_Forall2_diag, Forall_true | apply IH].
Qed.

Lemma valueAt_typed_ne (text : string) (i j : nat) (doc : DOM.Document) :
  i ≠ j → valueAt (alter (typed text) i doc) j = valueAt doc j.
Proof. intros H. unfold valueAt. by rewrite list_lookup_alter_ne. Qed.

Lemma valueAt_typed (text : string) (i : nat) (doc : DOM.Document) :
  is_Some (doc !! i) → valueAt (alter (typed text) i doc) i = text.
Proof.
  intros [e H]. unfold valueAt. by rewrite list_lookup_alter, decide_True, H.
Qed.

(** X15. The description reaches the report through the model only: a
    text typed in the description is not in the address that
    [createIssue] opens, whose body is the report of the model as it was,
    unless the description has lost the focus in between, which copies
    the text to the model. *)
Theorem description_reaches_report_on_blur (s : IssueReporter) (t d vt vd : nat)
    (text : string) :
  inputsAt (document s) t d vt vd →
  valueAt (document s) t ≠ "" →
  text ≠ "" →
  ∃ s1 s2,
    createIssue serialize (typeInto d text s) = Some (true, s1)
    ∧ openedExternal s1
      = openedExternal s
        ++ [issueUrl (valueAt (document s) t) (serialize (issueReporterModel s))]
    ∧ (onDescriptionBlur text ;; createIssue serialize) (typeInto d text s)
      = Some (true, s2)
    ∧ openedExternal s2
      = openedExternal s
        ++ [issueUrl (valueAt (document s) t)
              (serialize (<["issueDescription" := JString text]>
                            (issueReporterModel s)))].
Proof.
  intros Hin Htitle Htext.
  pose proof Hin as (Ht & Hd & Hvt & Hvd).
  assert (t ≠ d) as Hne by (by eapply getElementById_ne).
  destruct (getElementById_Some _ _ _ Hd) as (ed & Hed & _).
  assert (inputsAt (document (typeInto d text s)) t d vt vd) as Hin'.
  { unfold inputsAt, typeInto. cbn [document withDocument].
    by rewrite !getElementById_typed. }
  assert (valueAt (document (typeInto d text s)) t = valueAt (document s) t) as Hvalt
    by (by apply valueAt_typed_ne).
  assert (valueAt (document (typeInto d text s)) d = text) as Hvald
    by (by apply valueAt_typed).
  eexists _, _. split_and!.
  - apply createIssue_submits; [done | |].
    + rewrite Hvalt. by apply nonEmpty_true.
    + rewrite Hvald. by apply nonEmpty_true.
  - rewrite Hvalt. done.
  - unfold bind at 1.
    change (onDescriptionBlur text (typeInto d text s))
      with (Some (tt, withModel (IssueReporterModel.update
                                   {[ "issueDescription" := JString text ]})
                        (typeInto d text s))).
    cbv beta iota. apply createIssue_submits; [done | |].
    + change (document (withModel ?f ?s0)) with (document s0).
      rewrite Hvalt. by apply nonEmpty_true.
    + change (document (withModel ?f ?s0)) with (document s0).
      rewrite Hvald. by apply nonEmpty_true.
  - change (document (withModel ?f ?s0)) with (document s0). rewrite Hvalt.
    unfold IssueReporterModel.update. by rewrite insert_union_singleton_l.
Qed.

(** X18. Selecting an issue type shows the view of that type, whatever
    was shown before: the model takes the type selected, the system and
    extensions blocks are shown unless it is a feature request, and the
    process and workspace blocks are shown only for a performance
    issue. *)
Theorem onIssueTypeChange_shows_selection (s : IssueReporter) (value : string)
    (category : IssueType) (sys proc ws ext lbl sub : nat) :
  parseInt value = JIssueType category →
  DOM.querySelector ["block-system"] (document s) = Some sys →
  DOM.querySelector ["block-process"] (document s) = Some proc →
  DOM.querySelector ["block-workspace"] (document s) = Some ws →
  DOM.querySelector ["block-extensions"] (document s) = Some ext →
  DOM.getElementById "issue-description-label" (document s) = Some lbl →
  DOM.getElementById "issue-description-subtitle" (document s) = Some sub →
  NoDup [sys; proc; ws; ext; sub] →
  ∃ s',
    onIssueTypeChange localize parseInt value s = Some (tt, s')
    ∧ IssueReporterModel.get (issueReporterModel s') "issueType" = JIssueType category
    ∧ blockShown (document s') sys
      = Some match category with FeatureRequest => false | _ => true end
    ∧ blockShown (document s') proc
      = Some match category with PerformanceIssue => true | _ => false end
    ∧ blockShown (document s') ws
      = Some match category with PerformanceIssue => true | _ => false end
    ∧ blockShown (document s') ext
      = Some match category with FeatureRequest => false | _ => true end.
Proof.
  intros Hvalue Hsys Hproc Hws Hext Hlbl Hsub Hnodup.
  unfold onIssueTypeChange, update, setModel, render.
  unfold bind at 1. unfold modifyState at 1. cbv beta iota.
  set (s1 := withModel _ s).
  assert (IssueReporterModel.get (issueReporterModel s1) "issueType"
          = JIssueType category) as Htype.
  { unfold s1, IssueReporterModel.get, IssueReporterModel.update.
    cbn [issueReporterModel withModel].
    by rewrite <-insert_union_singleton_l, lookup_insert_eq. }
  change (document s) with (document s1) in Hsys, Hproc, Hws, Hext, Hlbl, Hsub.
  destruct (renderBlocks_run localize s1 sys proc ws ext lbl sub
              Hsys Hproc Hws Hext Hlbl Hsub) as (doc' & Hrun & _ & Hblocks).
  destruct (Hblocks Hnodup) as (H1 & H2 & H3 & H4).
  rewrite Htype in H1, H2, H3, H4.
  exists (withDocument (λ _, doc') s1). split; [exact Hrun|].
  change (document (withDocument (λ _, doc') s1)) with doc'.
  split; [exact Htype|].
  by destruct category; split_and!; apply blockShown_hidden.
Qed.

End MoreProperties.

(** ** The tables of the system and of the processes *)

Lemma foldl_append {A} (f : A → string) (rows : list A) (table : string) :
  foldl (λ table row, table +:+ f row) table rows
  = table +:+ String.concat "" (f <$> rows).
Proof.
  revert table. induction rows as [|r rows IH]; intros table; simpl.
  - by rewrite string_app_nil_r.
  - rewrite IH. destruct rows as [|r' rows]; simpl.
    + by rewrite string_app_nil_r.
    + by rewrite string_app_assoc.
Qed.

(** In an object, a key has one value: looking up the key of an entry
    gives that entry. *)
Lemma list_find_entry {V} (entries : list (string * V)) (k : string) (v : V) :
  NoDup entries.*1 → (k, v) ∈ entries →
  snd <$> list_find (λ entry, entry.1 = k) entries = Some (k, v).
Proof.
  induction entries as [|[k' v'] entries IH]; intros Hnodup Hin.
  - by apply elem_of_nil in Hin.
  - cbn [fmap list_fmap fst] in Hnodup. apply NoDup_cons in Hnodup as [Hk' Hnodup].
    cbn [list_find]. apply elem_of_cons in Hin as [[= <- <-]|Hin].
    + by rewrite decide_True.
    + rewrite decide_False.
      * rewrite <-option_fmap_compose.
        specialize (IH Hnodup Hin).
        destruct (list_find _ entries) as [[]|]; simplify_eq/=; done.
      * simpl. intros ->. apply Hk'. apply list_elem_of_fmap. by exists (k, v).
Qed.

Section BlockInfoProperties.

Variable Value : Type.
Variable toString : Value → string.

Lemma systemInfo_rows (entries rows : list (string * Value)) (table : string) :
  NoDup entries.*1 → rows ⊆ entries →
  foldl (λ tableHtml k,
           match list_find (λ entry, entry.1 = k) entries with
           | Some (_, entry) => tableHtml +:+ systemInfoRow Value toString k entry.2
           | None => tableHtml
           end)
        table (rows.*1)
  = table +:+ String.concat ""
                ((λ entry, systemInfoRow Value toString entry.1 entry.2) <$> rows).
Proof.
  intros Hnodup Hrows. rewrite <-foldl_append. revert table.
  induction rows as [|[k v] rows IH]; intros table; [done|].
  cbn [fmap list_fmap foldl fst snd].
  assert ((k, v) ∈ entries) as Hin by (apply Hrows; left).
  pose proof (list_find_entry entries k v Hnodup Hin) as Hfind.
  destruct (list_find _ entries) as [[i entry]|]; simplify_eq/=.
  apply IH. intros x Hx. apply Hrows. by right.
Qed.

Lemma systemInfoRow_text (k : string) (v : Value) :
  systemInfoRow Value toString k v
  = "
				<tr>
					<td>" +:+ k +:+ "</td>
					<td>" +:+ toString v +:+ "</td>
				</tr>".
Proof.
  unfold systemInfoRow, line. cbn [tabs]. by rewrite !string_app_assoc.
Qed.

Lemma processRow_text (p : ProcessItem Value) :
  processRow Value toString p
  = "
				<tr>
					<td>" +:+ toString (pid Value p) +:+ "</td>
					<td>"
    +:+ toString (cpu Value p) +:+ "</td>
					<td>"
    +:+ toString (memory Value p) +:+ "</td>
					<td>"
    +:+ toString (process_name Value p) +:+ "</td>
				</tr>".
Proof.
  unfold processRow, line. cbn [tabs]. by rewrite !string_app_assoc.
Qed.

(** X16. The table of the system information has one row for each entry
    of the object, in the order of its keys, with the key in the first
    cell and the value of that key in the second. Nothing else in the
    window changes. Without the system information, or without the
    element for the table, [updateSystemInfo] throws. *)
Theorem updateSystemInfo_table (systemInfo : option (list (string * Value)))
    (s : IssueReporter) :
  NoDup (default [] systemInfo).*1 →
  updateSystemInfo Value toString systemInfo s
  = match DOM.querySelector ["block-system"; "block-info"] (document s), systemInfo with
    | Some target, Some entries =>
        Some (tt,
              withDocument
                (alter (DOM.set_innerHTML
                          ("<table>"
                           +:+ String.concat ""
                                 ((λ entry,
                                     "
				<tr>
					<td>" +:+ entry.1 +:+ "</td>
					<td>"
                                     +:+ toString entry.2 +:+ "</td>
				</tr>")
                                  <$> entries)
                           +:+ "</table>"))
                       target) s)
    | _, _ => None
    end.
Proof.
  intros Hnodup. unfold updateSystemInfo, querySelector.
  unfold bind at 1. unfold gets at 1. cbv beta iota.
  destruct systemInfo as [entries|]; [|by destruct (DOM.querySelector _ _)].
  destruct (DOM.querySelector _ _) as [target|] eqn:Htarget; [|done].
  destruct (querySelector_Some _ _ _ Htarget) as (e & He & _).
  rewrite (modify_run target e _ s He).
  rewrite (systemInfo_rows entries entries "" Hnodup) by done.
  rewrite (list_fmap_ext _ _ entries
             (λ _ entry _, systemInfoRow_text entry.1 entry.2)).
  reflexivity.
Qed.

(** X17. The table of the processes has the header row with the titles
    pid, CPU %, Memory (MB) and Name, and then one row for each process,
    in the order of the list, with its pid, cpu, memory and name in this
    order; for an empty list it is the header alone. Nothing else in the
    window changes. Without the list of processes, or without the element
    for the table, [updateProcessInfo] throws. *)
Theorem updateProcessInfo_table (processInfo : option (list (ProcessItem Value)))
    (s : IssueReporter) :
  updateProcessInfo Value toString processInfo s
  = match DOM.querySelector ["block-process"; "block-info"] (document s), processInfo with
    | Some target, Some processes =>
        Some (tt,
              withDocument
                (alter (DOM.set_innerHTML
                          ("<table>
			<tr>
				<th>pid</th>
				<th>CPU %</th>
				<th>Memory (MB)</th>
				<th>Name</th>
			</tr>"
                           +:+ String.concat ""
                                 ((λ p,
                                     "
				<tr>
					<td>" +:+ toString (pid Value p) +:+ "</td>
					<td>"
                                     +:+ toString (cpu Value p) +:+ "</td>
					<td>"
                                     +:+ toString (memory Value p) +:+ "</td>
					<td>"
                                     +:+ toString (process_name Value p) +:+ "</td>
				</tr>")
                                  <$> processes)
                           +:+ "</table>"))
                       target) s)
    | _, _ => None
    end.
Proof.
  unfold updateProcessInfo, querySelector.
  unfold bind at 1. unfold gets at 1. cbv beta iota.
  destruct processInfo as [processes|]; [|by destruct (DOM.querySelector _ _)].
  destruct (DOM.querySelector _ _) as [target|] eqn:Htarget; [|done].
  destruct (querySelector_Some _ _ _ Htarget) as (e & He & _).
  rewrite (modify_run target e _ s He).
  rewrite foldl_append, string_app_assoc.
  rewrite (list_fmap_ext _ _ processes (λ _ p _, processRow_text p)).
  reflexivity.
Qed.

End BlockInfoProperties.

(** * More of the code at work on the example page *)

Lemma renderBlocks_prompt_witness :
  (IssueReporterModel.get (issueReporterModel (exampleWindow "" "")) "issueType" = JIssueType Bug
   ∧ DOM.querySelector ["block-system"] (document (exampleWindow "" "")) = Some 3
   ∧ DOM.querySelector ["block-process"] (document (exampleWindow "" "")) = Some 5
   ∧ DOM.querySelector ["block-workspace"] (document (exampleWindow "" "")) = Some 7
   ∧ DOM.querySelector ["block-extensions"] (document (exampleWindow "" "")) = Some 9
   ∧ DOM.getElementById "issue-description-label" (document (exampleWindow "" "")) = Some 11
   ∧ DOM.getElementById "issue-description-subtitle" (document (exampleWindow "" "")) = Some 12
   ∧ NoDup [3; 5; 7; 9; 12])
  ∧ ∃ s',
      renderBlocks exampleLocalize (exampleWindow "" "") = Some (tt, s')
      ∧ innerHTMLAt (document s') 11 = "Steps to Reproduce" +:+ requiredInput
      ∧ blockShown (document s') 12 = Some true
      ∧ innerHTMLAt (document s') 12
        = "How did you encounter this problem? Please provide clear steps to reproduce the problem during our investigation. What did you expect to happen and what actually did happen?".
Proof.
  assert (NoDup [3; 5; 7; 9; 12]) as Hnodup
    by (apply (bool_decide_unpack _); vm_compute; exact I).
  split; [by split_and!|].
  apply (renderBlocks_prompt exampleLocalize (exampleWindow "" "") Bug 3 5 7 9 11 12);
    try reflexivity; exact Hnodup.
Defined.

Lemma renderBlocks_other_values_witness :
  (IssueReporterModel.get (issueReporterModel exampleWindowOther) "issueType"
   ≠ JIssueType Bug
   ∧ IssueReporterModel.get (issueReporterModel exampleWindowOther) "issueType"
     ≠ JIssueType PerformanceIssue
   ∧ DOM.querySelector ["block-system"] (document exampleWindowOther) = Some 3
   ∧ DOM.querySelector ["block-process"] (document exampleWindowOther) = Some 5
   ∧ DOM.querySelector ["block-workspace"] (document exampleWindowOther) = Some 7
   ∧ DOM.querySelector ["block-extensions"] (document exampleWindowOther) = Some 9
   ∧ DOM.getElementById "issue-description-label" (document exampleWindowOther) = Some 11
   ∧ DOM.getElementById "issue-description-subtitle" (document exampleWindowOther) = Some 12
   ∧ NoDup [3; 5; 7; 9; 12])
  ∧ ∃ s',
      renderBlocks exampleLocalize exampleWindowOther = Some (tt, s')
      ∧ blockShown (document s') 3 = Some false
      ∧ blockShown (document s') 5 = Some false
      ∧ blockShown (document s') 7 = Some false
      ∧ blockShown (document s') 9 = Some false
      ∧ blockShown (document s') 12 = Some false
      ∧ innerHTMLAt (document s') 11 = "Description" +:+ requiredInput.
Proof.
  assert (NoDup [3; 5; 7; 9; 12]) as Hnodup
    by (apply (bool_decide_unpack _); vm_compute; exact I).
  split; [by split_and!|].
  apply (renderBlocks_other_values exampleLocalize exampleWindowOther 3 5 7 9 11 12);
    try reflexivity; try discriminate; exact Hnodup.
Defined.

Lemma renderBlocks_idempotent_witness :
  (DOM.querySelector ["block-system"] (document (exampleWindow "" "")) = Some 3
   ∧ DOM.querySelector ["block-process"] (document (exampleWindow "" "")) = Some 5
   ∧ DOM.querySelector ["block-workspace"] (document (exampleWindow "" "")) = Some 7
   ∧ DOM.querySelector ["block-extensions"] (document (exampleWindow "" "")) = Some 9
   ∧ DOM.getElementById "issue-description-label" (document (exampleWindow "" "")) = Some 11
   ∧ DOM.getElementById "issue-description-subtitle" (document (exampleWindow "" "")) = Some 12
   ∧ NoDup [3; 5; 7; 9; 11; 12])
  ∧ ∃ s', renderBlocks exampleLocalize (exampleWindow "" "") = Some (tt, s')
          ∧ renderBlocks exampleLocalize s' = Some (tt, s').
Proof.
  assert (NoDup [3; 5; 7; 9; 11; 12]) as Hnodup
    by (apply (bool_decide_unpack _); vm_compute; exact I).
  split; [by split_and!|].
  apply (renderBlocks_idempotent exampleLocalize (exampleWindow "" "") 3 5 7 9 11 12);
    try reflexivity; exact Hnodup.
Defined.

Lemma handleExtensionData_conserves_witness :
  DOM.querySelector ["block-extensions"; "block-info"] (document (exampleWindow "" "")) = Some 10
  ∧ ∃ s', handleExtensionData [vim; dracula; vim] (exampleWindow "" "") = Some (tt, s')
          ∧ themeCountOf
              (IssueReporterModel.get (issueReporterModel s') "numberOfThemeExtesions")
            + length (extensionsOf
                        (IssueReporterModel.get (issueReporterModel s')
                           "enabledNonThemeExtesions"))
            = length [vim; dracula; vim].
Proof.
  split; [reflexivity|].
  apply (handleExtensionData_conserves [vim; dracula; vim] (exampleWindow "" "") 10). reflexivity.
Defined.

Lemma onIncludeClick_twice_witness :
  issueReporterModel (exampleWindow "" "") !! "includeSystemInfo" = Some (JBool true)
  ∧ ∃ s1, onIncludeClick "includeSystemInfo" (exampleWindow "" "") = Some (tt, s1)
          ∧ onIncludeClick "includeSystemInfo" s1 = Some (tt, (exampleWindow "" "")).
Proof.
  assert (issueReporterModel (exampleWindow "" "") !! "includeSystemInfo" = Some (JBool true))
    as Hflag by (vm_compute; reflexivity).
  split; [exact Hflag|].
  apply (onIncludeClick_twice (exampleWindow "" "") "includeSystemInfo" true Hflag).
Defined.

Lemma startup_shows_bug_view_witness :
  (handlersAt (examplePage "" "")
   ∧ ("de" ≠ "en" → is_Some (DOM.getElementById "english" (examplePage "" "")))
   ∧ DOM.querySelector ["block-extensions"; "block-info"] (examplePage "" "") = Some 10
   ∧ DOM.querySelector ["block-system"] (examplePage "" "") = Some 3
   ∧ DOM.querySelector ["block-process"] (examplePage "" "") = Some 5
   ∧ DOM.querySelector ["block-workspace"] (examplePage "" "") = Some 7
   ∧ DOM.querySelector ["block-extensions"] (examplePage "" "") = Some 9
   ∧ DOM.getElementById "issue-description-label" (examplePage "" "") = Some 11
   ∧ DOM.getElementById "issue-description-subtitle" (examplePage "" "") = Some 12
   ∧ NoDup [3; 5; 7; 9; 12])
  ∧ ∃ s,
      startup exampleLocalize examplePlatform "de" (examplePage "" "") [vim; dracula]
      = Some s
      ∧ blockShown (document s) 3 = Some true
      ∧ blockShown (document s) 5 = Some false
      ∧ blockShown (document s) 7 = Some false
      ∧ blockShown (document s) 9 = Some true
      ∧ IssueReporterModel.get (issueReporterModel s) "issueType" = JIssueType Bug
      ∧ listeners s = installedListeners.
Proof.
  assert ("de" ≠ "en" → is_Some (DOM.getElementById "english" (examplePage "" "")))
    as Henglish by (by eexists).
  assert (NoDup [3; 5; 7; 9; 12]) as Hnodup
    by (apply (bool_decide_unpack _); vm_compute; exact I).
  split; [split_and!; try reflexivity;
          [apply examplePage_handlers | exact Henglish | exact Hnodup]|].
  apply (startup_shows_bug_view exampleLocalize examplePlatform "de" (examplePage "" "")
           [vim; dracula] 10 3 5 7 9 11 12);
    try reflexivity; [apply examplePage_handlers | exact Henglish | exact Hnodup].
Defined.

Lemma createIssue_logs_and_listens_witness :
  inputsAt (document (exampleWindow "" "Steps...")) 1 13 2 14
  ∧ ∃ submitted' s',
      createIssue exampleSerialize (exampleWindow "" "Steps...") = Some (submitted', s')
      ∧ telemetryService s'
        = (if submitted'
           then (λ log, log ++ [("issueReporterSubmit",
                                 IssueReporterModel.get (issueReporterModel (exampleWindow "" "Steps..."))
                                   "issueType")])
                <$> telemetryService (exampleWindow "" "Steps...")
           else telemetryService (exampleWindow "" "Steps..."))
      ∧ listeners s'
        = (if submitted' then listeners (exampleWindow "" "Steps...")
           else listeners (exampleWindow "" "Steps...") ++ [("issue-title", "input"); ("description", "input")])
      ∧ ∀ i, valueAt (document s') i = valueAt (document (exampleWindow "" "Steps...")) i.
Proof.
  split; [apply examplePage_inputs|].
  apply (createIssue_logs_and_listens exampleSerialize (exampleWindow "" "Steps...") 1 13 2 14).
  apply examplePage_inputs.
Defined.

Lemma createIssue_listeners_pile_up_witness :
  (inputsAt (document (exampleWindow "" "Steps...")) 1 13 2 14
   ∧ nonEmpty (valueAt (document (exampleWindow "" "Steps...")) 1) && nonEmpty (valueAt (document (exampleWindow "" "Steps...")) 13) = false)
  ∧ ∃ s',
      times 3 (createIssue exampleSerialize) (exampleWindow "" "Steps...") = Some (tt, s')
      ∧ listeners s'
        = listeners (exampleWindow "" "Steps...")
          ++ concat (replicate 3 [("issue-title", "input"); ("description", "input")])
      ∧ openedExternal s' = openedExternal (exampleWindow "" "Steps...")
      ∧ telemetryService s' = telemetryService (exampleWindow "" "Steps...")
      ∧ windowClosed s' = windowClosed (exampleWindow "" "Steps...").
Proof.
  split; [split; [apply examplePage_inputs | reflexivity]|].
  apply (createIssue_listeners_pile_up exampleSerialize (exampleWindow "" "Steps...") 1 13 2 14 3);
    [apply examplePage_inputs | reflexivity].
Defined.

Lemma description_reaches_report_on_blur_witness :
  (inputsAt (document (exampleWindow "Crash on save" "")) 1 13 2 14
   ∧ valueAt (document (exampleWindow "Crash on save" "")) 1 ≠ ""
   ∧ "Steps..." ≠ "")
  ∧ ∃ s1 s2,
      createIssue exampleSerialize (typeInto 13 "Steps..." (exampleWindow "Crash on save" "")) = Some (true, s1)
      ∧ openedExternal s1
        = openedExternal (exampleWindow "Crash on save" "")
          ++ [issueUrl (valueAt (document (exampleWindow "Crash on save" "")) 1) (exampleSerialize (issueReporterModel (exampleWindow "Crash on save" "")))]
      ∧ (onDescriptionBlur "Steps..." ;; createIssue exampleSerialize)
          (typeInto 13 "Steps..." (exampleWindow "Crash on save" ""))
        = Some (true, s2)
      ∧ openedExternal s2
        = openedExternal (exampleWindow "Crash on save" "")
          ++ [issueUrl (valueAt (document (exampleWindow "Crash on save" "")) 1)
                (exampleSerialize (<["issueDescription" := JString "Steps..."]>
                                     (issueReporterModel (exampleWindow "Crash on save" ""))))].
Proof.
  split; [split_and!; [apply examplePage_inputs | done | done]|].
  apply (description_reaches_report_on_blur exampleSerialize (exampleWindow "Crash on save" "") 1 13 2 14 "Steps...");
    [apply examplePage_inputs | done | done].
Defined.

Lemma onIssueTypeChange_shows_selection_witness :
  (exampleParseInt "1" = JIssueType PerformanceIssue
   ∧ DOM.querySelector ["block-system"] (document (exampleWindow "" "")) = Some 3
   ∧ DOM.querySelector ["block-process"] (document (exampleWindow "" "")) = Some 5
   ∧ DOM.querySelector ["block-workspace"] (document (exampleWindow "" "")) = Some 7
   ∧ DOM.querySelector ["block-extensions"] (document (exampleWindow "" "")) = Some 9
   ∧ DOM.getElementById "issue-description-label" (document (exampleWindow "" "")) = Some 11
   ∧ DOM.getElementById "issue-description-subtitle" (document (exampleWindow "" "")) = Some 12
   ∧ NoDup [3; 5; 7; 9; 12])
  ∧ ∃ s',
      onIssueTypeChange exampleLocalize exampleParseInt "1" (exampleWindow "" "") = Some (tt, s')
      ∧ IssueReporterModel.get (issueReporterModel s') "issueType"
        = JIssueType PerformanceIssue
      ∧ blockShown (document s') 3 = Some true
      ∧ blockShown (document s') 5 = Some true
      ∧ blockShown (document s') 7 = Some true
      ∧ blockShown (document s') 9 = Some true.
Proof.
  assert (NoDup [3; 5; 7; 9; 12]) as Hnodup
    by (apply (bool_decide_unpack _); vm_compute; exact I).
  split; [by split_and!|].
  apply (onIssueTypeChange_shows_selection exampleLocalize exampleParseInt (exampleWindow "" "") "1"
           PerformanceIssue 3 5 7 9 11 12);
    try reflexivity; exact Hnodup.
Defined.

Lemma updateSystemInfo_table_witness :
  NoDup (default [] (Some exampleSystemInfo)).*1
  ∧ updateSystemInfo string id (Some exampleSystemInfo) (exampleWindow "" "")
    = Some (tt,
            withDocument
              (alter (DOM.set_innerHTML
                        "<table>
				<tr>
					<td>CPUs</td>
					<td>Intel(R) Core(TM) i7 (4 x 2700)</td>
				</tr>
				<tr>
					<td>Memory (System)</td>
					<td>7.87GB (1.20GB free)</td>
				</tr>
				<tr>
					<td>VM</td>
					<td>0%</td>
				</tr></table>")
                     4) (exampleWindow "" "")).
Proof.
  assert (NoDup (default [] (Some exampleSystemInfo)).*1) as Hnodup
    by (apply (bool_decide_unpack _); vm_compute; exact I).
  split; [exact Hnodup|].
  apply (updateSystemInfo_table string id (Some exampleSystemInfo)
           (exampleWindow "" "") Hnodup).
Defined.

Example updateProcessInfo_example :
  updateProcessInfo string id (Some exampleProcesses) (exampleWindow "" "")
  = Some (tt,
          withDocument
            (alter (DOM.set_innerHTML
                      "<table>
			<tr>
				<th>pid</th>
				<th>CPU %</th>
				<th>Memory (MB)</th>
				<th>Name</th>
			</tr>
				<tr>
					<td>4242</td>
					<td>3</td>
					<td>120</td>
					<td>code</td>
				</tr>
				<tr>
					<td>4250</td>
					<td>0</td>
					<td>48</td>
					<td>  shared-process</td>
				</tr></table>")
                   6) (exampleWindow "" "")).
Proof. reflexivity. Qed.

Example updateProcessInfo_undefined :
  updateProcessInfo string id None (exampleWindow "" "") = None.
Proof. reflexivity. Qed.
